(** * NHANES incremental merger: a shallow embedding and its properties

    The development follows the two merge scripts of the repository,
    [merge_nhanes_any_batched.py] (command-line variant) and
    [merge_nhanes_files.py] (environment variant with the medication
    aggregation).  Both share [is_excluded], [component_from_filename],
    [optimize_dtypes] and [suffix_non_key]; they differ in [read_any] and in
    the tail of [main].  The scripts are pandas programs, so the embedding has
    three layers:

    - [Py]: the Python [str] and [pathlib] operations the scripts call;
    - [Pd]: data frames and the pandas operations the scripts call;
    - the scripts' own functions, under their source names.

    Text is modelled as ASCII text: a string is a sequence of characters
    below 128, on which [lower], [upper], [strip] and [\s] below are those of
    Python.  A cased letter or a space outside ASCII is not modelled; where a
    statement is about what a change of case does to a name, the name is
    taken to be ASCII ([Py.isascii]). *)

From Stdlib Require Import ZArith Ascii String List Bool Lia Permutation DecimalString FinFun.
From stdpp Require Import base tactics option list strings gmap sorting.

Local Open Scope Z_scope.
Local Open Scope string_scope.
Local Open Scope list_scope.

(** ** Python strings and paths *)

Module Py.

Definition is_upper (c : ascii) : bool :=
  let n := nat_of_ascii c in (65 <=? n)%nat && (n <=? 90)%nat.
Definition is_lower (c : ascii) : bool :=
  let n := nat_of_ascii c in (97 <=? n)%nat && (n <=? 122)%nat.

Definition lower_char (c : ascii) : ascii :=
  if is_upper c then ascii_of_nat (nat_of_ascii c + 32) else c.
Definition upper_char (c : ascii) : ascii :=
  if is_lower c then ascii_of_nat (nat_of_ascii c - 32) else c.

Fixpoint map_chars (f : ascii -> ascii) (s : string) : string :=
  match s with
  | EmptyString => EmptyString
  | String c s' => String (f c) (map_chars f s')
  end.

(** [str.lower] and [str.upper], on ASCII text. *)
Definition lower : string -> string := map_chars lower_char.
Definition upper : string -> string := map_chars upper_char.

(** [str.isascii]: every character is below 128. *)
Definition isascii_char (c : ascii) : bool := (nat_of_ascii c <? 128)%nat.
Definition isascii (s : string) : bool := forallb isascii_char (list_ascii_of_string s).

(** [str.isspace] on one ASCII character, also what [\s] matches there. *)
Definition isspace (c : ascii) : bool :=
  let n := nat_of_ascii c in
  ((9 <=? n)%nat && (n <=? 13)%nat) || ((28 <=? n)%nat && (n <=? 32)%nat).

Fixpoint lstrip (s : string) : string :=
  match s with
  | String c s' => if isspace c then lstrip s' else s
  | EmptyString => EmptyString
  end.

(** [rstrip] keeps a character when it is not a space or when something
    that is kept follows it. *)
Fixpoint rstrip (s : string) : string :=
  match s with
  | EmptyString => EmptyString
  | String c s' =>
      match rstrip s' with
      | EmptyString => if isspace c then EmptyString else String c EmptyString
      | r => String c r
      end
  end.

(** [str.strip] without arguments. *)
Definition strip (s : string) : string := rstrip (lstrip s).

(** [s.startswith(p)]. *)
Definition startswith (s p : string) : bool := String.prefix p s.

(** [s.endswith(suf)]. *)
Fixpoint endswith (s suf : string) : bool :=
  if String.eqb s suf then true
  else match s with
       | EmptyString => false
       | String _ s' => endswith s' suf
       end.

(** [sub in s]. *)
Fixpoint contains (s sub : string) : bool :=
  if String.prefix sub s then true
  else match s with
       | EmptyString => false
       | String _ s' => contains s' sub
       end.

(** [re.sub(tail + "$", "", s)] for a literal [tail]: [$] matches at the
    end of the string and also just before a final newline. *)
Fixpoint re_sub_tail (tail s : string) : string :=
  if String.eqb s tail then EmptyString
  else if String.eqb s (tail +:+ String "010" EmptyString)
       then String "010" EmptyString
  else match s with
       | EmptyString => EmptyString
       | String c s' => String c (re_sub_tail tail s')
       end.

(** [re.sub(r"\s+", rep, s)]: every maximal run of whitespace becomes one
    copy of [rep]. *)
Fixpoint re_sub_spaces_aux (rep : string) (in_run : bool) (s : string) : string :=
  match s with
  | EmptyString => EmptyString
  | String c s' =>
      if isspace c
      then (if in_run then re_sub_spaces_aux rep true s'
            else rep +:+ re_sub_spaces_aux rep true s')
      else String c (re_sub_spaces_aux rep false s')
  end.
Definition re_sub_spaces (rep s : string) : string :=
  re_sub_spaces_aux rep false s.

(** Position of the last dot of [s], counted from the left. *)
Fixpoint rfind_dot (s : string) : option nat :=
  match s with
  | EmptyString => None
  | String c s' =>
      match rfind_dot s' with
      | Some i => Some (S i)
      | None => if Ascii.eqb c "." then Some O else None
      end
  end.

(** [PurePath.suffix] of a file name: the part from the last dot on, unless
    that dot is the first or the last character. *)
Definition path_suffix (name : string) : string :=
  match rfind_dot name with
  | Some i =>
      if (0 <? i)%nat && (i <? String.length name - 1)%nat
      then String.substring i (String.length name - i) name
      else EmptyString
  | None => EmptyString
  end.

(** [PurePath.stem]: the name without its suffix. *)
Definition path_stem (name : string) : string :=
  String.substring 0 (String.length name - String.length (path_suffix name)) name.

End Py.

(** ** Exceptions and results *)

Inductive exn : Type :=
| ValueError (msg : string)
| TypeError (msg : string)
| KeyError (msg : string)
| AttributeError (msg : string)
| MergeError (msg : string)
| FileNotFoundError (msg : string)
| ArrowError (msg : string)
| ReaderError (msg : string).

Inductive result (A : Type) : Type :=
| Ok (a : A)
| Raise (e : exn).
Arguments Ok {A} a.
Arguments Raise {A} e.

Definition rbind {A B} (r : result A) (k : A -> result B) : result B :=
  match r with
  | Ok a => k a
  | Raise e => Raise e
  end.

Declare Scope result_scope.
Delimit Scope result_scope with result.
Notation "'let?' x := r 'in' k" := (rbind r (fun x => k))
  (at level 10, x name, r at level 100, k at level 200) : result_scope.
Local Open Scope result_scope.

(** ** Data frames *)

(** A cell.  [NA] is the missing value ([NaN], [None]).  A float cell carries
    the bit pattern of its IEEE-754 value; float arithmetic itself is left to
    the numeric kernel below. *)
Inductive value : Type :=
| NA
| VInt (z : Z)
| VFloat (bits : Z)
| VStr (s : string)
| VBool (b : bool).

Global Instance value_eq_dec : EqDecision value.
Proof. solve_decision. Defined.

Definition value_eqb (a b : value) : bool := bool_decide (a = b).

Definition isna (v : value) : bool :=
  match v with NA => true | _ => false end.
Definition notna (v : value) : bool := negb (isna v).

(** Column types the readers and the optimizer produce. *)
Inductive dtype : Type :=
| Int8 | Int16 | Int32 | Int64
| Float32 | Float64
| Bool
| Object
| Category.

Global Instance dtype_eq_dec : EqDecision dtype.
Proof. solve_decision. Defined.

Definition is_float_dtype (d : dtype) : bool :=
  match d with Float32 | Float64 => true | _ => false end.
Definition is_integer_dtype (d : dtype) : bool :=
  match d with Int8 | Int16 | Int32 | Int64 => true | _ => false end.
Definition is_object_dtype (d : dtype) : bool :=
  match d with Object => true | _ => false end.
Definition is_bool_dtype (d : dtype) : bool :=
  match d with Bool => true | _ => false end.

(** Bytes per element; for [Object] the pointer, for [Category] the widest
    code. *)
Definition itemsize (d : dtype) : Z :=
  match d with
  | Int8 => 1 | Int16 => 2 | Int32 => 4 | Int64 => 8
  | Float32 => 4 | Float64 => 8
  | Bool => 1
  | Object => 8
  | Category => 8
  end.

Record Series : Type := mkSeries {
  sdtype : dtype;
  svalues : list value
}.

(** A frame: row labels and labelled columns, in order.  Labels may repeat. *)
Record DataFrame : Type := mkDataFrame {
  index : list Z;
  cols : list (string * Series)
}.

Global Instance Series_eq_dec : EqDecision Series.
Proof. solve_decision. Defined.
Global Instance DataFrame_eq_dec : EqDecision DataFrame.
Proof. solve_decision. Defined.

(** What the scripts obtain from NumPy and the Parquet engine and do not fix
    themselves:

    - [float_le] orders two float bit patterns numerically;
    - [astype_float32] and [allclose32] are the narrowing cast and the
      closeness test that [to_numeric(downcast="float")] applies;
    - [float_of_int] is the cast of an integer to a float;
    - [float_eq_int] says whether a float equals an integer, which Python
      decides exactly, without rounding the integer;
    - [str_of_float] is [str] of a float;
    - [parquet_ok] says whether the engine can encode a frame whose column
      labels are distinct. *)
Class Numeric : Type := {
  float_le : Z -> Z -> bool;
  astype_float32 : Z -> Z;
  allclose32 : Z -> Z -> bool;
  float_of_int : Z -> Z;
  float_eq_int : Z -> Z -> bool;
  str_of_float : Z -> string;
  parquet_ok : DataFrame -> bool
}.

(** Order of the kinds of cell, used only between cells of different kind. *)
Definition kind_rank (v : value) : Z :=
  match v with
  | VBool _ => 0 | VInt _ => 1 | VFloat _ => 2 | VStr _ => 3 | NA => 4
  end.

(** The order [sort_values] and [groupby] sort keys by: ascending, missing
    keys last. *)
Definition value_le `{Numeric} (a b : value) : bool :=
  match a, b with
  | _, NA => true
  | NA, _ => false
  | VInt x, VInt y => (x <=? y)%Z
  | VFloat x, VFloat y => float_le x y
  | VStr x, VStr y => String.leb x y
  | VBool x, VBool y => implb x y
  | _, _ => (kind_rank a <=? kind_rank b)%Z
  end.

(** The row order of [sort_values]: pandas' default sort kind is not stable,
    so all that is known of it is that it sorts. *)
Class Sorter `{Numeric} : Type := {
  argsort : list value -> list nat;
  argsort_perm : forall l, argsort l ≡ₚ seq 0 (length l);
  argsort_sorted : forall l,
    Sorted (fun i j => value_le (nth i l NA) (nth j l NA) = true) (argsort l)
}.

(** ** The pandas operations the scripts call *)

Module Pd.

(** [len(df)], [df.columns], [df.shape[1]]. *)
Definition len (df : DataFrame) : nat := length (index df).
Definition columns (df : DataFrame) : list string := map fst (cols df).
Definition shape1 (df : DataFrame) : nat := length (cols df).

Definition range_index (n : nat) : list Z := map Z.of_nat (seq 0 n).

(** [c in df.columns]. *)
Definition has_column (c : string) (df : DataFrame) : bool :=
  existsb (String.eqb c) (columns df).

(** The columns labelled [c], in order: [df[c]] is a series when there is
    one and a frame when there are several. *)
Definition select (c : string) (df : DataFrame) : list Series :=
  map snd (List.filter (fun p => String.eqb (fst p) c) (cols df)).

(** [df.columns = [f(c) for c in df.columns]]. *)
Definition map_columns (f : string -> string) (df : DataFrame) : DataFrame :=
  mkDataFrame (index df) (map (fun p => (f (fst p), snd p)) (cols df)).

(** [df.drop(columns=names)]. *)
Definition drop (names : list string) (df : DataFrame) : DataFrame :=
  mkDataFrame (index df)
    (List.filter (fun p => negb (existsb (String.eqb (fst p)) names)) (cols df)).

(** [df[names]]: for each name in turn, every column so labelled. *)
Definition getitem (names : list string) (df : DataFrame) : DataFrame :=
  mkDataFrame (index df)
    (flat_map (fun c => List.filter (fun p => String.eqb (fst p) c) (cols df)) names).

(** [df[c] = s] for a label that is present: every column so labelled is
    replaced. *)
Definition setitem (c : string) (f : Series -> Series) (df : DataFrame) : DataFrame :=
  mkDataFrame (index df)
    (map (fun p => if String.eqb (fst p) c then (fst p, f (snd p)) else p) (cols df)).

(** Positional selection of rows, [df.iloc[ps]]. *)
Definition take_values (ps : list nat) (vs : list value) : list value :=
  map (fun i => nth i vs NA) ps.
Definition take_series (ps : list nat) (s : Series) : Series :=
  mkSeries (sdtype s) (take_values ps (svalues s)).
Definition take (ps : list nat) (df : DataFrame) : DataFrame :=
  mkDataFrame (map (fun i => nth i (index df) 0) ps)
              (map (fun p => (fst p, take_series ps (snd p))) (cols df)).

(** Positions of a mask that are set. *)
Fixpoint where_true (from : nat) (mask : list bool) : list nat :=
  match mask with
  | [] => []
  | b :: m => if b then from :: where_true (S from) m else where_true (S from) m
  end.

(** Row [i] restricted to the columns labelled [c]. *)
Definition key_at (ss : list Series) (i : nat) : list value :=
  map (fun s => nth i (svalues s) NA) ss.
Definition key_rows (c : string) (df : DataFrame) : list (list value) :=
  map (key_at (select c df)) (seq 0 (len df)).

(** [duplicated(keep="first")]: a row is marked when an earlier row has the
    same key; missing keys are equal to each other. *)
Fixpoint duplicated_mask {A} `{EqDecision A} (seen : list A) (keys : list A) : list bool :=
  match keys with
  | [] => []
  | k :: ks =>
      bool_decide (k ∈ seen) :: duplicated_mask (k :: seen) ks
  end.

(** [df.duplicated(subset=[c])]. *)
Definition duplicated (c : string) (df : DataFrame) : list bool :=
  duplicated_mask [] (key_rows c df).

(** [df.drop_duplicates(subset=[c], keep="first")]. *)
Definition drop_duplicates (c : string) (df : DataFrame) : DataFrame :=
  take (where_true 0 (map negb (duplicated c df))) df.

(** Python refuses to order a string against a number. *)
Definition is_str (v : value) : bool :=
  match v with VStr _ => true | _ => false end.
Definition is_num (v : value) : bool :=
  match v with VInt _ | VFloat _ | VBool _ => true | _ => false end.
Definition unorderable (vs : list value) : bool :=
  existsb is_str vs && existsb is_num vs.

(** [df.sort_values(c)]: ascending, missing keys last; the label must name
    one column. *)
Definition sort_values `{Sorter} (c : string) (df : DataFrame) : result DataFrame :=
  match select c df with
  | [] => Raise (KeyError c)
  | [s] =>
      if unorderable (svalues s)
      then Raise (TypeError "'<' not supported between instances of 'str' and 'int'")
      else Ok (take (argsort (svalues s)) df)
  | _ => Raise (ValueError ("The column label '" +:+ c +:+ "' is not unique."))
  end.

(** [df.dropna(subset=[c])]: rows whose cells under [c] are all present. *)
Definition dropna (c : string) (df : DataFrame) : DataFrame :=
  take (where_true 0 (map (forallb notna) (key_rows c df))) df.

(** [str(v)] as [astype(str)] applies it to each cell. *)
Definition str_of_value `{Numeric} (v : value) : string :=
  match v with
  | NA => "nan"
  | VInt z => NilZero.string_of_int (Z.to_int z)
  | VFloat b => str_of_float b
  | VStr s => s
  | VBool true => "True"
  | VBool false => "False"
  end.

(** [s.astype(str)]. *)
Definition astype_str `{Numeric} (s : Series) : Series :=
  mkSeries Object (map (fun v => VStr (str_of_value v)) (svalues s)).

(** [sep.join(xs)]. *)
Fixpoint join (sep : string) (xs : list string) : string :=
  match xs with
  | [] => ""
  | [x] => x
  | x :: rest => x +:+ sep +:+ join sep rest
  end.

(** Insertion into a list sorted by [value_le]. *)
Fixpoint insert_sorted `{Numeric} (k : value) (ks : list value) : list value :=
  match ks with
  | [] => [k]
  | k' :: rest => if value_le k k' then k :: ks else k' :: insert_sorted k rest
  end.
Definition sort_keys `{Numeric} (ks : list value) : list value :=
  foldr insert_sorted [] ks.

(** The distinct keys of a column, in order of first appearance. *)
Fixpoint unique (ks : list value) : list value :=
  match ks with
  | [] => []
  | k :: rest => k :: List.filter (fun k' => negb (value_eqb k' k)) (unique rest)
  end.

(** The cells of [vals] on the rows whose key is [k], in row order. *)
Definition group_values (k : value) (keys vals : list value) : list value :=
  map snd (List.filter (fun kv => value_eqb (fst kv) k) (combine keys vals)).

Definition text_of (v : value) : string :=
  match v with VStr s => s | _ => "" end.

(** [df.groupby(key)[c].agg(lambda x: sep.join(x)).reset_index()]: one row
    per key that is present, keys ascending, each with the texts of its
    rows joined in row order; rows without a key form no group. *)
Definition groupby_join `{Numeric} (key c sep : string) (df : DataFrame) : result DataFrame :=
  match select key df, select c df with
  | [ks], [vs] =>
      let keys := sort_keys (unique (List.filter notna (svalues ks))) in
      Ok (mkDataFrame (range_index (length keys))
            [ (key, mkSeries (sdtype ks) keys);
              (c, mkSeries Object
                    (map (fun k => VStr (join sep (map text_of
                                      (group_values k (svalues ks) (svalues vs)))))
                         keys)) ])
  | [], _ => Raise (KeyError key)
  | _, [] => Raise (KeyError c)
  | _, _ => Raise (ValueError ("Grouper for '" +:+ key +:+ "' not 1-dimensional"))
  end.

(** Python's [==] between two cells, which is how the hash table behind
    [nunique] and [astype("category")] tells the cells of an object column
    apart: numbers are compared by value whatever their type, so that [1],
    [1.0] and [True] are one value, and missing cells are one value. *)
Definition int_of_bool (b : bool) : Z := if b then 1 else 0.
Definition py_eq `{Numeric} (a b : value) : bool :=
  match a, b with
  | NA, NA => true
  | VStr x, VStr y => String.eqb x y
  | VInt x, VInt y => (x =? y)%Z
  | VBool x, VBool y => Bool.eqb x y
  | VInt x, VBool y => (x =? int_of_bool y)%Z
  | VBool x, VInt y => (int_of_bool x =? y)%Z
  | VFloat x, VFloat y => float_le x y && float_le y x
  | VFloat x, VInt y => float_eq_int x y
  | VInt x, VFloat y => float_eq_int y x
  | VFloat x, VBool y => float_eq_int x (int_of_bool y)
  | VBool x, VFloat y => float_eq_int y (int_of_bool x)
  | _, _ => false
  end.

(** The values the hash table keeps: in order of first appearance, a cell
    is kept when none of the cells kept so far is equal to it. *)
Fixpoint uniques `{Numeric} (seen vs : list value) : list value :=
  match vs with
  | [] => []
  | v :: rest =>
      if existsb (fun u => py_eq u v) seen then uniques seen rest
      else v :: uniques (seen ++ [v]) rest
  end.

(** [s.nunique(dropna=True)]. *)
Definition nunique `{Numeric} (s : Series) : nat :=
  length (uniques [] (List.filter notna (svalues s))).

(** *** [pd.to_numeric(col, errors="coerce", downcast=...)] on a numeric column *)

Definition int_fits (d : dtype) (v : value) : bool :=
  match v with
  | VInt z => (- 2 ^ (8 * itemsize d - 1) <=? z)%Z && (z <? 2 ^ (8 * itemsize d - 1))%Z
  | _ => false
  end.

(** [maybe_downcast_numeric] towards an integer type: never an upcast; an
    empty column is simply retyped; otherwise the cast is kept when every
    cell survives it. *)
Definition maybe_downcast_int (target : dtype) (s : Series) : Series :=
  if (itemsize (sdtype s) <=? itemsize target)%Z && negb (length (svalues s) =? 0)%nat
  then s
  else if (length (svalues s) =? 0)%nat then mkSeries target (svalues s)
  else if forallb (int_fits target) (svalues s) then mkSeries target (svalues s)
  else s.

Definition cast32 `{Numeric} (v : value) : value :=
  match v with VFloat b => VFloat (astype_float32 b) | _ => v end.
Definition close32 `{Numeric} (new old : value) : bool :=
  match new, old with
  | VFloat a, VFloat b => allclose32 a b
  | _, _ => value_eqb new old
  end.
Fixpoint all_close `{Numeric} (news olds : list value) : bool :=
  match news, olds with
  | n :: ns, o :: os => close32 n o && all_close ns os
  | _, _ => true
  end.

(** [maybe_downcast_numeric] towards a float type: the narrowed column is
    kept when it is close to the original, missing cells matching. *)
Definition maybe_downcast_float `{Numeric} (target : dtype) (s : Series) : Series :=
  if (itemsize (sdtype s) <=? itemsize target)%Z && negb (length (svalues s) =? 0)%nat
  then s
  else if bool_decide (itemsize (sdtype s) = itemsize target) then s
  else let news := map cast32 (svalues s) in
       if all_close news (svalues s) then mkSeries target news else s.

(** The loop over the candidate types, smallest first: a candidate no
    wider than the column is tried, and the loop stops at the first one the
    column ends up with. *)
Fixpoint downcast_loop (try : dtype -> Series -> Series)
         (typecodes : list dtype) (s : Series) : Series :=
  match typecodes with
  | [] => s
  | t :: rest =>
      if (itemsize t <=? itemsize (sdtype s))%Z
      then let s' := try t s in
           if bool_decide (sdtype s' = t) then s' else downcast_loop try rest s'
      else downcast_loop try rest s
  end.

Definition to_numeric_downcast_integer (s : Series) : Series :=
  downcast_loop maybe_downcast_int [Int8; Int16; Int32; Int64] s.
Definition to_numeric_downcast_float `{Numeric} (s : Series) : Series :=
  downcast_loop maybe_downcast_float [Float32; Float64] s.

(** [s.astype("category")]: the categories are the values the hash table
    keeps, and a cell that is present becomes the category equal to it. *)
Definition astype_category `{Numeric} (s : Series) : Series :=
  let categories := uniques [] (List.filter notna (svalues s)) in
  mkSeries Category
    (map (fun v => if isna v then v
                   else default v (find (fun u => py_eq u v) categories))
         (svalues s)).

(** *** [left.merge(right, on=key, how="left")] *)

Definition is_int (v : value) : bool :=
  match v with VInt _ => true | _ => false end.
Definition is_float_or_na (v : value) : bool :=
  match v with VFloat _ | NA => true | _ => false end.
Definition is_bool (v : value) : bool :=
  match v with VBool _ => true | _ => false end.

(** Whether [infer_dtype] of an object column answers "string", "mixed" or
    "empty". *)
Definition infer_string_like (vs : list value) : bool :=
  match vs with
  | [] => true
  | _ => negb (existsb is_int vs) && negb (forallb is_float_or_na vs)
         && negb (forallb is_bool vs)
  end.

Definition is_number_dtype (d : dtype) : bool :=
  is_integer_dtype d || is_float_dtype d.

(** The key check of [merge]: a numeric key column does not join a column
    of strings.  A side without rows is not checked. *)
Definition keys_incompatible (lk rk : Series) : bool :=
  let nonempty s := negb (length (svalues s) =? 0)%nat in
  nonempty lk && nonempty rk &&
  ((is_number_dtype (sdtype lk) && is_object_dtype (sdtype rk)
      && infer_string_like (svalues rk))
   || (is_object_dtype (sdtype lk) && is_number_dtype (sdtype rk)
      && infer_string_like (svalues lk))).

Definition dtype_name (d : dtype) : string :=
  match d with
  | Int8 => "int8" | Int16 => "int16" | Int32 => "int32" | Int64 => "int64"
  | Float32 => "float32" | Float64 => "float64"
  | Bool => "bool" | Object => "object" | Category => "category"
  end.

Definition int_to_float `{Numeric} (v : value) : value :=
  match v with VInt z => VFloat (float_of_int z) | _ => v end.

(** Integer keys are compared with float keys as floats. *)
Definition coerce_keys `{Numeric} (lk rk : Series) : list value * list value :=
  if is_integer_dtype (sdtype lk) && is_float_dtype (sdtype rk)
  then (map int_to_float (svalues lk), svalues rk)
  else if is_float_dtype (sdtype lk) && is_integer_dtype (sdtype rk)
  then (svalues lk, map int_to_float (svalues rk))
  else (svalues lk, svalues rk).

(** Positions of [k] in [keys], counted from [from]. *)
Fixpoint positions_of (k : value) (from : nat) (keys : list value) : list nat :=
  match keys with
  | [] => []
  | k' :: rest =>
      if value_eqb k' k then from :: positions_of k (S from) rest
      else positions_of k (S from) rest
  end.

(** The left-join indexer: left rows in order, each with every matching
    right row, or with none. *)
Fixpoint left_join_indexer (from : nat) (lkeys rkeys : list value)
  : list (nat * option nat) :=
  match lkeys with
  | [] => []
  | k :: rest =>
      match positions_of k 0 rkeys with
      | [] => [(from, None)]
      | js => map (fun j => (from, Some j)) js
      end ++ left_join_indexer (S from) rest rkeys
  end.

(** The type a column takes when missing cells are filled in. *)
Definition promote (d : dtype) : dtype :=
  match d with
  | Int8 | Int16 | Int32 | Int64 => Float64
  | Bool => Object
  | d => d
  end.
Definition promote_value `{Numeric} (d : dtype) (v : value) : value :=
  if is_integer_dtype d then int_to_float v else v.

Definition take_series_fill `{Numeric} (js : list (option nat)) (s : Series) : Series :=
  if forallb (fun o => match o with Some _ => true | None => false end) js
  then mkSeries (sdtype s)
         (map (fun o => match o with Some j => nth j (svalues s) NA | None => NA end) js)
  else mkSeries (promote (sdtype s))
         (map (fun o => match o with
                        | Some j => promote_value (sdtype s) (nth j (svalues s) NA)
                        | None => NA
                        end) js).

(** Labels that became duplicates through the suffixes. *)
Definition suffix_dups (old new : list string) : bool :=
  existsb (fun p => fst p && negb (snd p))
          (combine (duplicated_mask [] new) (duplicated_mask [] old)).

Definition merge `{Numeric} (key : string) (left right : DataFrame) : result DataFrame :=
  match select key left, select key right with
  | [lk], [rk] =>
      if keys_incompatible lk rk
      then Raise (ValueError ("You are trying to merge on " +:+ dtype_name (sdtype lk)
                                +:+ " and " +:+ dtype_name (sdtype rk)
                                +:+ " columns for key '" +:+ key
                                +:+ "'. If you wish to proceed you should use pd.concat"))
      else
        let '(lkeys, rkeys) := coerce_keys lk rk in
        let pairs := left_join_indexer 0 lkeys rkeys in
        let rcols := List.filter (fun p => negb (String.eqb (fst p) key)) (cols right) in
        let lnames := columns left in
        let rnames := map fst rcols in
        let overlap c := existsb (String.eqb c) lnames && existsb (String.eqb c) rnames in
        let lsuffix c := if overlap c then c +:+ "_x" else c in
        let rsuffix c := if overlap c then c +:+ "_y" else c in
        if suffix_dups lnames (map lsuffix lnames)
           || suffix_dups rnames (map rsuffix rnames)
        then Raise (MergeError "Passing 'suffixes' which cause duplicate columns is not allowed")
        else Ok (mkDataFrame (range_index (length pairs))
                   (map (fun p => (lsuffix (fst p),
                                   take_series (map fst pairs) (snd p))) (cols left)
                    ++ map (fun p => (rsuffix (fst p),
                                      take_series_fill (map snd pairs) (snd p))) rcols))
  | [], _ => Raise (KeyError key)
  | _, [] => Raise (KeyError key)
  | _, _ => Raise (ValueError ("The column label '" +:+ key +:+ "' is not unique."))
  end.

End Pd.

(** ** Files, the file system and the run-time effects *)

(** An input file: its name and what the pandas reader for its extension
    ([read_csv] or [read_excel]) returns or raises on it. *)
Record file : Type := mkFile {
  fname : string;
  payload : result DataFrame
}.

(** One entry of the merge report. *)
Record report_row : Type := mkReportRow {
  rr_component : string;
  rr_file : string;
  rr_rows : nat;
  rr_cols : nat
}.

(** What the scripts write.  A Parquet or CSV file written with
    [index=False] holds the columns and the number of rows, not the row
    labels. *)
Inductive artifact : Type :=
| ParquetFile (nrows : nat) (cs : list (string * Series))
| CsvFile (nrows : nat) (cs : list (string * Series))
| ReportFile (rows : list report_row).

(** The world a script runs in: the files it has written and the lines it
    has printed, oldest first. *)
Record world : Type := mkWorld {
  fs : gmap string artifact;
  stdout : list string
}.

(** How a computation ends: normally, with an exception, or in [sys.exit]. *)
Inductive exit_arg : Type :=
| ExitCode (n : Z)
| ExitMsg (msg : string).

Inductive outcome (A : Type) : Type :=
| Normal (a : A)
| Exn (e : exn)
| SystemExit (arg : exit_arg).
Arguments Normal {A} a.
Arguments Exn {A} e.
Arguments SystemExit {A} arg.

Definition M (A : Type) : Type := world -> outcome A * world.

Definition ret {A} (a : A) : M A := fun w => (Normal a, w).
Definition bind {A B} (m : M A) (k : A -> M B) : M B :=
  fun w =>
    match m w with
    | (Normal a, w') => k a w'
    | (Exn e, w') => (Exn e, w')
    | (SystemExit arg, w') => (SystemExit arg, w')
    end.
Definition raise {A} (e : exn) : M A := fun w => (Exn e, w).
Definition sys_exit {A} (arg : exit_arg) : M A := fun w => (SystemExit arg, w).
Definition lift {A} (r : result A) : M A :=
  match r with Ok a => ret a | Raise e => raise e end.

(** [try: x = m  except Exception as e: handler(e)], followed by [k x] when
    no exception was raised.  [SystemExit] is not an [Exception]. *)
Definition try_except {A B} (m : M A) (handler : exn -> M B) (k : A -> M B) : M B :=
  fun w =>
    match m w with
    | (Normal a, w') => k a w'
    | (Exn e, w') => handler e w'
    | (SystemExit arg, w') => (SystemExit arg, w')
    end.

Declare Scope M_scope.
Delimit Scope M_scope with M.
Notation "'do' x <- m ; k" := (bind m (fun x => k))
  (at level 10, x name, m at level 100, k at level 200) : M_scope.
Notation "'run' m ; k" := (bind m (fun _ => k))
  (at level 10, m at level 100, k at level 200) : M_scope.
Local Open Scope M_scope.

Definition print (line : string) : M unit :=
  fun w => (Normal tt, mkWorld (fs w) (stdout w ++ [line])).

(** The status the process ends with. *)
Definition exit_status {A} (o : outcome A) : Z :=
  match o with
  | Normal _ => 0
  | Exn _ => 1
  | SystemExit (ExitCode n) => n
  | SystemExit (ExitMsg _) => 1
  end.

Definition string_of_nat (n : nat) : string :=
  NilZero.string_of_uint (Nat.to_uint n).

Definition str_of_exn (e : exn) : string :=
  match e with
  | ValueError m | TypeError m | KeyError m | AttributeError m
  | MergeError m | FileNotFoundError m | ArrowError m | ReaderError m => m
  end.

Module IO.
Import Pd.

Fixpoint has_dups (l : list string) : bool :=
  match l with
  | [] => false
  | x :: rest => existsb (String.eqb x) rest || has_dups rest
  end.

(** [df.to_parquet(path, index=False)]: the engine refuses repeated column
    labels. *)
Definition to_parquet `{Numeric} (df : DataFrame) (path : string) : M unit :=
  fun w =>
    if has_dups (columns df)
    then (Exn (ValueError "Duplicate column names found"), w)
    else if negb (parquet_ok df)
    then (Exn (ArrowError "Conversion failed"), w)
    else (Normal tt,
          mkWorld (<[path := ParquetFile (len df) (cols df)]> (fs w)) (stdout w)).

(** [pd.read_parquet(path)]: the stored columns under a fresh row index. *)
Definition read_parquet (path : string) : M DataFrame :=
  fun w =>
    match fs w !! path with
    | Some (ParquetFile n cs) => (Normal (mkDataFrame (range_index n) cs), w)
    | Some _ => (Exn (ArrowError "Parquet magic bytes not found"), w)
    | None => (Exn (FileNotFoundError path), w)
    end.

(** [df.to_csv(path, index=False)]. *)
Definition to_csv (df : DataFrame) (path : string) : M unit :=
  fun w =>
    (Normal tt, mkWorld (<[path := CsvFile (len df) (cols df)]> (fs w)) (stdout w)).

(** [pd.DataFrame(report_rows).to_csv(path, index=False)]. *)
Definition report_to_csv (rows : list report_row) (path : string) : M unit :=
  fun w => (Normal tt, mkWorld (<[path := ReportFile rows]> (fs w)) (stdout w)).

(** [path.parent.mkdir(parents=True, exist_ok=True)] for a parent that is
    missing.  The world holds files, not directories, and every directory a
    script writes into is taken to exist: creating one writes no file. *)
Definition mkdir_parent (path : string) : M unit := ret tt.

(** [path.exists()] and [path.unlink()]. *)
Definition exists_ (path : string) : M bool :=
  fun w => (Normal (bool_decide (is_Some (fs w !! path))), w).
Definition unlink (path : string) : M unit :=
  fun w =>
    match fs w !! path with
    | Some _ => (Normal tt, mkWorld (delete path (fs w)) (stdout w))
    | None => (Exn (FileNotFoundError path), w)
    end.
End IO.

(** ** The functions both scripts share *)

Definition EXCLUDE_PREFIXES : list string :=
  ["dictionary_"; "nhanes_inconsistencies_documentation"; "example_"; "m -"; "w -"; "~$"].

Definition is_excluded (name : string) : bool :=
  let lname := Py.lower name in
  existsb (fun p => Py.startswith lname p) EXCLUDE_PREFIXES.

Definition component_from_filename (stem : string) : string :=
  let s := Py.lower stem in
  let s := Py.re_sub_tail "_clean" s in
  let s := Py.re_sub_tail "_unclean" s in
  let s := Py.re_sub_spaces "_" (Py.strip s) in
  s.

(** The reader chosen by extension, as both [read_any] start. *)
Definition read_by_extension (f : file) : result DataFrame :=
  let ext := Py.lower (Py.path_suffix (fname f)) in
  if String.eqb ext ".csv" then payload f
  else if String.eqb ext ".xlsx" || String.eqb ext ".xls" then payload f
  else Raise (ValueError ("Unsupported file type: " +:+ ext)).

(** [[c for c in df.columns if c != "SEQN" and df[c].isna().all()]]: under a
    repeated label [df[c]] is a frame, the test yields a series of several
    truth values, and taking its truth value raises. *)
Fixpoint empty_columns_of (df : DataFrame) (cs : list string) : result (list string) :=
  match cs with
  | [] => Ok []
  | c :: rest =>
      if negb (String.eqb c "SEQN")
      then match Pd.select c df with
           | [s] =>
               let? more := empty_columns_of df rest in
               Ok (if forallb isna (svalues s) then c :: more else more)
           | _ => Raise (ValueError ("The truth value of a Series is ambiguous. "
                                     +:+ "Use a.empty, a.bool(), a.item(), a.any() or a.all()."))
           end
      else empty_columns_of df rest
  end.
Definition empty_columns (df : DataFrame) : result (list string) :=
  empty_columns_of df (Pd.columns df).

Definition max_cat : nat := 200.
(** [cat_ratio = 0.5], as a fraction. *)
Definition cat_ratio_num : nat := 1.
Definition cat_ratio_den : nat := 2.

(** One turn of the loop of [optimize_dtypes] on the column [(c, col)]. *)
Definition optimize_column `{Numeric} (p : string * Series) : string * Series :=
  let '(c, col) := p in
  if String.eqb c "SEQN" then p
  else if is_float_dtype (sdtype col)
  then (c, Pd.to_numeric_downcast_float col)
  else if is_integer_dtype (sdtype col)
  then (c, Pd.to_numeric_downcast_integer col)
  else if is_object_dtype (sdtype col)
  then let nunique := Pd.nunique col in
       if (nunique <=? max_cat)%nat
          && (nunique * cat_ratio_den <=? cat_ratio_num * length (svalues col))%nat
       then (c, Pd.astype_category col)
       else p
  else p.

Definition optimize_dtypes `{Numeric} (df : DataFrame) : DataFrame :=
  mkDataFrame (index df) (map optimize_column (cols df)).

(** [{c: f"{c}__{component}" for c in df.columns if c != "SEQN"}]. *)
Definition rename_map (df : DataFrame) (component : string) : gmap string string :=
  list_to_map
    (map (fun c => (c, c +:+ "__" +:+ component))
         (List.filter (fun c => negb (String.eqb c "SEQN")) (Pd.columns df))).

(** [df.rename(columns=m)]. *)
Definition rename (m : gmap string string) (df : DataFrame) : DataFrame :=
  Pd.map_columns (fun c => default c (m !! c)) df.

Definition suffix_non_key (df : DataFrame) (component : string) : DataFrame :=
  rename (rename_map df component) df.

(** The local variables the loop of [main] carries. *)
Record locals : Type := mkLocals {
  accumulator : option DataFrame;
  report_rows : list report_row
}.

(** The order [main] processes the files in: those whose name starts with
    [demographics_clean] first, then by lower-cased name; [sorted] is
    stable. *)
Definition sort_key (f : file) : Z * string :=
  let n := Py.lower (fname f) in
  (if Py.startswith n "demographics_clean" then 0 else 1, n).
Definition sort_key_le (a b : Z * string) : bool :=
  (fst a <? fst b)%Z || ((fst a =? fst b)%Z && String.leb (snd a) (snd b)).
Fixpoint insert_file (f : file) (fs : list file) : list file :=
  match fs with
  | [] => [f]
  | g :: rest =>
      if sort_key_le (sort_key f) (sort_key g) then f :: fs
      else g :: insert_file f rest
  end.
Definition sorted_files (files : list file) : list file :=
  foldr insert_file [] files.

(** The paths [main] builds with [pathlib], each as [str] and the f-strings
    print it: [base] is the input folder, [Path(args.dir)] or
    [Path(input_dir)], whose text pathlib normalises (it need not be the text
    that was passed); the others are derived from the output base path. *)
Record paths : Type := mkPaths {
  base : string;
  out_parquet : string;
  tmp_parquet : string;
  out_csv : string;
  out_report : string
}.

(** ** [merge_nhanes_any_batched.py] *)

Module Batched.
Import Pd IO.

Definition read_any `{Sorter} (path : file) : result DataFrame :=
  let? df := read_by_extension path in
  (* normalize *)
  let df := map_columns (fun c => Py.upper (Py.strip c)) df in
  if negb (has_column "SEQN" df)
  then Raise (ValueError (fname path +:+ ": No SEQN column found."))
  else
    (* drop empty cols *)
    let? drop_cols := empty_columns df in
    let df := match drop_cols with [] => df | _ => drop drop_cols df end in
    (* dedup by SEQN *)
    if existsb id (duplicated "SEQN" df)
    then let? sorted := sort_values "SEQN" df in
         Ok (drop_duplicates "SEQN" sorted)
    else Ok df.

Record args : Type := mkArgs {
  dir : string;
  out : string;
  csv : Z
}.

(** The body of [for i, f in enumerate(files, 1)]. *)
Definition loop_body `{Sorter} (p : paths) (total i : nat) (f : file) (l : locals)
  : M locals :=
  let comp := component_from_filename (Py.path_stem (fname f)) in
  run print ("[" +:+ string_of_nat i +:+ "/" +:+ string_of_nat total +:+ "] Reading "
             +:+ fname f +:+ " as component '" +:+ comp +:+ "' ...");
  try_except (lift (read_any f))
    (fun e =>
       run print ("[WARN] Skipping " +:+ fname f +:+ ": " +:+ str_of_exn e);
       ret l)
    (fun df =>
       (* optimize and suffix *)
       let df := optimize_dtypes df in
       let df := suffix_non_key df comp in
       let rows := report_rows l ++ [mkReportRow comp (fname f) (len df) (shape1 df)] in
       do acc <- match accumulator l with
                 | None => ret df
                 | Some a =>
                     run print ("    Merging '" +:+ comp +:+ "' into accumulator ("
                                +:+ string_of_nat (shape1 a) +:+ " cols) ...");
                     lift (merge "SEQN" a df)
                 end;
       (* spill to disk, then reload *)
       run to_parquet acc (tmp_parquet p);
       do acc <- read_parquet (tmp_parquet p);
       run print ("    Accumulator now: " +:+ string_of_nat (len acc) +:+ " rows x "
                  +:+ string_of_nat (shape1 acc) +:+ " cols");
       ret (mkLocals (Some acc) rows)).

Fixpoint loop `{Sorter} (p : paths) (total i : nat) (files : list file) (l : locals)
  : M locals :=
  match files with
  | [] => ret l
  | f :: rest =>
      do l' <- loop_body p total i f l;
      loop p total (S i) rest l'
  end.

(** [main], from the directory test on: [a] is the namespace that
    [parse_args] returned (on a command line that it refuses, argparse ends
    the process itself, with status 2, before this point).  [dir_exists] is
    [base.exists()]; [globbed] lists the files the three patterns match. *)
Definition main `{Sorter} (a : args) (p : paths) (dir_exists : bool)
           (globbed : list file) : M unit :=
  if negb dir_exists then sys_exit (ExitMsg ("Folder not found: " +:+ base p))
  else
    let files := List.filter (fun f => negb (is_excluded (fname f))) globbed in
    match files with
    | [] => sys_exit (ExitMsg "No '*_clean.(csv|xlsx|xls)' files found.")
    | _ =>
        (* make demographics first if present *)
        let files := sorted_files files in
        do l <- loop p (length files) 1 files (mkLocals None []);
        (* final write *)
        match accumulator l with
        | None =>
            raise (AttributeError "'NoneType' object has no attribute 'to_parquet'")
        | Some acc =>
            run to_parquet acc (out_parquet p);
            run (if (csv a =? 1)%Z then to_csv acc (out_csv p) else ret tt);
            run report_to_csv (report_rows l) (out_report p);
            run print (String "010" "Done. Final shape: " +:+ string_of_nat (len acc) +:+ " rows x "
                       +:+ string_of_nat (shape1 acc) +:+ " cols");
            run print ("Wrote: " +:+ out_parquet p);
            run (if (csv a =? 1)%Z then print ("Wrote: " +:+ out_csv p) else ret tt);
            print ("Wrote: " +:+ out_report p)
        end
    end.

End Batched.

(** ** [merge_nhanes_files.py] *)

Module Files.
Import Pd IO.

Definition read_any `{Sorter} (path : file) : M DataFrame :=
  do df <- lift (read_by_extension path);
  (* Normalize columns *)
  let df := map_columns (fun c => Py.upper (Py.strip c)) df in
  if negb (has_column "SEQN" df)
  then raise (ValueError (fname path +:+ ": No SEQN column found."))
  else
    (* Drop empty columns *)
    do drop_cols <- lift (empty_columns df);
    let df := match drop_cols with [] => df | _ => drop drop_cols df end in
    (* Special handling for medications *)
    let fname := Py.lower (fname path) in
    let is_meds_file :=
      Py.contains fname "medication" || Py.contains fname "rxq"
      || Py.contains fname "rx_" in
    if is_meds_file && has_column "RXDDRUG" df
    then
      run print "   -> Detected Medication file: aggregating 'RXDDRUG' by SEQN...";
      (* 1. Select only SEQN and the drug name *)
      let df := getitem ["SEQN"; "RXDDRUG"] df in
      (* 2. Remove rows where the drug name is empty *)
      let df := dropna "RXDDRUG" df in
      (* 3. Convert to string *)
      let df := setitem "RXDDRUG" astype_str df in
      (* 4. Group by SEQN and join drugs with a comma *)
      lift (groupby_join "SEQN" "RXDDRUG" ", " df)
    else
      (* Standard deduplication for all other files *)
      if existsb id (duplicated "SEQN" df)
      then do sorted <- lift (sort_values "SEQN" df);
           ret (drop_duplicates "SEQN" sorted)
      else ret df.

(** The environment variables [main] reads. *)
Record env : Type := mkEnv {
  NHANES_INPUT_DIR : option string;
  NHANES_OUTPUT_DIR : option string;
  NHANES_MAKE_CSV : option string
}.

(** Python's truth value of [os.getenv(...)]: unset and empty are false. *)
Definition truthy (o : option string) : bool :=
  match o with
  | Some s => negb (String.eqb s "")
  | None => false
  end.

(** The body of [for i, f in enumerate(files, 1)]. *)
Definition loop_body `{Sorter} (p : paths) (total i : nat) (f : file) (l : locals)
  : M locals :=
  let comp := component_from_filename (Py.path_stem (fname f)) in
  run print ("[" +:+ string_of_nat i +:+ "/" +:+ string_of_nat total +:+ "] Reading "
             +:+ fname f +:+ " as component '" +:+ comp +:+ "' ...");
  try_except (read_any f)
    (fun e =>
       run print ("[WARN] Skipping " +:+ fname f +:+ ": " +:+ str_of_exn e);
       ret l)
    (fun df =>
       let df := optimize_dtypes df in
       let df := suffix_non_key df comp in
       let rows := report_rows l ++ [mkReportRow comp (fname f) (len df) (shape1 df)] in
       do acc <- match accumulator l with
                 | None => ret df
                 | Some a =>
                     run print ("    Merging '" +:+ comp +:+ "' into accumulator ("
                                +:+ string_of_nat (shape1 a) +:+ " cols) ...");
                     lift (merge "SEQN" a df)
                 end;
       run to_parquet acc (tmp_parquet p);
       do acc <- read_parquet (tmp_parquet p);
       run print ("    Accumulator now: " +:+ string_of_nat (len acc) +:+ " rows x "
                  +:+ string_of_nat (shape1 acc) +:+ " cols");
       ret (mkLocals (Some acc) rows)).

Fixpoint loop `{Sorter} (p : paths) (total i : nat) (files : list file) (l : locals)
  : M locals :=
  match files with
  | [] => ret l
  | f :: rest =>
      do l' <- loop_body p total i f l;
      loop p total (S i) rest l'
  end.

(** [main].  [dir_exists] is [base.exists()]; [globbed] lists the files the
    three patterns match. *)
Definition main `{Sorter} (e : env) (p : paths) (dir_exists : bool)
           (globbed : list file) : M unit :=
  let csv_opt := default "0" (NHANES_MAKE_CSV e) in
  (* Validations *)
  if negb (truthy (NHANES_INPUT_DIR e)) || negb (truthy (NHANES_OUTPUT_DIR e))
  then run print "ERROR: Could not find paths in .env file.";
       sys_exit (ExitCode 1)
  else if negb dir_exists
  then sys_exit (ExitMsg ("Input Folder not found: " +:+ base p))
  else
    let files := List.filter (fun f => negb (is_excluded (fname f))) globbed in
    match files with
    | [] => sys_exit (ExitMsg ("No '*_clean.(csv|xlsx|xls)' files found in " +:+ base p))
    | _ =>
        let files := sorted_files files in
        (* Ensure output directory exists *)
        run mkdir_parent (out_parquet p);
        do l <- loop p (length files) 1 files (mkLocals None []);
        match accumulator l with
        | None => sys_exit (ExitMsg "No data merged. Exiting.")
        | Some acc =>
            run to_parquet acc (out_parquet p);
            run (if String.eqb csv_opt "1" then to_csv acc (out_csv p) else ret tt);
            run report_to_csv (report_rows l) (out_report p);
            do present <- exists_ (tmp_parquet p);
            run (if present
                 then try_except (unlink (tmp_parquet p)) (fun _ => ret tt) ret
                 else ret tt);
            run print (String "010" "Done. Final shape: " +:+ string_of_nat (len acc)
                       +:+ " rows x " +:+ string_of_nat (shape1 acc) +:+ " cols");
            print ("Wrote: " +:+ out_parquet p)
        end
    end.

End Files.

(** ** [parquet_to_csv.py] *)

Module Convert.
Import Pd IO.

(** The script.  [output_dir] is [os.getenv("NHANES_OUTPUT_DIR")]; an unset
    variable is formatted as [None] by the f-strings. *)
Definition main (output_dir : option string) : M unit :=
  let output_dir := match output_dir with Some s => s | None => "None" end in
  let parquet_path := output_dir +:+ ".parquet" in
  run print ("Reading: " +:+ parquet_path +:+ "...");
  do df <- read_parquet parquet_path;
  let csv_path := output_dir +:+ ".csv" in
  run print (String "010" "Saving to CSV: " +:+ csv_path +:+ "...");
  run to_csv df csv_path;
  print "Done!".

End Convert.

(** ** A reference kernel

    One concrete choice for what the classes leave open, used to run the
    scripts on examples.  Floats are ordered through their sign-magnitude bit
    patterns; the narrowing cast truncates the mantissa and is accepted only
    when exact; frames are always encodable; sorting is a stable merge sort. *)

Module Reference.

Definition float_key (b : Z) : Z :=
  if (b <? 2 ^ 63)%Z then b else (2 ^ 63 - b)%Z.

Definition truncate32 (b : Z) : Z :=
  (b - (b mod 2 ^ 52) mod 2 ^ 29)%Z.

(** The integer a double is equal to, if it is equal to one. *)
Definition int_of_bits (b : Z) : option Z :=
  let mag := (b mod 2 ^ 63)%Z in
  let e := (mag / 2 ^ 52)%Z in
  let sig := (2 ^ 52 + mag mod 2 ^ 52)%Z in
  let signed (a : Z) := if (b <? 2 ^ 63)%Z then a else (- a)%Z in
  if (mag =? 0)%Z then Some 0%Z
  else if (e <? 1023)%Z || (2047 <=? e)%Z then None
  else if (1075 <=? e)%Z then Some (signed (sig * 2 ^ (e - 1075))%Z)
  else if (sig mod 2 ^ (1075 - e) =? 0)%Z then Some (signed (sig / 2 ^ (1075 - e))%Z)
  else None.

(** The bits of the double equal to [z], exact below [2^53]. *)
Definition bits_of_int (z : Z) : Z :=
  if (z =? 0)%Z then 0%Z
  else let a := Z.abs z in
       let e := Z.log2 a in
       ((if (z <? 0)%Z then 2 ^ 63 else 0)
        + (1023 + e) * 2 ^ 52
        + (Z.shiftl a (52 - e) - 2 ^ 52))%Z.

Global Instance numeric : Numeric := {|
  float_le a b := (float_key a <=? float_key b)%Z;
  astype_float32 := truncate32;
  allclose32 a b := (a =? b)%Z;
  float_of_int := bits_of_int;
  float_eq_int b z := bool_decide (int_of_bits b = Some z);
  str_of_float b := "float:" +:+ NilZero.string_of_int (Z.to_int b);
  parquet_ok _ := true
|}.

Definition key_order (l : list value) (i j : nat) : Prop :=
  value_le (nth i l NA) (nth j l NA) = true.

Global Instance key_order_dec l i j : Decision (key_order l i j).
Proof. unfold key_order. apply _. Defined.

Definition merge_argsort (l : list value) : list nat :=
  merge_sort (key_order l) (seq 0 (length l)).

End Reference.

(** ** Auxiliary notions used in the statements *)

(** The frame [read_any] holds after normalising the labels, checking for the
    key and dropping the empty columns, that is before it resolves the
    cardinality of the key (the common first part of both [read_any]). *)
Definition cleaned (path : file) : result DataFrame :=
  let? df := read_by_extension path in
  let df := Pd.map_columns (fun c => Py.upper (Py.strip c)) df in
  if negb (Pd.has_column "SEQN" df)
  then Raise (ValueError (fname path +:+ ": No SEQN column found."))
  else
    let? drop_cols := empty_columns df in
    Ok (match drop_cols with [] => df | _ => Pd.drop drop_cols df end).

(** The file-name test of the medication path. *)
Definition is_meds_file (path : file) : bool :=
  let fname := Py.lower (fname path) in
  Py.contains fname "medication" || Py.contains fname "rxq" || Py.contains fname "rx_".

(** Every column of a frame has one cell per row. *)
Definition wf_frame (df : DataFrame) : bool :=
  forallb (fun p => (length (svalues (snd p)) =? Pd.len df)%nat) (cols df).

(** The values of the key column, when the label names one column. *)
Definition keys (df : DataFrame) : list value :=
  match Pd.select "SEQN" df with
  | [s] => svalues s
  | _ => []
  end.

(** The label the namespacer gives to [c]. *)
Definition namespaced (component c : string) : string :=
  if String.eqb c "SEQN" then c else c +:+ "__" +:+ component.

(** ** Further notions the properties are stated with *)

(** *** The optimizer *)

(** The integer loop only looks at the type of the column, at whether it is
    empty and at which widths its cells fit: the same loop on those facts. *)
Definition fits_table (b8 b16 b32 b64 : bool) (t : dtype) : bool :=
  match t with
  | Int8 => b8 | Int16 => b16 | Int32 => b32 | Int64 => b64
  | _ => false
  end.

Definition try_width (fits : dtype -> bool) (empty : bool) (t d : dtype) : dtype :=
  if (itemsize d <=? itemsize t)%Z && negb empty then d
  else if empty then t
  else if fits t then t
  else d.

Fixpoint loop_width (fits : dtype -> bool) (empty : bool)
         (typecodes : list dtype) (d : dtype) : dtype :=
  match typecodes with
  | [] => d
  | t :: rest =>
      if (itemsize t <=? itemsize d)%Z
      then let d' := try_width fits empty t d in
           if bool_decide (d' = t) then d' else loop_width fits empty rest d'
      else loop_width fits empty rest d
  end.

Definition fits_of (vs : list value) : dtype -> bool :=
  fits_table (forallb (Pd.int_fits Int8) vs) (forallb (Pd.int_fits Int16) vs)
             (forallb (Pd.int_fits Int32) vs) (forallb (Pd.int_fits Int64) vs).

(** *** The namespacer *)

(** The statement of the specification for two components: their namespaced
    frames have no label in common but the key. *)
Definition namespaces_disjoint (component1 component2 : string) : Prop :=
  forall (df1 df2 : DataFrame) (c : string),
    In c (Pd.columns (suffix_non_key df1 component1)) ->
    In c (Pd.columns (suffix_non_key df2 component2)) ->
    c = "SEQN".

(** *** The loader *)

(** The keys [drop_duplicates(keep="first")] retains, in order. *)
Fixpoint first_occurrences {A} `{EqDecision A} (seen ks : list A) : list A :=
  match ks with
  | [] => []
  | k :: rest =>
      if bool_decide (k ∈ seen) then first_occurrences (k :: seen) rest
      else k :: first_occurrences (k :: seen) rest
  end.

(** The deduplication both [read_any] end with. *)
Definition resolve_duplicates `{Sorter} (df : DataFrame) : result DataFrame :=
  if existsb id (Pd.duplicated "SEQN" df)
  then let? sorted := Pd.sort_values "SEQN" df in
       Ok (Pd.drop_duplicates "SEQN" sorted)
  else Ok df.

(** The four statements of the medication path. *)
Definition aggregate_medications `{Numeric} (df : DataFrame) : result DataFrame :=
  let df := Pd.getitem ["SEQN"; "RXDDRUG"] df in
  let df := Pd.dropna "RXDDRUG" df in
  let df := Pd.setitem "RXDDRUG" Pd.astype_str df in
  Pd.groupby_join "SEQN" "RXDDRUG" ", " df.

(** Whether [read_any] of [merge_nhanes_files.py] takes the medication path
    on the cleaned frame [df] of the file [path]. *)
Definition takes_medication_path (path : file) (df : DataFrame) : bool :=
  is_meds_file path && Pd.has_column "RXDDRUG" df.

(** What [read_any] of [merge_nhanes_files.py] returns or raises. *)
Definition loaded `{Sorter} (path : file) : result DataFrame :=
  let? df := cleaned path in
  if takes_medication_path path df then aggregate_medications df
  else resolve_duplicates df.

(** What it prints. *)
Definition loader_prints (path : file) : list string :=
  match cleaned path with
  | Ok df =>
      if takes_medication_path path df
      then ["   -> Detected Medication file: aggregating 'RXDDRUG' by SEQN..."]
      else []
  | Raise _ => []
  end.

Definition outcome_of {A} (r : result A) : outcome A :=
  match r with Ok a => Normal a | Raise e => Exn e end.

(** *** The left join *)

(** The columns labelled [c]. *)
Definition sel (c : string) (cs : list (string * Series)) : list Series :=
  map snd (List.filter (fun p => String.eqb (fst p) c) cs).

(** What a successful merge returns, given the two key columns. *)
Definition merged `{Numeric} (a d : DataFrame) (lk rk : Series) : DataFrame :=
  let '(lkeys, rkeys) := Pd.coerce_keys lk rk in
  let pairs := Pd.left_join_indexer 0 lkeys rkeys in
  let rcols := List.filter (fun p => negb (String.eqb (fst p) "SEQN")) (cols d) in
  let lnames := Pd.columns a in
  let rnames := map fst rcols in
  let overlap c := existsb (String.eqb c) lnames && existsb (String.eqb c) rnames in
  let lsuffix c := if overlap c then c +:+ "_x" else c in
  let rsuffix c := if overlap c then c +:+ "_y" else c in
  mkDataFrame (Pd.range_index (length pairs))
    (map (fun p => (lsuffix (fst p), Pd.take_series (map fst pairs) (snd p))) (cols a)
     ++ map (fun p => (rsuffix (fst p),
                       Pd.take_series_fill (map snd pairs) (snd p))) rcols).

(** *** Keys as the join compares them *)

(** What [merge] does to a key of the left and of the right table before it
    compares them: an integer key that meets a float key column is cast to a
    float. *)
Definition left_key `{Numeric} (lk rk : Series) (k : value) : value :=
  if is_integer_dtype (sdtype lk) && is_float_dtype (sdtype rk)
  then Pd.int_to_float k else k.
Definition right_key `{Numeric} (lk rk : Series) (k : value) : value :=
  if is_float_dtype (sdtype lk) && is_integer_dtype (sdtype rk)
  then Pd.int_to_float k else k.


(** *** Input files *)

(** The frame a reader returns is well formed. *)
Definition file_wf (path : file) : bool :=
  match payload path with
  | Ok raw => wf_frame raw
  | Raise _ => true
  end.


(** *** The medication aggregation *)

(** The rows of a key column [ks] and a drug column [vs] that name a drug. *)
Definition medication_rows (ks vs : list value) : list (value * value) :=
  List.filter (fun kv => notna (snd kv)) (combine ks vs).

(** The drug names recorded for the key [k], in row order, repeats kept. *)
Definition drug_names `{Numeric} (k : value) (ks vs : list value) : list string :=
  map (fun kv => Pd.str_of_value (snd kv))
      (List.filter (fun kv => value_eqb (fst kv) k) (medication_rows ks vs)).

(** The keys of the aggregated component. *)
Definition medication_keys `{Numeric} (ks vs : list value) : list value :=
  Pd.sort_keys (Pd.unique (List.filter notna (map fst (medication_rows ks vs)))).

(** The aggregated component. *)
Definition aggregated `{Numeric} (ks vs : Series) : DataFrame :=
  let K := medication_keys (svalues ks) (svalues vs) in
  mkDataFrame (Pd.range_index (length K))
    [ ("SEQN", mkSeries (sdtype ks) K);
      ("RXDDRUG",
       mkSeries Object
         (map (fun k => VStr (Pd.join ", " (drug_names k (svalues ks) (svalues vs)))) K)) ].

(** *** The merge loop *)


(** The component [main] merges: the loaded one, optimized and namespaced. *)
Definition ready `{Numeric} (df : DataFrame) (component : string) : DataFrame :=
  suffix_non_key (optimize_dtypes df) component.

(** The loop body of both scripts, over the reader it calls. *)
Definition body_with `{Numeric} (read : file -> M DataFrame)
           (p : paths) (total i : nat) (f : file) (l : locals) : M locals :=
  let comp := component_from_filename (Py.path_stem (fname f)) in
  run print ("[" +:+ string_of_nat i +:+ "/" +:+ string_of_nat total +:+ "] Reading "
             +:+ fname f +:+ " as component '" +:+ comp +:+ "' ...");
  try_except (read f)
    (fun e =>
       run print ("[WARN] Skipping " +:+ fname f +:+ ": " +:+ str_of_exn e);
       ret l)
    (fun df =>
       let df := optimize_dtypes df in
       let df := suffix_non_key df comp in
       let rows := report_rows l
                   ++ [mkReportRow comp (fname f) (Pd.len df) (Pd.shape1 df)] in
       do acc <- match accumulator l with
                 | None => ret df
                 | Some a =>
                     run print ("    Merging '" +:+ comp +:+ "' into accumulator ("
                                +:+ string_of_nat (Pd.shape1 a) +:+ " cols) ...");
                     lift (Pd.merge "SEQN" a df)
                 end;
       run IO.to_parquet acc (tmp_parquet p);
       do acc <- IO.read_parquet (tmp_parquet p);
       run print ("    Accumulator now: " +:+ string_of_nat (Pd.len acc) +:+ " rows x "
                  +:+ string_of_nat (Pd.shape1 acc) +:+ " cols");
       ret (mkLocals (Some acc) rows)).

Fixpoint loop_with `{Numeric} (read : file -> M DataFrame)
         (p : paths) (total i : nat) (files : list file) (l : locals) : M locals :=
  match files with
  | [] => ret l
  | f :: rest =>
      do l' <- body_with read p total i f l;
      loop_with read p total (S i) rest l'
  end.

(** A reader that returns what [load] returns and touches no file. *)
Definition reads (read : file -> M DataFrame) (load : file -> result DataFrame) : Prop :=
  forall f w, exists out,
    read f w = (outcome_of (load f), mkWorld (fs w) (stdout w ++ out)).

(** The first component that loads. *)
Fixpoint anchor (load : file -> result DataFrame) (files : list file) : option DataFrame :=
  match files with
  | [] => None
  | f :: rest =>
      match load f with
      | Ok df => Some df
      | Raise _ => anchor load rest
      end
  end.



(** *** The merge loop, whatever the type of the keys *)

(** What the merge loop relies on in a loaded component: every column has one
    cell per row, there is a key column, and no key occurs twice. *)
Definition keyed (df : DataFrame) : Prop :=
  wf_frame df = true
  /\ Pd.has_column "SEQN" df = true
  /\ NoDup (Pd.key_rows "SEQN" df).

(** The accumulator carries the rows and the key column of the anchor. *)
Definition acc_keeps (df0 acc : DataFrame) : Prop :=
  wf_frame acc = true
  /\ Pd.len acc = Pd.len df0
  /\ exists s, Pd.select "SEQN" acc = [s] /\ Pd.select "SEQN" df0 = [s].

(** The component [d] joins the table [a] without two of its keys becoming
    one: when the keys of [a] are floats and those of [d] integers, the keys
    of [d] are distinct as floats. *)
Definition joins_cleanly `{Numeric} (a d : DataFrame) : Prop :=
  match Pd.select "SEQN" a, Pd.select "SEQN" d with
  | [lk], [rk] =>
      is_float_dtype (sdtype lk) && is_integer_dtype (sdtype rk) = true ->
      NoDup (map Pd.int_to_float (svalues rk))
  | _, _ => True
  end.

(** Every component that loads joins the anchor [df0] in this way. *)
Definition run_joins_cleanly `{Numeric} (load : file -> result DataFrame)
           (df0 : DataFrame) (files : list file) : Prop :=
  Forall (fun f => match load f with
                   | Ok d => joins_cleanly df0 d
                   | Raise _ => True
                   end) files.

(** What [read_parquet] returns right after [to_parquet] wrote [m]. *)
Definition reloaded (m : DataFrame) : DataFrame :=
  mkDataFrame (Pd.range_index (Pd.len m)) (cols m).

(** The order [main] processes the matched files in. *)
Definition processing_order (globbed : list file) : list file :=
  sorted_files (List.filter (fun f => negb (is_excluded (fname f))) globbed).

(** *** A small survey, used in the examples *)

Module Example.

(** Four subjects, one of them entered twice; one column without values; the
    labels as a reader may return them. *)
Definition demographics : file :=
  mkFile "demographics_clean.csv"
    (Ok (mkDataFrame [0; 1; 2; 3]
           [ ("seqn ", mkSeries Int64 [VInt 3; VInt 1; VInt 2; VInt 1]);
             ("Age", mkSeries Int64 [VInt 30; VInt 10; VInt 20; VInt 11]);
             ("notes", mkSeries Float64 [NA; NA; NA; NA]) ])).

(** Prescriptions: subject 1 has two, subject 2 one without a drug name,
    subject 5 is not in the demographics. *)
Definition medications : file :=
  mkFile "rxq_rx_clean.csv"
    (Ok (mkDataFrame [0; 1; 2; 3]
           [ ("SEQN", mkSeries Int64 [VInt 1; VInt 1; VInt 2; VInt 5]);
             ("RXDDRUG", mkSeries Object [VStr "A"; VStr "B"; NA; VStr "C"]);
             ("DOSE", mkSeries Int64 [VInt 1; VInt 2; VInt 3; VInt 4]) ])).

(** A file without the key column. *)
Definition labs : file :=
  mkFile "labs_clean.csv"
    (Ok (mkDataFrame [0] [ ("ID", mkSeries Int64 [VInt 3]) ])).

(** A file whose keys are strings. *)
Definition visits : file :=
  mkFile "visits_clean.csv"
    (Ok (mkDataFrame [0; 1]
           [ ("SEQN", mkSeries Object [VStr "S1"; VStr "S2"]);
             ("SITE", mkSeries Int64 [VInt 7; VInt 8]) ])).

(** Body weights, a well-formed component processed after the visits. *)
Definition weights : file :=
  mkFile "weights_clean.csv"
    (Ok (mkDataFrame [0; 1]
           [ ("SEQN", mkSeries Int64 [VInt 1; VInt 2]);
             ("KG", mkSeries Int64 [VInt 70; VInt 80]) ])).

Definition out_paths : paths :=
  mkPaths "in" "out.parquet" "out_tmp.parquet" "out.csv" "out_merge_report.csv".

Definition environment : Files.env :=
  Files.mkEnv (Some "in") (Some "out") None.

Definition arguments : Batched.args := Batched.mkArgs "in" "out" 0.

Definition empty_world : world := mkWorld ∅ [].

End Example.

(** *** Statements of the specification *)

(** The statement of the specification for a loop body: whatever happens to
    one component, the step ends normally, so the run goes on. *)
Definition never_aborts (body : paths -> nat -> nat -> file -> locals -> M locals) : Prop :=
  forall p total i f l w, exists l' w', body p total i f l w = (Normal l', w').

(** The statement of the specification for a run: when [main] returns, the
    output has as many rows as the first component that loaded. *)
Definition rows_of_anchor {cfg : Type}
           (main : cfg -> paths -> bool -> list file -> M unit)
           (load : file -> result DataFrame) : Prop :=
  forall c p dir_exists files w w' df0 n cs,
    main c p dir_exists files w = (Normal tt, w') ->
    anchor load (processing_order files) = Some df0 ->
    fs w' !! out_parquet p = Some (ParquetFile n cs) ->
    n = Pd.len df0.

(** Position [p] holds the first occurrence of its key in [l]. *)
Definition is_first_occurrence (l : list value) (p : nat) : Prop :=
  (p < length l)%nat /\ forall j, (j < p)%nat -> nth j l NA <> nth p l NA.

(** ** Notions for the further properties *)

(** *** Files and labels *)

(** The order [sorted] puts the files in. *)
Definition file_le (f g : file) : Prop :=
  sort_key_le (sort_key f) (sort_key g) = true.

(** The extension of the file is one [read_any] reads. *)
Definition supported (f : file) : Prop :=
  In (Py.lower (Py.path_suffix (fname f))) [".csv"; ".xlsx"; ".xls"].

(** The normalisation [read_any] applies to a label. *)
Definition normalised (c : string) : string := Py.upper (Py.strip c).

(** The string does not start with whitespace. *)
Definition no_lead (s : string) : Prop :=
  match s with
  | EmptyString => True
  | String c _ => Py.isspace c = false
  end.

(** The file does not take the medication path of [merge_nhanes_files.py]. *)
Definition plain_file (f : file) : Prop :=
  match cleaned f with
  | Ok c => takes_medication_path f c = false
  | Raise _ => True
  end.

(** *** The optimizer *)

(** What [optimize_dtypes] may do to one column. *)
Definition column_kept `{Numeric} (old new : string * Series) : Prop :=
  fst new = fst old
  /\ length (svalues (snd new)) = length (svalues (snd old))
  /\ (itemsize (sdtype (snd new)) <= itemsize (sdtype (snd old)))%Z
  /\ is_integer_dtype (sdtype (snd new)) = is_integer_dtype (sdtype (snd old))
  /\ is_float_dtype (sdtype (snd new)) = is_float_dtype (sdtype (snd old))
  /\ (svalues (snd new) = svalues (snd old)
      \/ (sdtype (snd old) = Float64 /\ sdtype (snd new) = Float32
          /\ svalues (snd new) = map Pd.cast32 (svalues (snd old))
          /\ Pd.all_close (map Pd.cast32 (svalues (snd old))) (svalues (snd old)) = true)
      \/ (sdtype (snd old) = Object /\ sdtype (snd new) = Category
          /\ Forall2 (fun o n => n = o \/ (notna o = true /\ Pd.py_eq n o = true))
                     (svalues (snd old)) (svalues (snd new)))).

(** A cell of text, or a missing cell. *)
Definition text_or_na (v : value) : Prop := isna v = true \/ Pd.is_str v = true.

(** *** The loop and the end of [main], up to what is printed *)

(** What one turn of the loop writes to the checkpoint: the component itself
    when the accumulator is empty, the left join otherwise. *)
Definition merged_with `{Numeric} (l : locals) (d : DataFrame) : result DataFrame :=
  match accumulator l with
  | None => Ok d
  | Some a => Pd.merge "SEQN" a d
  end.

(** One turn of the loop on a file whose load is known, up to what it
    prints. *)
Definition step_of `{Numeric} (p : paths) (f : file) (loaded_f : result DataFrame)
           (l : locals) (files : gmap string artifact)
  : outcome locals * gmap string artifact :=
  let comp := component_from_filename (Py.path_stem (fname f)) in
  match loaded_f with
  | Raise _ => (Normal l, files)
  | Ok df =>
      match merged_with l (ready df comp) with
      | Raise e => (Exn e, files)
      | Ok m =>
          if IO.has_dups (Pd.columns m)
          then (Exn (ValueError "Duplicate column names found"), files)
          else if negb (parquet_ok m)
          then (Exn (ArrowError "Conversion failed"), files)
          else (Normal (mkLocals (Some (reloaded m))
                          (report_rows l
                           ++ [mkReportRow comp (fname f) (Pd.len df) (Pd.shape1 df)])),
                <[tmp_parquet p := ParquetFile (Pd.len m) (cols m)]> files)
      end
  end.

(** The loop on files whose loads are known, up to what it prints. *)
Fixpoint run_of `{Numeric} (load : file -> result DataFrame) (p : paths)
         (files : list file) (l : locals) (store : gmap string artifact)
  : outcome locals * gmap string artifact :=
  match files with
  | [] => (Normal l, store)
  | f :: rest =>
      match step_of p f (load f) l store with
      | (Normal l', store') => run_of load p rest l' store'
      | ended => ended
      end
  end.

(** The end of [main] of [merge_nhanes_any_batched.py], from the result of
    the loop on, up to what it prints. *)
Definition Batched_end `{Numeric} (a : Batched.args) (p : paths)
           (looped : outcome locals * gmap string artifact)
  : outcome unit * gmap string artifact :=
  match looped with
  | (Normal l, store) =>
      match accumulator l with
      | None =>
          (Exn (AttributeError "'NoneType' object has no attribute 'to_parquet'"), store)
      | Some acc =>
          if IO.has_dups (Pd.columns acc)
          then (Exn (ValueError "Duplicate column names found"), store)
          else if negb (parquet_ok acc)
          then (Exn (ArrowError "Conversion failed"), store)
          else
            let store := <[out_parquet p := ParquetFile (Pd.len acc) (cols acc)]> store in
            let store := if (Batched.csv a =? 1)%Z
                         then <[out_csv p := CsvFile (Pd.len acc) (cols acc)]> store
                         else store in
            (Normal tt, <[out_report p := ReportFile (report_rows l)]> store)
      end
  | (Exn e, store) => (Exn e, store)
  | (SystemExit arg, store) => (SystemExit arg, store)
  end.

(** The same for [merge_nhanes_files.py]. *)
Definition Files_end `{Numeric} (e : Files.env) (p : paths)
           (looped : outcome locals * gmap string artifact)
  : outcome unit * gmap string artifact :=
  match looped with
  | (Normal l, store) =>
      match accumulator l with
      | None => (SystemExit (ExitMsg "No data merged. Exiting."), store)
      | Some acc =>
          if IO.has_dups (Pd.columns acc)
          then (Exn (ValueError "Duplicate column names found"), store)
          else if negb (parquet_ok acc)
          then (Exn (ArrowError "Conversion failed"), store)
          else
            let store := <[out_parquet p := ParquetFile (Pd.len acc) (cols acc)]> store in
            let store := if String.eqb (default "0" (Files.NHANES_MAKE_CSV e)) "1"
                         then <[out_csv p := CsvFile (Pd.len acc) (cols acc)]> store
                         else store in
            let store := <[out_report p := ReportFile (report_rows l)]> store in
            (Normal tt, delete (tmp_parquet p) store)
      end
  | (Exn e, store) => (Exn e, store)
  | (SystemExit arg, store) => (SystemExit arg, store)
  end.

(** The rows of the merge report for [files]: one per file that loads. *)
Definition report_of (load : file -> result DataFrame) (files : list file)
  : list report_row :=
  flat_map (fun f => match load f with
                     | Ok df =>
                         [mkReportRow (component_from_filename (Py.path_stem (fname f)))
                                      (fname f) (Pd.len df) (Pd.shape1 df)]
                     | Raise _ => []
                     end) files.

(** The columns of the table against the rows of the report. *)
Definition width_inv (l : locals) : Prop :=
  match accumulator l with
  | None => report_rows l = []
  | Some a =>
      (Pd.shape1 a + length (report_rows l)
       = 1 + list_sum (map rr_cols (report_rows l)))%nat
  end.

(** *** One merge step *)





(** *** Further sample files *)

Module Samples.

(** Two labels that become the same label. *)
Definition clashing : file :=
  mkFile "vitals_clean.csv"
    (Ok (mkDataFrame [0; 1]
           [ ("SEQN", mkSeries Int64 [VInt 1; VInt 2]);
             ("Pulse", mkSeries Int64 [VInt 60; VInt 70]);
             (" PULSE", mkSeries Int64 [VInt 61; VInt 71]) ])).

(** A header without rows. *)
Definition header_only : file :=
  mkFile "diet_clean.csv"
    (Ok (mkDataFrame []
           [ ("seqn", mkSeries Object []);
             ("Kcal", mkSeries Object []) ])).

(** An extension [read_any] does not read. *)
Definition text_file : file :=
  mkFile "notes_clean.txt"
    (Ok (mkDataFrame [0] [ ("SEQN", mkSeries Int64 [VInt 1]) ])).

(** An accumulator of three subjects. *)
Definition table : DataFrame :=
  mkDataFrame [0; 1; 2]
    [ ("SEQN", mkSeries Int64 [VInt 1; VInt 2; VInt 3]);
      ("AGE__demographics", mkSeries Int8 [VInt 10; VInt 20; VInt 30]) ].

(** Float keys, one of them beyond the integers a float tells apart. *)
Definition float_keys : file :=
  mkFile "demographics_clean.csv"
    (Ok (mkDataFrame [0; 1]
           [ ("SEQN", mkSeries Float64 [VFloat 4845873199050653696;
                                         VFloat 4617315517961601024]);
             ("AGE", mkSeries Int64 [VInt 30; VInt 40]) ])).

(** Two integer keys that are one float. *)
Definition wide_keys : file :=
  mkFile "labs_clean.csv"
    (Ok (mkDataFrame [0; 1]
           [ ("SEQN", mkSeries Int64 [VInt 9007199254740992; VInt 9007199254740993]);
             ("HDL", mkSeries Int64 [VInt 50; VInt 60]) ])).

(** Two files whose components differ and whose namespaced labels are the
    same label. *)
Definition two_three : file :=
  mkFile "2__3_clean.csv"
    (Ok (mkDataFrame [0]
           [ ("SEQN", mkSeries Int64 [VInt 1]);
             ("1", mkSeries Int64 [VInt 10]) ])).
Definition three : file :=
  mkFile "3_clean.csv"
    (Ok (mkDataFrame [0]
           [ ("SEQN", mkSeries Int64 [VInt 1]);
             ("1__2", mkSeries Int64 [VInt 20]) ])).

End Samples.

(** * Properties *)

(** ** The schema optimizer *)

Section optimizer.
Context `{Numeric}.

Lemma downcast_loop_cons try t rest s :
  Pd.downcast_loop try (t :: rest) s
  = if (itemsize t <=? itemsize (sdtype s))%Z
    then if bool_decide (sdtype (try t s) = t) then try t s
         else Pd.downcast_loop try rest (try t s)
    else Pd.downcast_loop try rest s.
Proof. reflexivity. Qed.

Lemma maybe_downcast_int_width t d vs :
  is_integer_dtype t = true ->
  Pd.maybe_downcast_int t (mkSeries d vs)
  = mkSeries (try_width (fits_of vs) (length vs =? 0)%nat t d) vs.
Proof.
  intros Ht. unfold Pd.maybe_downcast_int, try_width. cbn [sdtype svalues].
  assert (fits_of vs t = forallb (Pd.int_fits t) vs) as ->
      by (destruct t; try discriminate Ht; reflexivity).
  destruct ((itemsize d <=? itemsize t)%Z && negb (length vs =? 0)%nat);
    [reflexivity|].
  destruct (length vs =? 0)%nat; [reflexivity|].
  destruct (forallb (Pd.int_fits t) vs); reflexivity.
Qed.

Lemma downcast_loop_width typecodes d vs :
  forallb is_integer_dtype typecodes = true ->
  Pd.downcast_loop Pd.maybe_downcast_int typecodes (mkSeries d vs)
  = mkSeries (loop_width (fits_of vs) (length vs =? 0)%nat typecodes d) vs.
Proof.
  revert d. induction typecodes as [|t rest IH]; intros d Hall; [reflexivity|].
  cbn [forallb] in Hall. apply andb_prop in Hall as [Ht Hrest].
  rewrite downcast_loop_cons. cbn [loop_width sdtype].
  rewrite (maybe_downcast_int_width t d vs Ht). cbn [sdtype].
  destruct (itemsize t <=? itemsize d)%Z; [|apply IH; exact Hrest].
  destruct (bool_decide (try_width (fits_of vs) (length vs =? 0)%nat t d = t));
    [reflexivity | apply IH; exact Hrest].
Qed.

Lemma loop_width_idem b8 b16 b32 b64 empty d :
  is_integer_dtype d = true ->
  let W := [Int8; Int16; Int32; Int64] in
  let r := loop_width (fits_table b8 b16 b32 b64) empty W d in
  loop_width (fits_table b8 b16 b32 b64) empty W r = r
  /\ is_integer_dtype r = true
  /\ (itemsize r <=? itemsize d)%Z = true.
Proof.
  intros Hd.
  destruct d; try discriminate Hd;
    destruct b8, b16, b32, b64, empty; vm_compute; auto.
Qed.

Lemma downcast_integer_idem s :
  is_integer_dtype (sdtype s) = true ->
  Pd.to_numeric_downcast_integer (Pd.to_numeric_downcast_integer s)
  = Pd.to_numeric_downcast_integer s
  /\ is_integer_dtype (sdtype (Pd.to_numeric_downcast_integer s)) = true
  /\ (itemsize (sdtype (Pd.to_numeric_downcast_integer s)) <= itemsize (sdtype s))%Z.
Proof.
  destruct s as [d vs]; cbn [sdtype]; intros Hd.
  unfold Pd.to_numeric_downcast_integer.
  rewrite !downcast_loop_width by reflexivity.
  destruct (loop_width_idem (forallb (Pd.int_fits Int8) vs)
              (forallb (Pd.int_fits Int16) vs) (forallb (Pd.int_fits Int32) vs)
              (forallb (Pd.int_fits Int64) vs) (length vs =? 0)%nat d Hd)
    as (Hidem & Hint & Hle).
  cbn [sdtype svalues]. unfold fits_of.
  split; [f_equal; exact Hidem | split; [exact Hint | apply Z.leb_le; exact Hle]].
Qed.

Lemma downcast_float32_id vs :
  Pd.to_numeric_downcast_float (mkSeries Float32 vs) = mkSeries Float32 vs.
Proof.
  unfold Pd.to_numeric_downcast_float. rewrite downcast_loop_cons.
  unfold Pd.maybe_downcast_float. cbn [sdtype svalues itemsize].
  destruct (length vs =? 0)%nat; reflexivity.
Qed.

Lemma maybe_downcast_float_narrow vs :
  Pd.maybe_downcast_float Float32 (mkSeries Float64 vs)
  = if Pd.all_close (map Pd.cast32 vs) vs
    then mkSeries Float32 (map Pd.cast32 vs)
    else mkSeries Float64 vs.
Proof. reflexivity. Qed.

Lemma maybe_downcast_float_same vs :
  Pd.maybe_downcast_float Float64 (mkSeries Float64 vs) = mkSeries Float64 vs.
Proof.
  unfold Pd.maybe_downcast_float. cbn [sdtype svalues itemsize].
  destruct (length vs =? 0)%nat; reflexivity.
Qed.

Lemma downcast_float64_cases vs :
  Pd.to_numeric_downcast_float (mkSeries Float64 vs)
  = if Pd.all_close (map Pd.cast32 vs) vs
    then mkSeries Float32 (map Pd.cast32 vs)
    else mkSeries Float64 vs.
Proof.
  unfold Pd.to_numeric_downcast_float.
  rewrite downcast_loop_cons, maybe_downcast_float_narrow.
  cbn [sdtype itemsize]. change ((4 <=? 8)%Z) with true. cbv iota.
  destruct (Pd.all_close (map Pd.cast32 vs) vs); [reflexivity|].
  cbn [sdtype]. change (bool_decide (Float64 = Float32)) with false. cbv iota.
  rewrite downcast_loop_cons, maybe_downcast_float_same. reflexivity.
Qed.

Lemma downcast_float_idem s :
  is_float_dtype (sdtype s) = true ->
  Pd.to_numeric_downcast_float (Pd.to_numeric_downcast_float s)
  = Pd.to_numeric_downcast_float s
  /\ is_float_dtype (sdtype (Pd.to_numeric_downcast_float s)) = true
  /\ (itemsize (sdtype (Pd.to_numeric_downcast_float s)) <= itemsize (sdtype s))%Z.
Proof.
  destruct s as [d vs]; cbn [sdtype]; intros Hd.
  destruct d; try discriminate Hd.
  - rewrite !downcast_float32_id. cbn. repeat split; lia.
  - rewrite downcast_float64_cases.
    destruct (Pd.all_close (map Pd.cast32 vs) vs) eqn:E.
    + rewrite downcast_float32_id. cbn. repeat split; lia.
    + rewrite downcast_float64_cases, E. cbn. repeat split; lia.
Qed.

Lemma optimize_column_idem p :
  optimize_column (optimize_column p) = optimize_column p
  /\ (itemsize (sdtype (snd (optimize_column (optimize_column p))))
       <= itemsize (sdtype (snd (optimize_column p))))%Z.
Proof.
  assert (Hgoal : optimize_column (optimize_column p) = optimize_column p).
  { destruct p as [c col]. unfold optimize_column at 2 3.
    destruct (String.eqb c "SEQN") eqn:Ekey.
    { unfold optimize_column. rewrite Ekey. reflexivity. }
    destruct (is_float_dtype (sdtype col)) eqn:Ef.
    { destruct (downcast_float_idem col Ef) as (Hi & Hf & _).
      unfold optimize_column. rewrite Ekey, Hf, Hi. reflexivity. }
    destruct (is_integer_dtype (sdtype col)) eqn:Ei.
    { destruct (downcast_integer_idem col Ei) as (Hi & Hint & _).
      unfold optimize_column. rewrite Ekey, Hint.
      assert (is_float_dtype (sdtype (Pd.to_numeric_downcast_integer col)) = false) as ->
          by (destruct (sdtype (Pd.to_numeric_downcast_integer col));
              try discriminate Hint; reflexivity).
      rewrite Hi. reflexivity. }
    destruct (is_object_dtype (sdtype col)) eqn:Eo.
    { destruct ((Pd.nunique col <=? max_cat)%nat
                && (Pd.nunique col * cat_ratio_den
                    <=? cat_ratio_num * length (svalues col))%nat) eqn:Ecat.
      - unfold optimize_column. rewrite Ekey. reflexivity.
      - unfold optimize_column. rewrite Ekey, Ef, Ei, Eo, Ecat. reflexivity. }
    unfold optimize_column. rewrite Ekey, Ef, Ei, Eo. reflexivity. }
  split; [exact Hgoal | rewrite Hgoal; lia].
Qed.

Lemma optimize_column_label p : fst (optimize_column p) = fst p.
Proof.
  destruct p as [c col]. unfold optimize_column.
  repeat match goal with |- context [if ?b then _ else _] => destruct b end;
    reflexivity.
Qed.

Lemma optimize_column_key p :
  fst p = "SEQN" -> optimize_column p = p.
Proof.
  destruct p as [c col]; cbn [fst]; intros ->. reflexivity.
Qed.

Lemma select_optimize_key df :
  Pd.select "SEQN" (optimize_dtypes df) = Pd.select "SEQN" df.
Proof.
  unfold Pd.select, optimize_dtypes. cbn [cols].
  induction (cols df) as [|p cs IH]; [reflexivity|].
  cbn [map List.filter]. rewrite optimize_column_label.
  destruct (String.eqb (fst p) "SEQN") eqn:E.
  - apply String.eqb_eq in E. rewrite (optimize_column_key p E).
    cbn [map]. f_equal. exact IH.
  - exact IH.
Qed.

Lemma columns_optimize df : Pd.columns (optimize_dtypes df) = Pd.columns df.
Proof.
  unfold Pd.columns, optimize_dtypes. cbn [cols].
  rewrite map_map. apply map_ext. intros p. apply optimize_column_label.
Qed.

(** C9: the optimizer leaves the key column as it is.  The columns labelled
    [SEQN] of the optimized frame are those of the input, with the same type
    and the same cells; the row labels and the column labels are unchanged;
    column by column, a change can only occur under another label. *)
Theorem C9_optimizer_leaves_key_unaltered (df : DataFrame) :
  Pd.select "SEQN" (optimize_dtypes df) = Pd.select "SEQN" df
  /\ index (optimize_dtypes df) = index df
  /\ Pd.columns (optimize_dtypes df) = Pd.columns df
  /\ Forall2 (fun old new => fst new = fst old
                              /\ (fst old = "SEQN" -> snd new = snd old))
             (cols df) (cols (optimize_dtypes df)).
Proof.
  split; [apply select_optimize_key|].
  split; [reflexivity|].
  split; [apply columns_optimize|].
  unfold optimize_dtypes. cbn [cols].
  induction (cols df) as [|p cs IH]; [constructor|].
  cbn [map]. constructor; [|exact IH].
  split; [apply optimize_column_label|].
  intros Hkey. rewrite (optimize_column_key p Hkey). reflexivity.
Qed.

(** C8: optimizing twice is optimizing once.  The second pass returns the
    frame of the first unchanged, so the cells are the same and no column is
    wider than after one pass. *)
Theorem C8_optimize_dtypes_idempotent (df : DataFrame) :
  optimize_dtypes (optimize_dtypes df) = optimize_dtypes df
  /\ Forall2 (fun once twice =>
                fst twice = fst once
                /\ svalues (snd twice) = svalues (snd once)
                /\ (itemsize (sdtype (snd twice)) <= itemsize (sdtype (snd once)))%Z)
             (cols (optimize_dtypes df)) (cols (optimize_dtypes (optimize_dtypes df))).
Proof.
  assert (Hidem : optimize_dtypes (optimize_dtypes df) = optimize_dtypes df).
  { unfold optimize_dtypes. cbn [index cols]. f_equal.
    rewrite map_map. apply map_ext. intros p. apply optimize_column_idem. }
  split; [exact Hidem|].
  rewrite Hidem.
  induction (cols (optimize_dtypes df)) as [|p cs IH]; constructor; auto.
  repeat split; lia.
Qed.

End optimizer.

(** ** The column namespacer *)

Lemma append_assoc (a b c : string) : (a +:+ b) +:+ c = a +:+ (b +:+ c).
Proof.
  induction a as [|x a IH]; [reflexivity|].
  change (String x ((a +:+ b) +:+ c) = String x (a +:+ (b +:+ c))).
  f_equal. exact IH.
Qed.

Lemma endswith_refl s : Py.endswith s s = true.
Proof. destruct s; cbn; rewrite ?String.eqb_refl, ?Ascii.eqb_refl; reflexivity. Qed.

Lemma endswith_append p s : Py.endswith (p +:+ s) s = true.
Proof.
  induction p as [|c p IH]; [apply endswith_refl|].
  change (String c p +:+ s) with (String c (p +:+ s)).
  cbn [Py.endswith]. rewrite IH. destruct (String.eqb _ _); reflexivity.
Qed.

(** Two ways of cutting one string: the shorter tail ends the longer one. *)
Lemma append_eq_endswith (a b x y : string) :
  a +:+ x = b +:+ y -> Py.endswith x y = true \/ Py.endswith y x = true.
Proof.
  revert b. induction a as [|c a IH]; intros b Heq.
  - left. change (x = b +:+ y) in Heq. subst x. apply endswith_append.
  - destruct b as [|c' b].
    + right. change (String c a +:+ x = y) in Heq. subst y.
      apply (endswith_append (String c a)).
    + change (String c (a +:+ x) = String c' (b +:+ y)) in Heq.
      injection Heq as _ Heq. exact (IH b Heq).
Qed.

Lemma rename_map_lookup_in (cs : list string) (component c : string) :
  (list_to_map (map (fun c => (c, c +:+ "__" +:+ component))
                    (List.filter (fun c => negb (String.eqb c "SEQN")) cs))
   : gmap string string) !! c
  = if negb (String.eqb c "SEQN") && existsb (String.eqb c) cs
    then Some (c +:+ "__" +:+ component) else None.
Proof.
  induction cs as [|c0 cs IH].
  - cbn. rewrite andb_false_r. apply lookup_empty.
  - cbn [List.filter existsb].
    destruct (String.eqb c c0) eqn:E.
    + apply String.eqb_eq in E. subst c0.
      destruct (String.eqb c "SEQN") eqn:Ek; cbn [negb andb orb].
      * exact IH.
      * cbn [map]. rewrite list_to_map_cons, lookup_insert_eq. reflexivity.
    + assert (c0 <> c) by (apply String.eqb_neq in E; congruence).
      cbn [orb].
      destruct (negb (String.eqb c0 "SEQN")); [|exact IH].
      cbn [map]. rewrite list_to_map_cons, lookup_insert_ne by assumption. exact IH.
Qed.

Lemma existsb_eqb_self (c : string) (cs : list string) :
  In c cs -> existsb (String.eqb c) cs = true.
Proof.
  intros Hin. apply existsb_exists. exists c. split; [exact Hin|].
  apply String.eqb_refl.
Qed.

Lemma cols_suffix_non_key df component :
  cols (suffix_non_key df component)
  = map (fun p => (namespaced component (fst p), snd p)) (cols df).
Proof.
  unfold suffix_non_key, rename, Pd.map_columns, rename_map. cbn [cols].
  apply map_ext_in. intros p Hin. f_equal.
  rewrite rename_map_lookup_in. unfold namespaced.
  rewrite (existsb_eqb_self (fst p) (Pd.columns df))
    by (unfold Pd.columns; apply in_map; exact Hin).
  destruct (String.eqb (fst p) "SEQN"); reflexivity.
Qed.

Lemma columns_suffix_non_key df component :
  Pd.columns (suffix_non_key df component)
  = map (namespaced component) (Pd.columns df).
Proof.
  unfold Pd.columns. rewrite cols_suffix_non_key, !map_map. reflexivity.
Qed.

Lemma namespaced_not_key component c :
  c <> "SEQN" -> namespaced component c <> "SEQN".
Proof.
  intros Hc. unfold namespaced.
  destruct (String.eqb c "SEQN") eqn:E; [apply String.eqb_eq in E; contradiction|].
  destruct c as [|a1 [|a2 [|a3 [|a4 [|a5 c]]]]]; cbv [String.append]; intros Heq;
    injection Heq; intros; discriminate.
Qed.

Lemma length_append (a b : string) :
  String.length (a +:+ b) = (String.length a + String.length b)%nat.
Proof.
  induction a as [|c a IH]; [reflexivity|].
  change (String c a +:+ b) with (String c (a +:+ b)). cbn [String.length].
  rewrite IH. reflexivity.
Qed.

Lemma append_cancel_r (a b s : string) : a +:+ s = b +:+ s -> a = b.
Proof.
  revert b. induction a as [|c a IH]; intros [|c' b] Heq.
  - reflexivity.
  - apply (f_equal String.length) in Heq.
    rewrite !length_append in Heq. cbn [String.length] in Heq. lia.
  - apply (f_equal String.length) in Heq.
    rewrite !length_append in Heq. cbn [String.length] in Heq. lia.
  - change (String c (a +:+ s) = String c' (b +:+ s)) in Heq.
    injection Heq as -> Heq. f_equal. exact (IH b Heq).
Qed.

Lemma namespaced_inj component c c' :
  namespaced component c = namespaced component c' -> c = c'.
Proof.
  intros Heq.
  destruct (String.eqb c "SEQN") eqn:E; destruct (String.eqb c' "SEQN") eqn:E'.
  - apply String.eqb_eq in E, E'. congruence.
  - apply String.eqb_eq in E. apply String.eqb_neq in E'. subst c.
    exfalso. apply (namespaced_not_key component c' E').
    rewrite <- Heq. reflexivity.
  - apply String.eqb_eq in E'. apply String.eqb_neq in E. subst c'.
    exfalso. apply (namespaced_not_key component c E).
    rewrite Heq. reflexivity.
  - unfold namespaced in Heq. rewrite E, E' in Heq.
    exact (append_cancel_r _ _ _ Heq).
Qed.

(** Distinct components can give one label: the files [2__3_clean.csv] and
    [3_clean.csv] have the components [2__3] and [3], and the column [1] of
    the first and the column [1__2] of the second both become [1__2__3]. *)
Lemma namespaced_labels_can_coincide :
  let component1 := component_from_filename (Py.path_stem "2__3_clean.csv") in
  let component2 := component_from_filename (Py.path_stem "3_clean.csv") in
  let df1 := mkDataFrame [0] [("SEQN", mkSeries Int64 [VInt 1]);
                              ("1", mkSeries Int64 [VInt 10])] in
  let df2 := mkDataFrame [0] [("SEQN", mkSeries Int64 [VInt 1]);
                              ("1__2", mkSeries Int64 [VInt 20])] in
  component1 = "2__3" /\ component2 = "3" /\ component1 <> component2
  /\ Pd.columns (suffix_non_key df1 component1) = ["SEQN"; "1__2__3"]
  /\ Pd.columns (suffix_non_key df2 component2) = ["SEQN"; "1__2__3"]
  /\ ~ (forall c1 c2, c1 <> c2 -> namespaces_disjoint c1 c2).
Proof.
  cbv zeta.
  assert (Hc1 : component_from_filename (Py.path_stem "2__3_clean.csv") = "2__3")
    by (vm_compute; reflexivity).
  assert (Hc2 : component_from_filename (Py.path_stem "3_clean.csv") = "3")
    by (vm_compute; reflexivity).
  rewrite Hc1, Hc2.
  split; [reflexivity|]. split; [reflexivity|]. split; [discriminate|].
  split; [vm_compute; reflexivity|]. split; [vm_compute; reflexivity|].
  intros Hall.
  specialize (Hall "2__3" "3" ltac:(discriminate)
                (mkDataFrame [0] [("SEQN", mkSeries Int64 [VInt 1]);
                                  ("1", mkSeries Int64 [VInt 10])])
                (mkDataFrame [0] [("SEQN", mkSeries Int64 [VInt 1]);
                                  ("1__2", mkSeries Int64 [VInt 20])])
                "1__2__3").
  assert (Habs : "1__2__3" = "SEQN"); [|discriminate Habs].
  apply Hall; rewrite columns_suffix_non_key; vm_compute; auto.
Qed.

(** ** Frames: rows, keys and well-formedness *)

Lemma map_nth_seq {A B} (F : A -> B) (l : list A) (d : A) :
  map (fun j => F (nth j l d)) (seq 0 (length l)) = map F l.
Proof.
  induction l as [|x l IH]; [reflexivity|].
  cbn [length seq map nth]. f_equal.
  rewrite <- seq_shift, map_map. exact IH.
Qed.

Lemma take_values_seq (vs : list value) :
  Pd.take_values (seq 0 (length vs)) vs = vs.
Proof.
  unfold Pd.take_values. rewrite (map_nth_seq (fun v => v) vs NA). apply map_id.
Qed.

Lemma len_take ps df : Pd.len (Pd.take ps df) = length ps.
Proof. unfold Pd.len, Pd.take. cbn [index]. apply length_map. Qed.

Lemma columns_take ps df : Pd.columns (Pd.take ps df) = Pd.columns df.
Proof. unfold Pd.columns, Pd.take. cbn [cols]. rewrite map_map. reflexivity. Qed.

Lemma select_take c ps df :
  Pd.select c (Pd.take ps df) = map (Pd.take_series ps) (Pd.select c df).
Proof.
  unfold Pd.select, Pd.take. cbn [cols].
  induction (cols df) as [|p cs IH]; [reflexivity|].
  cbn [map List.filter fst]. destruct (String.eqb (fst p) c); cbn [map snd];
    rewrite IH; reflexivity.
Qed.

Lemma wf_take ps df : wf_frame (Pd.take ps df) = true.
Proof.
  unfold wf_frame. rewrite len_take. unfold Pd.take. cbn [cols].
  apply forallb_forall. intros p Hin. apply in_map_iff in Hin as (q & <- & _).
  cbn [snd Pd.take_series svalues]. unfold Pd.take_values.
  rewrite length_map. apply Nat.eqb_refl.
Qed.

Lemma key_at_take ss ps j :
  (j < length ps)%nat ->
  Pd.key_at (map (Pd.take_series ps) ss) j = Pd.key_at ss (nth j ps O).
Proof.
  intros Hj. unfold Pd.key_at. rewrite map_map. apply map_ext. intros s.
  cbn [Pd.take_series svalues]. unfold Pd.take_values.
  rewrite (nth_indep _ NA (nth O (svalues s) NA))
    by (rewrite length_map; exact Hj).
  apply (map_nth (fun i => nth i (svalues s) NA)).
Qed.

Lemma key_rows_take c ps df :
  Pd.key_rows c (Pd.take ps df) = map (Pd.key_at (Pd.select c df)) ps.
Proof.
  unfold Pd.key_rows. rewrite len_take, select_take.
  rewrite <- (map_nth_seq (Pd.key_at (Pd.select c df)) ps O).
  apply map_ext_in. intros j Hj. apply in_seq in Hj.
  apply key_at_take. lia.
Qed.

Lemma wf_frame_select df c s :
  wf_frame df = true -> In s (Pd.select c df) -> length (svalues s) = Pd.len df.
Proof.
  unfold wf_frame, Pd.select. intros Hwf Hin.
  apply in_map_iff in Hin as (p & <- & Hp). apply filter_In in Hp as [Hp _].
  rewrite forallb_forall in Hwf. apply Nat.eqb_eq. exact (Hwf p Hp).
Qed.

(** With a single key column the key rows are its cells, one by one. *)
Lemma key_rows_single df s :
  wf_frame df = true -> Pd.select "SEQN" df = [s] ->
  Pd.key_rows "SEQN" df = map (fun v => [v]) (svalues s).
Proof.
  intros Hwf Hsel. unfold Pd.key_rows. rewrite Hsel.
  rewrite <- (wf_frame_select df "SEQN" s Hwf) by (rewrite Hsel; left; reflexivity).
  rewrite <- (map_nth_seq (fun v => [v]) (svalues s) NA). reflexivity.
Qed.

Lemma keys_single df s : Pd.select "SEQN" df = [s] -> keys df = svalues s.
Proof. unfold keys. intros ->. reflexivity. Qed.

(** ** Duplicate keys *)

Section duplicates.
Context {A : Type} `{EqDecision A}.
Implicit Types (seen ks : list A).

Lemma length_duplicated_mask seen ks :
  length (Pd.duplicated_mask seen ks) = length ks.
Proof.
  revert seen. induction ks as [|k ks IH]; intros seen; [reflexivity|].
  cbn. rewrite IH. reflexivity.
Qed.

Lemma where_true_bounds from mask i :
  In i (Pd.where_true from mask) -> (from <= i < from + length mask)%nat.
Proof.
  revert from. induction mask as [|b mask IH]; intros from Hin; [destruct Hin|].
  cbn [Pd.where_true] in Hin. cbn [length].
  destruct b.
  - destruct Hin as [<-|Hin]; [lia|]. apply IH in Hin. lia.
  - apply IH in Hin. lia.
Qed.

Lemma where_true_first_occurrences pre seen ks d :
  map (fun i => nth i (pre ++ ks) d)
      (Pd.where_true (length pre) (map negb (Pd.duplicated_mask seen ks)))
  = first_occurrences seen ks.
Proof.
  revert pre seen. induction ks as [|k ks IH]; intros pre seen; [reflexivity|].
  cbn [Pd.duplicated_mask map Pd.where_true first_occurrences].
  specialize (IH (pre ++ [k]) (k :: seen)).
  rewrite <- app_assoc, length_app in IH. cbn [app length] in IH.
  replace (length pre + 1)%nat with (S (length pre)) in IH by lia.
  destruct (bool_decide (k ∈ seen)); cbn [negb map].
  - exact IH.
  - rewrite IH. f_equal. rewrite app_nth2 by lia.
    rewrite Nat.sub_diag. reflexivity.
Qed.

Lemma first_occurrences_spec seen ks k :
  k ∈ first_occurrences seen ks <-> k ∈ ks /\ k ∉ seen.
Proof.
  revert seen. induction ks as [|k0 ks IH]; intros seen; cbn [first_occurrences].
  - split; [intros Hin; inversion Hin | intros [Hin _]; inversion Hin].
  - destruct (bool_decide (k0 ∈ seen)) eqn:E.
    + apply bool_decide_eq_true in E. rewrite IH, !elem_of_cons.
      split; [intros [Hin Hns] | intros [[->|Hin] Hns]].
      * split; [right; exact Hin | intros Hs; apply Hns; right; exact Hs].
      * contradiction.
      * split; [exact Hin|]. intros [->|Hs]; contradiction.
    + apply bool_decide_eq_false in E. rewrite elem_of_cons, IH, !elem_of_cons.
      split; [intros [->|[Hin Hns]] | intros [[->|Hin] Hns]].
      * split; [left; reflexivity | exact E].
      * split; [right; exact Hin | intros Hs; apply Hns; right; exact Hs].
      * left; reflexivity.
      * destruct (decide (k = k0)) as [->|Hne]; [left; reflexivity|].
        right. split; [exact Hin|]. intros [->|Hs]; contradiction.
Qed.

Lemma NoDup_first_occurrences seen ks : NoDup (first_occurrences seen ks).
Proof.
  revert seen. induction ks as [|k ks IH]; intros seen; cbn [first_occurrences].
  - constructor.
  - destruct (bool_decide (k ∈ seen)); [apply IH|].
    constructor; [|apply IH].
    rewrite first_occurrences_spec. intros [_ Hns]. apply Hns. left.
Qed.

Lemma no_duplicates_first_occurrences seen ks :
  existsb id (Pd.duplicated_mask seen ks) = false ->
  first_occurrences seen ks = ks.
Proof.
  revert seen. induction ks as [|k ks IH]; intros seen; [reflexivity|].
  cbn [Pd.duplicated_mask existsb first_occurrences id].
  destruct (bool_decide (k ∈ seen)); cbn [orb]; [discriminate|].
  intros Hrest. f_equal. apply IH. exact Hrest.
Qed.

Lemma duplicates_first_occurrences seen ks :
  existsb id (Pd.duplicated_mask seen ks) = true ->
  first_occurrences seen ks <> ks.
Proof.
  revert seen. induction ks as [|k ks IH]; intros seen; [discriminate|].
  cbn [Pd.duplicated_mask existsb first_occurrences id].
  destruct (bool_decide (k ∈ seen)) eqn:E; cbn [orb].
  - intros _ Heq. apply bool_decide_eq_true in E.
    assert (Hin : k ∈ first_occurrences (k :: seen) ks)
      by (rewrite Heq; left).
    apply first_occurrences_spec in Hin as [_ Hns].
    apply Hns. left.
  - intros Hrest Heq. injection Heq as Heq. exact (IH _ Hrest Heq).
Qed.

End duplicates.

Lemma nth_map_seq {B} (F : nat -> B) (n i : nat) (d : B) :
  (i < n)%nat -> nth i (map F (seq 0 n)) d = F i.
Proof.
  intros Hi. rewrite (nth_indep _ d (F O)) by (rewrite length_map, length_seq; exact Hi).
  rewrite (map_nth F). rewrite seq_nth by exact Hi. reflexivity.
Qed.

Lemma key_rows_drop_duplicates c df :
  Pd.key_rows c (Pd.drop_duplicates c df) = first_occurrences [] (Pd.key_rows c df).
Proof.
  unfold Pd.drop_duplicates, Pd.duplicated. rewrite key_rows_take.
  rewrite <- (where_true_first_occurrences [] [] (Pd.key_rows c df) []).
  cbn [app length]. apply map_ext_in. intros i Hi.
  apply where_true_bounds in Hi.
  rewrite length_map, length_duplicated_mask in Hi.
  unfold Pd.key_rows in *. rewrite length_map, length_seq in Hi.
  rewrite nth_map_seq by lia. reflexivity.
Qed.

(** ** The loader *)

Section loader.
Context `{Sorter}.

Lemma Batched_read_any_eq path :
  Batched.read_any path = (let? df := cleaned path in resolve_duplicates df).
Proof.
  unfold Batched.read_any, cleaned, resolve_duplicates.
  destruct (read_by_extension path) as [raw|e]; [|reflexivity]. cbn [rbind].
  destruct (negb (Pd.has_column "SEQN" _)); [reflexivity|].
  destruct (empty_columns _) as [drop_cols|e]; reflexivity.
Qed.

Lemma Files_read_any_eq path w :
  Files.read_any path w
  = (outcome_of (loaded path), mkWorld (fs w) (stdout w ++ loader_prints path)).
Proof.
  assert (Hw : forall w : world, mkWorld (fs w) (stdout w ++ []) = w)
    by (intros [? ?]; cbn; rewrite app_nil_r; reflexivity).
  unfold Files.read_any, loaded, loader_prints, cleaned, takes_medication_path,
    is_meds_file, aggregate_medications, resolve_duplicates.
  unfold bind at 1.
  destruct (read_by_extension path) as [raw|e]; cbn [lift ret raise rbind outcome_of];
    [|rewrite Hw; reflexivity].
  destruct (negb (Pd.has_column "SEQN" _)); [cbn; rewrite Hw; reflexivity|].
  unfold bind at 1.
  destruct (empty_columns _) as [drop_cols|e]; cbn [lift ret raise rbind outcome_of];
    [|rewrite Hw; reflexivity].
  match goal with |- context [if ?b then _ else _] => destruct b end.
  - unfold bind, print. cbn [fs stdout].
    match goal with |- context [Pd.groupby_join ?a ?b ?c ?d] =>
      destruct (Pd.groupby_join a b c d) end; reflexivity.
  - destruct (existsb id _); [|cbn; rewrite Hw; reflexivity].
    unfold bind.
    match goal with |- context [Pd.sort_values ?a ?b] =>
      destruct (Pd.sort_values a b) end; cbn; rewrite Hw; reflexivity.
Qed.

End loader.

(** ** The left join *)

Lemma select_sel c df : Pd.select c df = sel c (cols df).
Proof. reflexivity. Qed.

Lemma sel_app c cs1 cs2 : sel c (cs1 ++ cs2) = sel c cs1 ++ sel c cs2.
Proof. unfold sel. rewrite List.filter_app, map_app. reflexivity. Qed.

Lemma sel_map_relabel c (f : string -> string) (g : Series -> Series) cs :
  (forall p, In p cs -> (f (fst p) = c <-> fst p = c)) ->
  sel c (map (fun p => (f (fst p), g (snd p))) cs) = map g (sel c cs).
Proof.
  unfold sel. induction cs as [|p cs IH]; intros Hf; [reflexivity|].
  cbn [map List.filter fst].
  assert (Hp : String.eqb (f (fst p)) c = String.eqb (fst p) c).
  { destruct (String.eqb (fst p) c) eqn:E.
    - apply String.eqb_eq. apply Hf; [left; reflexivity|].
      apply String.eqb_eq. exact E.
    - apply String.eqb_neq. intros Hfc. apply Hf in Hfc; [|left; reflexivity].
      apply String.eqb_neq in E. contradiction. }
  rewrite Hp. destruct (String.eqb (fst p) c); cbn [map snd];
    rewrite IH by (intros q Hq; apply Hf; right; exact Hq); reflexivity.
Qed.

Lemma sel_none c cs :
  (forall p, In p cs -> fst p <> c) -> sel c cs = [].
Proof.
  unfold sel. induction cs as [|p cs IH]; intros Hne; [reflexivity|].
  cbn [List.filter].
  assert (String.eqb (fst p) c = false) as ->
      by (apply String.eqb_neq; apply Hne; left; reflexivity).
  apply IH. intros q Hq. apply Hne. right. exact Hq.
Qed.

Lemma suffix_x_not_key c : c +:+ "_x" <> "SEQN".
Proof.
  destruct c as [|a1 [|a2 [|a3 [|a4 [|a5 c]]]]]; cbv [String.append]; intros Heq;
    injection Heq; intros; discriminate.
Qed.

Lemma suffix_y_not_key c : c +:+ "_y" <> "SEQN".
Proof.
  destruct c as [|a1 [|a2 [|a3 [|a4 [|a5 c]]]]]; cbv [String.append]; intros Heq;
    injection Heq; intros; discriminate.
Qed.

Lemma positions_of_spec k from ks j :
  In j (Pd.positions_of k from ks)
  <-> (from <= j < from + length ks)%nat /\ nth (j - from) ks NA = k.
Proof.
  revert from. induction ks as [|k0 ks IH]; intros from; cbn [Pd.positions_of length].
  - split; [intros [] | intros [Hj _]; lia].
  - unfold value_eqb. destruct (bool_decide (k0 = k)) eqn:E.
    + apply bool_decide_eq_true in E. cbn [In]. rewrite IH. split.
      * intros [<-|[Hj Hn]].
        -- rewrite Nat.sub_diag. split; [lia | exact E].
        -- split; [lia|]. replace (j - from)%nat with (S (j - S from)) by lia.
           exact Hn.
      * intros [Hj Hn]. destruct (decide (j = from)) as [->|Hne]; [left; reflexivity|].
        right. split; [lia|].
        replace (j - from)%nat with (S (j - S from)) in Hn by lia. exact Hn.
    + apply bool_decide_eq_false in E. rewrite IH. split.
      * intros [Hj Hn]. split; [lia|].
        replace (j - from)%nat with (S (j - S from)) by lia. exact Hn.
      * intros [Hj Hn]. destruct (decide (j = from)) as [->|Hne].
        -- rewrite Nat.sub_diag in Hn. contradiction.
        -- split; [lia|].
           replace (j - from)%nat with (S (j - S from)) in Hn by lia. exact Hn.
Qed.

Lemma positions_of_absent k from ks :
  ~ In k ks -> Pd.positions_of k from ks = [].
Proof.
  intros Hk. destruct (Pd.positions_of k from ks) as [|j js] eqn:E; [reflexivity|].
  exfalso. assert (Hj : In j (Pd.positions_of k from ks)) by (rewrite E; left; reflexivity).
  apply positions_of_spec in Hj as [Hj Hn]. apply Hk. rewrite <- Hn.
  apply nth_In. lia.
Qed.

Lemma positions_of_NoDup k from ks :
  NoDup ks -> (length (Pd.positions_of k from ks) <= 1)%nat.
Proof.
  revert from. induction ks as [|k0 ks IH]; intros from Hnd; cbn [Pd.positions_of];
    [cbn; lia|].
  apply NoDup_cons in Hnd as [Hk0 Hnd].
  unfold value_eqb. destruct (bool_decide (k0 = k)) eqn:E.
  - apply bool_decide_eq_true in E. subst k0.
    rewrite positions_of_absent by (rewrite <- list_elem_of_In; exact Hk0).
    cbn. lia.
  - apply IH. exact Hnd.
Qed.

(** Against distinct right keys every left row yields one output row. *)
Lemma left_join_indexer_unique from lkeys rkeys :
  NoDup rkeys ->
  map fst (Pd.left_join_indexer from lkeys rkeys) = seq from (length lkeys)
  /\ map snd (Pd.left_join_indexer from lkeys rkeys)
     = map (fun k => head (Pd.positions_of k 0 rkeys)) lkeys.
Proof.
  intros Hnd. revert from. induction lkeys as [|k lkeys IH]; intros from;
    [split; reflexivity|].
  cbn [Pd.left_join_indexer length seq map]. rewrite !map_app.
  destruct (IH (S from)) as [IH1 IH2]. rewrite IH1, IH2.
  pose proof (positions_of_NoDup k 0 rkeys Hnd) as Hlen.
  destruct (Pd.positions_of k 0 rkeys) as [|j [|j' js]]; cbn in Hlen; try lia;
    split; reflexivity.
Qed.



Section merge_facts.
Context `{Numeric}.

Lemma take_series_seq s n :
  length (svalues s) = n -> Pd.take_series (seq 0 n) s = s.
Proof.
  intros <-. destruct s as [d vs]. unfold Pd.take_series. cbn [sdtype svalues].
  rewrite take_values_seq. reflexivity.
Qed.

Lemma length_take_series_fill js s :
  length (svalues (Pd.take_series_fill js s)) = length js.
Proof.
  unfold Pd.take_series_fill. destruct (forallb _ js); cbn [svalues];
    apply length_map.
Qed.



Lemma merge_Ok_inv a d m :
  Pd.merge "SEQN" a d = Ok m ->
  exists lk rk,
    Pd.select "SEQN" a = [lk] /\ Pd.select "SEQN" d = [rk]
    /\ Pd.keys_incompatible lk rk = false
    /\ m = merged a d lk rk.
Proof.
  unfold Pd.merge, merged. intros Hm.
  destruct (Pd.select "SEQN" a) as [|lk [|? ?]]; try discriminate Hm;
    destruct (Pd.select "SEQN" d) as [|rk [|? ?]]; try discriminate Hm.
  exists lk, rk.
  destruct (Pd.keys_incompatible lk rk); [discriminate Hm|].
  destruct (Pd.coerce_keys lk rk) as [lkeys rkeys].
  match type of Hm with (if ?b then _ else _) = _ => destruct b end;
    [discriminate Hm|].
  injection Hm as <-. repeat split; reflexivity.
Qed.

Lemma length_range_index n : length (Pd.range_index n) = n.
Proof. unfold Pd.range_index. rewrite length_map, length_seq. reflexivity. Qed.

Lemma not_in_filter_key (cs : list (string * Series)) :
  existsb (String.eqb "SEQN")
    (map fst (List.filter (fun p => negb (String.eqb (fst p) "SEQN")) cs)) = false.
Proof.
  apply not_true_is_false. intros Hex. apply existsb_exists in Hex as (c & Hin & Heq).
  apply String.eqb_eq in Heq. subst c.
  apply in_map_iff in Hin as (p & Hp & Hin). apply filter_In in Hin as [_ Hne].
  rewrite Hp in Hne. discriminate.
Qed.


End merge_facts.

(** *** Keys of different types *)

Section join_facts.
Context `{Numeric}.

Lemma coerce_keys_maps lk rk :
  Pd.coerce_keys lk rk
  = (map (left_key lk rk) (svalues lk), map (right_key lk rk) (svalues rk)).
Proof.
  unfold Pd.coerce_keys, left_key, right_key.
  destruct (is_integer_dtype (sdtype lk)) eqn:Eil, (is_float_dtype (sdtype rk)) eqn:Efr,
    (is_float_dtype (sdtype lk)) eqn:Efl, (is_integer_dtype (sdtype rk)) eqn:Eir;
    cbn [andb]; rewrite ?map_id; try reflexivity;
    destruct (sdtype lk); discriminate.
Qed.



(** The key column of the left join holds the keys of the left rows. *)
Lemma merged_key_column a d lk rk :
  Pd.select "SEQN" a = [lk] ->
  Pd.select "SEQN" (merged a d lk rk)
  = [Pd.take_series
       (map fst (Pd.left_join_indexer 0 (map (left_key lk rk) (svalues lk))
                   (map (right_key lk rk) (svalues rk)))) lk].
Proof.
  intros Hsel. unfold merged. rewrite coerce_keys_maps.
  set (pairs := Pd.left_join_indexer 0 _ _).
  set (rcols := List.filter (fun p => negb (String.eqb (fst p) "SEQN")) (cols d)).
  set (overlap := fun c => existsb (String.eqb c) (Pd.columns a)
                           && existsb (String.eqb c) (map fst rcols)).
  assert (Hov : overlap "SEQN" = false).
  { unfold overlap, rcols. rewrite not_in_filter_key. apply andb_false_r. }
  cbv zeta. rewrite select_sel. cbn [cols]. rewrite sel_app.
  rewrite (sel_map_relabel "SEQN"
             (fun c => if overlap c then c +:+ "_x" else c)
             (Pd.take_series (map fst pairs))).
  - rewrite <- select_sel, Hsel. cbn [map].
    rewrite sel_none; [reflexivity|].
    intros p Hp. apply in_map_iff in Hp as (q & <- & Hq). cbn [fst].
    apply filter_In in Hq as [_ Hq].
    match goal with |- context [if ?b then _ else _] => destruct b end;
      [apply suffix_y_not_key|].
    apply String.eqb_neq. destruct (String.eqb (fst q) "SEQN"); [discriminate|reflexivity].
  - intros p _. split.
    + match goal with |- context [if ?b then _ else _] => destruct b end;
        [intros Hx; destruct (suffix_x_not_key _ Hx) | auto].
    + intros Hkey. rewrite Hkey. fold (overlap "SEQN"). rewrite Hov. reflexivity.
Qed.


End join_facts.

(** ** What the loader guarantees *)

Lemma read_by_extension_Ok path raw :
  read_by_extension path = Ok raw -> payload path = Ok raw.
Proof.
  unfold read_by_extension.
  destruct (String.eqb _ ".csv"); [auto|].
  destruct (String.eqb _ ".xlsx" || String.eqb _ ".xls"); [auto|discriminate].
Qed.

Lemma empty_columns_of_not_key df cs names :
  empty_columns_of df cs = Ok names -> ~ In "SEQN" names.
Proof.
  revert names. induction cs as [|c cs IH]; intros names Hok; cbn in Hok.
  - injection Hok as <-. intros [].
  - destruct (String.eqb c "SEQN") eqn:E; cbn [negb] in Hok; [exact (IH _ Hok)|].
    destruct (Pd.select c df) as [|s [|? ?]]; try discriminate Hok.
    destruct (empty_columns_of df cs) as [more|e]; [|discriminate Hok].
    cbn [rbind] in Hok. apply String.eqb_neq in E.
    specialize (IH more eq_refl).
    destruct (forallb isna (svalues s)); injection Hok as <-; [|exact IH].
    intros [Hc|Hin]; [congruence | contradiction].
Qed.

Lemma empty_columns_of_single df cs names c :
  empty_columns_of df cs = Ok names -> In c cs -> c <> "SEQN" ->
  exists s, Pd.select c df = [s].
Proof.
  revert names. induction cs as [|c0 cs IH]; intros names Hok Hin Hc; [destruct Hin|].
  cbn in Hok.
  destruct (String.eqb c0 "SEQN") eqn:E; cbn [negb] in Hok.
  - destruct Hin as [->|Hin]; [apply String.eqb_eq in E; contradiction|].
    exact (IH _ Hok Hin Hc).
  - destruct (Pd.select c0 df) as [|s [|? ?]] eqn:Es; try discriminate Hok.
    destruct (empty_columns_of df cs) as [more|e]; [|discriminate Hok].
    destruct Hin as [->|Hin]; [exists s; exact Es|].
    exact (IH more eq_refl Hin Hc).
Qed.

Lemma sel_drop c names cs :
  ~ In c names ->
  sel c (List.filter (fun p => negb (existsb (String.eqb (fst p)) names)) cs) = sel c cs.
Proof.
  intros Hc. unfold sel. induction cs as [|p cs IH]; [reflexivity|].
  cbn [List.filter].
  destruct (String.eqb (fst p) c) eqn:E.
  - pose proof (proj1 (String.eqb_eq _ _) E) as Hpc.
    assert (existsb (String.eqb (fst p)) names = false) as ->.
    { apply not_true_is_false. intros Hex.
      apply existsb_exists in Hex as (x & Hx & Heq).
      apply String.eqb_eq in Heq. congruence. }
    cbn [negb List.filter]. rewrite E. cbn [map]. f_equal. exact IH.
  - destruct (negb (existsb (String.eqb (fst p)) names)); [|exact IH].
    cbn [List.filter]. rewrite E. exact IH.
Qed.

Lemma has_column_sel c df :
  Pd.has_column c df = true <-> Pd.select c df <> [].
Proof.
  unfold Pd.has_column, Pd.columns, Pd.select.
  induction (cols df) as [|p cs IH]; cbn [map existsb List.filter].
  - split; [discriminate | intros Hne; contradiction].
  - rewrite String.eqb_sym. destruct (String.eqb (fst p) c); cbn [orb map].
    + split; [discriminate | reflexivity].
    + exact IH.
Qed.

Lemma wf_frame_cols df idx cs :
  wf_frame df = true -> length idx = Pd.len df ->
  (forall p, In p cs -> exists q, In q (cols df) /\ svalues (snd p) = svalues (snd q)) ->
  wf_frame (mkDataFrame idx cs) = true.
Proof.
  unfold wf_frame, Pd.len. cbn [index cols]. intros Hwf Hidx Hcs.
  rewrite forallb_forall in Hwf. apply forallb_forall. intros p Hp.
  destruct (Hcs p Hp) as (q & Hq & ->). rewrite Hidx. exact (Hwf q Hq).
Qed.

(** What [cleaned] keeps of the frame the reader returned. *)
Lemma cleaned_Ok path c :
  cleaned path = Ok c ->
  exists raw,
    payload path = Ok raw
    /\ index c = index raw
    /\ Pd.select "SEQN" c
       = Pd.select "SEQN" (Pd.map_columns (fun c => Py.upper (Py.strip c)) raw)
    /\ Pd.has_column "SEQN" c = true
    /\ (wf_frame raw = true -> wf_frame c = true)
    /\ (forall l, l <> "SEQN" -> Pd.has_column l c = true ->
                  exists s, Pd.select l c = [s]).
Proof.
  unfold cleaned. intros Hc.
  destruct (read_by_extension path) as [raw|e] eqn:Eraw; [|discriminate Hc].
  cbn [rbind] in Hc. exists raw. split; [apply read_by_extension_Ok; exact Eraw|].
  set (df := Pd.map_columns (fun c => Py.upper (Py.strip c)) raw) in *.
  destruct (Pd.has_column "SEQN" df) eqn:Ekey; cbn [negb] in Hc; [|discriminate Hc].
  destruct (empty_columns df) as [names|e] eqn:Enames; [|discriminate Hc].
  cbn [rbind] in Hc. injection Hc as <-.
  pose proof (empty_columns_of_not_key df _ names Enames) as Hnk.
  assert (Hdrop : Pd.select "SEQN" (Pd.drop names df) = Pd.select "SEQN" df)
    by (rewrite !select_sel; apply sel_drop; exact Hnk).
  assert (Hwfd : wf_frame raw = true -> wf_frame df = true).
  { intros Hwf. apply (wf_frame_cols raw); [exact Hwf | reflexivity |].
    intros p Hp. apply in_map_iff in Hp as (q & <- & Hq). exists q. auto. }
  assert (Hsingle : forall l, l <> "SEQN" -> Pd.has_column l df = true ->
                              exists s, Pd.select l df = [s]).
  { intros l Hl Hhas. apply (empty_columns_of_single df _ names l Enames); [|exact Hl].
    unfold Pd.has_column in Hhas. apply existsb_exists in Hhas as (x & Hx & Heq).
    apply String.eqb_eq in Heq. subst x. exact Hx. }
  destruct names as [|n names].
  - repeat split; auto.
  - split; [reflexivity|]. split; [exact Hdrop|].
    split; [apply has_column_sel; rewrite Hdrop; apply has_column_sel; exact Ekey|].
    split.
    + intros Hwf. apply (wf_frame_cols df); [auto | reflexivity |].
      intros p Hp. apply filter_In in Hp as [Hp _]. exists p. auto.
    + intros l Hl Hhas.
      destruct (in_dec string_dec l (n :: names)) as [Hin|Hnin].
      * exfalso. apply has_column_sel in Hhas. apply Hhas.
        rewrite select_sel. apply sel_none. intros p Hp.
        apply filter_In in Hp as [_ Hp]. intros Heq. rewrite Heq in Hp.
        rewrite (existsb_eqb_self l (n :: names) Hin) in Hp. discriminate.
      * assert (Hsame : Pd.select l (Pd.drop (n :: names) df) = Pd.select l df)
          by (rewrite !select_sel; apply sel_drop; exact Hnin).
        rewrite Hsame. apply Hsingle; [exact Hl|].
        apply has_column_sel. rewrite <- Hsame. apply has_column_sel. exact Hhas.
Qed.

Section dedup_facts.
Context `{Sorter}.

Lemma sort_values_Ok c df sorted :
  Pd.sort_values c df = Ok sorted ->
  exists s, Pd.select c df = [s] /\ Pd.unorderable (svalues s) = false
            /\ sorted = Pd.take (argsort (svalues s)) df.
Proof.
  unfold Pd.sort_values. intros Hs.
  destruct (Pd.select c df) as [|s [|? ?]]; try discriminate Hs.
  destruct (Pd.unorderable (svalues s)) eqn:E; [discriminate Hs|].
  injection Hs as <-. exists s. auto.
Qed.

Lemma has_column_take c ps df : Pd.has_column c (Pd.take ps df) = Pd.has_column c df.
Proof. unfold Pd.has_column. rewrite columns_take. reflexivity. Qed.

Lemma select_take_dtypes c ps df s' :
  In s' (Pd.select c (Pd.take ps df)) ->
  exists s, In s (Pd.select c df) /\ sdtype s' = sdtype s.
Proof.
  rewrite select_take. intros Hin. apply in_map_iff in Hin as (s & <- & Hs).
  exists s. split; [exact Hs | reflexivity].
Qed.

(** What deduplication returns: a frame over the same columns whose keys are
    distinct. *)
Lemma resolve_duplicates_Ok df out :
  resolve_duplicates df = Ok out ->
  NoDup (Pd.key_rows "SEQN" out)
  /\ Pd.columns out = Pd.columns df
  /\ (wf_frame df = true -> wf_frame out = true)
  /\ (forall s', In s' (Pd.select "SEQN" out) ->
                 exists s, In s (Pd.select "SEQN" df) /\ sdtype s' = sdtype s).
Proof.
  unfold resolve_duplicates. intros Hout.
  destruct (existsb id (Pd.duplicated "SEQN" df)) eqn:Edup.
  - destruct (Pd.sort_values "SEQN" df) as [sorted|e] eqn:Esort; [|discriminate Hout].
    cbn [rbind] in Hout. injection Hout as <-.
    apply sort_values_Ok in Esort as (s & Hsel & _ & ->).
    split; [rewrite key_rows_drop_duplicates; apply NoDup_first_occurrences|].
    unfold Pd.drop_duplicates.
    split; [rewrite !columns_take; reflexivity|].
    split; [intros _; apply wf_take|].
    intros s' Hs'. apply select_take_dtypes in Hs' as (s1 & Hs1 & ->).
    apply select_take_dtypes in Hs1 as (s2 & Hs2 & ->). exists s2. auto.
  - injection Hout as <-.
    split.
    + unfold Pd.duplicated in Edup.
      rewrite <- (no_duplicates_first_occurrences [] _ Edup).
      apply NoDup_first_occurrences.
    + split; [reflexivity|]. split; [auto|]. intros s' Hs'. exists s'. auto.
Qed.

End dedup_facts.

(** ** The medication aggregation *)

Lemma where_true_combine {A B} (P : B -> bool) (pk ks : list A) (pv vs : list B) dk dv :
  length pk = length pv -> length ks = length vs ->
  map (fun i => (nth i (pk ++ ks) dk, nth i (pv ++ vs) dv))
      (Pd.where_true (length pk) (map P vs))
  = List.filter (fun kv => P (snd kv)) (combine ks vs).
Proof.
  revert pk pv vs. induction ks as [|k ks IH]; intros pk pv [|v vs] Hp Hl;
    try discriminate Hl; [reflexivity|].
  cbn [map Pd.where_true combine List.filter snd].
  specialize (IH (pk ++ [k]) (pv ++ [v]) vs).
  rewrite <- !app_assoc, !length_app in IH. cbn [app length] in IH.
  replace (length pk + 1)%nat with (S (length pk)) in IH by lia.
  specialize (IH ltac:(lia) ltac:(cbn in Hl; lia)).
  destruct (P v); [|exact IH].
  cbn [map]. rewrite IH. f_equal.
  rewrite app_nth2 by lia. rewrite Nat.sub_diag.
  rewrite app_nth2 by lia. rewrite Hp, Nat.sub_diag. reflexivity.
Qed.

Lemma sel_single_filter c cs s :
  sel c cs = [s] -> List.filter (fun p => String.eqb (fst p) c) cs = [(c, s)].
Proof.
  unfold sel. intros Hs.
  destruct (List.filter (fun p => String.eqb (fst p) c) cs) as [|p [|? ?]] eqn:E;
    try discriminate Hs.
  injection Hs as <-.
  assert (Hp : In p (List.filter (fun p => String.eqb (fst p) c) cs))
    by (rewrite E; left; reflexivity).
  apply filter_In in Hp as [_ Hp]. apply String.eqb_eq in Hp.
  destruct p as [l s]. cbn in *. subst l. reflexivity.
Qed.

Section aggregation_facts.
Context `{Numeric}.

Lemma insert_sorted_perm k ks : Pd.insert_sorted k ks ≡ₚ k :: ks.
Proof.
  induction ks as [|k' ks IH]; [reflexivity|]. cbn [Pd.insert_sorted].
  destruct (value_le k k'); [reflexivity|].
  rewrite IH. apply perm_swap.
Qed.

Lemma sort_keys_perm ks : Pd.sort_keys ks ≡ₚ ks.
Proof.
  unfold Pd.sort_keys. induction ks as [|k ks IH]; [reflexivity|].
  cbn [foldr]. rewrite insert_sorted_perm, IH. reflexivity.
Qed.

Lemma unique_In k ks : In k (Pd.unique ks) <-> In k ks.
Proof.
  induction ks as [|k0 ks IH]; [reflexivity|]. cbn [Pd.unique In].
  rewrite filter_In, IH. unfold value_eqb. split.
  - intros [->|[Hin _]]; auto.
  - intros [->|Hin]; [left; reflexivity|].
    destruct (decide (k = k0)) as [->|Hne]; [left; reflexivity|].
    right. split; [exact Hin|]. rewrite bool_decide_eq_false_2 by exact Hne.
    reflexivity.
Qed.

Lemma unique_NoDup ks : NoDup (Pd.unique ks).
Proof.
  induction ks as [|k ks IH]; [constructor|]. cbn [Pd.unique].
  constructor.
  - rewrite list_elem_of_In, filter_In. unfold value_eqb. intros [_ Hne].
    rewrite bool_decide_eq_true_2 in Hne by reflexivity. discriminate.
  - apply NoDup_ListNoDup. apply List.NoDup_filter. apply NoDup_ListNoDup. exact IH.
Qed.

Lemma medication_keys_NoDup ks vs : NoDup (medication_keys ks vs).
Proof.
  unfold medication_keys. rewrite sort_keys_perm. apply unique_NoDup.
Qed.

(** The keys of the aggregate are the present keys with a named drug. *)
Lemma medication_keys_In k ks vs :
  In k (medication_keys ks vs)
  <-> k <> NA /\ exists v, In (k, v) (combine ks vs) /\ v <> NA.
Proof.
  unfold medication_keys.
  rewrite <- list_elem_of_In, sort_keys_perm, list_elem_of_In.
  rewrite unique_In, filter_In, in_map_iff. unfold medication_rows. split.
  - intros [((k', v) & Hk & Hin) Hna]. cbn in Hk. subst k'.
    apply filter_In in Hin as [Hin Hv]. cbn in Hv.
    split; [destruct k; cbn in Hna; congruence|].
    exists v. split; [exact Hin|]. destruct v; cbn in Hv; congruence.
  - intros [Hk (v & Hin & Hv)]. split.
    + exists (k, v). split; [reflexivity|]. apply filter_In. split; [exact Hin|].
      destruct v; cbn; congruence.
    + destruct k; cbn; congruence.
Qed.

End aggregation_facts.

Lemma combine_map_rows {A B C} (g : B -> C) (R : list (A * B)) :
  combine (map fst R) (map g (map snd R)) = map (fun kv => (fst kv, g (snd kv))) R.
Proof.
  induction R as [|[a b] R IH]; [reflexivity|]. cbn. rewrite IH. reflexivity.
Qed.

Lemma filter_map_comm {A B} (P : B -> bool) (f : A -> B) (l : list A) :
  List.filter P (map f l) = map f (List.filter (fun x => P (f x)) l).
Proof.
  induction l as [|x l IH]; [reflexivity|]. cbn.
  destruct (P (f x)); cbn; rewrite IH; reflexivity.
Qed.

Section aggregation_eq.
Context `{Numeric}.

Lemma group_texts k (R : list (value * value)) :
  map Pd.text_of
      (Pd.group_values k (map fst R)
         (map (fun v => VStr (Pd.str_of_value v)) (map snd R)))
  = map (fun kv => Pd.str_of_value (snd kv))
        (List.filter (fun kv => value_eqb (fst kv) k) R).
Proof.
  unfold Pd.group_values. rewrite combine_map_rows, filter_map_comm, !map_map.
  reflexivity.
Qed.

Lemma aggregate_medications_eq c ks vs :
  wf_frame c = true ->
  Pd.select "SEQN" c = [ks] -> Pd.select "RXDDRUG" c = [vs] ->
  aggregate_medications c = Ok (aggregated ks vs).
Proof.
  intros Hwf Hks Hvs.
  assert (Hlk : length (svalues ks) = Pd.len c)
    by (apply (wf_frame_select c "SEQN" ks Hwf); rewrite Hks; left; reflexivity).
  assert (Hlv : length (svalues vs) = Pd.len c)
    by (apply (wf_frame_select c "RXDDRUG" vs Hwf); rewrite Hvs; left; reflexivity).
  unfold aggregate_medications.
  assert (Hget : Pd.getitem ["SEQN"; "RXDDRUG"] c
                 = mkDataFrame (index c) [("SEQN", ks); ("RXDDRUG", vs)]).
  { unfold Pd.getitem. cbn [flat_map].
    rewrite (sel_single_filter "SEQN" (cols c) ks Hks).
    rewrite (sel_single_filter "RXDDRUG" (cols c) vs Hvs). reflexivity. }
  rewrite Hget. clear Hget.
  set (P := fun v : value => forallb notna [v]).
  set (ps := Pd.where_true 0 (map P (svalues vs))).
  assert (Hdrop : Pd.dropna "RXDDRUG" (mkDataFrame (index c) [("SEQN", ks); ("RXDDRUG", vs)])
                  = Pd.take ps (mkDataFrame (index c) [("SEQN", ks); ("RXDDRUG", vs)])).
  { unfold Pd.dropna. f_equal. unfold ps. f_equal.
    unfold Pd.key_rows, Pd.len. cbn [index]. change (length (index c)) with (Pd.len c).
    rewrite <- Hlv.
    change (Pd.select "RXDDRUG" (mkDataFrame (index c) [("SEQN", ks); ("RXDDRUG", vs)]))
      with [vs].
    rewrite map_map. unfold Pd.key_at. cbn [map].
    apply (map_nth_seq P (svalues vs) NA). }
  rewrite Hdrop. clear Hdrop.
  assert (Hrows : map (fun i => (nth i (svalues ks) NA, nth i (svalues vs) NA)) ps
                  = medication_rows (svalues ks) (svalues vs)).
  { unfold ps, medication_rows.
    pose proof (where_true_combine P [] (svalues ks) [] (svalues vs) NA NA eq_refl
                  ltac:(congruence)) as Hc.
    cbn [app length] in Hc. rewrite Hc. clear Hc.
    apply List.filter_ext. intros [k v]. unfold P. cbn. apply andb_true_r. }
  assert (Hk : Pd.take_values ps (svalues ks)
               = map fst (medication_rows (svalues ks) (svalues vs)))
    by (rewrite <- Hrows, map_map; reflexivity).
  assert (Hv : Pd.take_values ps (svalues vs)
               = map snd (medication_rows (svalues ks) (svalues vs)))
    by (rewrite <- Hrows, map_map; reflexivity).
  unfold Pd.take, Pd.setitem, Pd.groupby_join, Pd.select. cbn [cols index map fst snd].
  change (String.eqb "SEQN" "RXDDRUG") with false.
  change (String.eqb "RXDDRUG" "RXDDRUG") with true.
  change (String.eqb "SEQN" "SEQN") with true.
  change (String.eqb "RXDDRUG" "SEQN") with false.
  cbn [List.filter map fst snd].
  change (String.eqb "SEQN" "SEQN") with true.
  change (String.eqb "RXDDRUG" "SEQN") with false.
  change (String.eqb "SEQN" "RXDDRUG") with false.
  change (String.eqb "RXDDRUG" "RXDDRUG") with true.
  cbn [List.filter map fst snd].
  unfold aggregated, medication_keys, drug_names, Pd.astype_str.
  cbn [Pd.take_series svalues sdtype]. rewrite Hk, Hv.
  f_equal. f_equal. f_equal. f_equal. f_equal. f_equal.
  apply map_ext. intros k. f_equal. f_equal.
  apply group_texts.
Qed.

End aggregation_eq.

(** ** Loaded components *)

Lemma select_getitem_key c :
  Pd.select "SEQN" (Pd.getitem ["SEQN"; "RXDDRUG"] c) = Pd.select "SEQN" c.
Proof.
  rewrite !select_sel. unfold Pd.getitem. cbn [cols flat_map].
  rewrite !sel_app. change (sel "SEQN" []) with (@nil Series). rewrite app_nil_r.
  rewrite (sel_none "SEQN" (List.filter (fun p => String.eqb (fst p) "RXDDRUG") (cols c))).
  - rewrite app_nil_r. unfold sel. f_equal.
    induction (cols c) as [|p cs IH]; [reflexivity|]. cbn [List.filter].
    destruct (String.eqb (fst p) "SEQN") eqn:E; [|exact IH].
    cbn [List.filter]. rewrite E. f_equal. exact IH.
  - intros p Hp. apply filter_In in Hp as [_ Hp]. apply String.eqb_eq in Hp.
    rewrite Hp. discriminate.
Qed.

Lemma select_setitem_other c l f df :
  c <> l -> Pd.select c (Pd.setitem l f df) = Pd.select c df.
Proof.
  intros Hne. unfold Pd.select, Pd.setitem. cbn [cols].
  induction (cols df) as [|p cs IH]; [reflexivity|]. cbn [map List.filter].
  destruct (String.eqb (fst p) l) eqn:El.
  - apply String.eqb_eq in El. cbn [fst].
    assert (String.eqb (fst p) c = false) as ->
        by (apply String.eqb_neq; congruence).
    exact IH.
  - destruct (String.eqb (fst p) c); cbn [map]; rewrite IH; reflexivity.
Qed.

Section loaded_facts.
Context `{Sorter}.

Lemma aggregate_medications_key c out :
  aggregate_medications c = Ok out -> exists ks, Pd.select "SEQN" c = [ks].
Proof.
  unfold aggregate_medications, Pd.groupby_join. intros Hout.
  rewrite select_setitem_other in Hout by discriminate.
  unfold Pd.dropna in Hout. rewrite select_take, select_getitem_key in Hout.
  destruct (Pd.select "SEQN" c) as [|ks [|? ?]]; cbn [map] in Hout.
  - discriminate Hout.
  - exists ks. reflexivity.
  - match type of Hout with
    | match ?l with _ => _ end = _ => destruct l as [|? [|? ?]]
    end; discriminate Hout.
Qed.



Lemma cleaned_wf path c :
  file_wf path = true -> cleaned path = Ok c -> wf_frame c = true.
Proof.
  intros Hfw Hc. apply cleaned_Ok in Hc as (raw & Hraw & _ & _ & _ & Hwf & _).
  unfold file_wf in Hfw. rewrite Hraw in Hfw. auto.
Qed.




End loaded_facts.

Section keyed_facts.
Context `{Sorter}.

Lemma resolve_duplicates_keyed c df :
  wf_frame c = true -> Pd.has_column "SEQN" c = true ->
  resolve_duplicates c = Ok df -> keyed df.
Proof.
  intros Hwf Hhas Hdf.
  apply resolve_duplicates_Ok in Hdf as (Hnd & Hcols & Hwf' & _).
  split; [auto|]. split; [unfold Pd.has_column; rewrite Hcols; exact Hhas | exact Hnd].
Qed.

Lemma aggregated_keyed ks vs : keyed (aggregated ks vs).
Proof.
  assert (Hsel : Pd.select "SEQN" (aggregated ks vs)
                 = [mkSeries (sdtype ks) (medication_keys (svalues ks) (svalues vs))])
    by reflexivity.
  assert (Hwf : wf_frame (aggregated ks vs) = true).
  { unfold wf_frame, aggregated, Pd.len. cbn [cols index forallb snd svalues].
    rewrite length_range_index, length_map, Nat.eqb_refl. reflexivity. }
  split; [exact Hwf|]. split; [reflexivity|].
  rewrite (key_rows_single _ _ Hwf Hsel). cbn [svalues].
  apply NoDup_ListNoDup. apply Injective_map_NoDup.
  - intros x y Heq. injection Heq. auto.
  - apply NoDup_ListNoDup. apply medication_keys_NoDup.
Qed.

Lemma Batched_read_any_keyed path df :
  file_wf path = true -> Batched.read_any path = Ok df -> keyed df.
Proof.
  intros Hfw. rewrite Batched_read_any_eq.
  destruct (cleaned path) as [c|e] eqn:Hc; [|discriminate]. cbn [rbind].
  apply resolve_duplicates_keyed.
  - exact (cleaned_wf path c Hfw Hc).
  - apply cleaned_Ok in Hc as (raw & _ & _ & _ & Hhas & _). exact Hhas.
Qed.

Lemma loaded_keyed path df :
  file_wf path = true -> loaded path = Ok df -> keyed df.
Proof.
  intros Hfw. unfold loaded.
  destruct (cleaned path) as [c|e] eqn:Hc; [|discriminate]. cbn [rbind].
  pose proof (cleaned_wf path c Hfw Hc) as Hwf.
  destruct (takes_medication_path path c) eqn:Emeds.
  - intros Hagg. destruct (aggregate_medications_key c df Hagg) as (ks & Hks).
    apply cleaned_Ok in Hc as (raw & _ & _ & _ & _ & _ & Hsingle).
    unfold takes_medication_path in Emeds. apply andb_prop in Emeds as [_ Hrx].
    destruct (Hsingle "RXDDRUG" ltac:(discriminate) Hrx) as (vs & Hvs).
    rewrite (aggregate_medications_eq c ks vs Hwf Hks Hvs) in Hagg.
    injection Hagg as <-. apply aggregated_keyed.
  - apply resolve_duplicates_keyed; [exact Hwf|].
    apply cleaned_Ok in Hc as (raw & _ & _ & _ & Hhas & _). exact Hhas.
Qed.

End keyed_facts.

(** ** Optimizing and namespacing a loaded component *)

Section ready_facts.
Context `{Numeric}.

Lemma length_downcast_loop try typecodes s :
  (forall t s, length (svalues (try t s)) = length (svalues s)) ->
  length (svalues (Pd.downcast_loop try typecodes s)) = length (svalues s).
Proof.
  intros Htry. revert s. induction typecodes as [|t rest IH]; intros s; [reflexivity|].
  rewrite downcast_loop_cons.
  destruct (itemsize t <=? itemsize (sdtype s))%Z; [|apply IH].
  destruct (bool_decide (sdtype (try t s) = t)); [apply Htry|].
  rewrite IH. apply Htry.
Qed.

Lemma length_optimize_column p :
  length (svalues (snd (optimize_column p))) = length (svalues (snd p)).
Proof.
  destruct p as [c col]. unfold optimize_column.
  destruct (String.eqb c "SEQN"); [reflexivity|].
  destruct (is_float_dtype (sdtype col)).
  { cbn [snd]. apply length_downcast_loop. intros t s.
    unfold Pd.maybe_downcast_float.
    repeat match goal with |- context [if ?b then _ else _] => destruct b end;
      cbn [svalues]; rewrite ?length_map; reflexivity. }
  destruct (is_integer_dtype (sdtype col)).
  { cbn [snd]. apply length_downcast_loop. intros t s.
    unfold Pd.maybe_downcast_int.
    repeat match goal with |- context [if ?b then _ else _] => destruct b end;
      reflexivity. }
  destruct (is_object_dtype (sdtype col)); [|reflexivity].
  match goal with |- context [if ?b then _ else _] => destruct b end; [|reflexivity].
  cbn [snd Pd.astype_category svalues]. apply length_map.
Qed.

Lemma wf_optimize df : wf_frame (optimize_dtypes df) = wf_frame df.
Proof.
  unfold wf_frame, optimize_dtypes, Pd.len. cbn [cols index].
  induction (cols df) as [|p cs IH]; [reflexivity|]. cbn [map forallb].
  rewrite length_optimize_column, IH. reflexivity.
Qed.

Lemma select_suffix_key df component :
  Pd.select "SEQN" (suffix_non_key df component) = Pd.select "SEQN" df.
Proof.
  rewrite !select_sel, cols_suffix_non_key.
  rewrite (sel_map_relabel "SEQN" (namespaced component) (fun s => s)).
  - apply map_id.
  - intros p _. split.
    + intros Hn. destruct (string_dec (fst p) "SEQN") as [Heq|Hne]; [exact Heq|].
      destruct (namespaced_not_key component _ Hne Hn).
    + intros ->. reflexivity.
Qed.

Lemma wf_suffix df component : wf_frame (suffix_non_key df component) = wf_frame df.
Proof.
  unfold wf_frame. rewrite cols_suffix_non_key.
  change (Pd.len (suffix_non_key df component)) with (Pd.len df).
  induction (cols df) as [|p cs IH]; [reflexivity|]. cbn [map forallb snd].
  rewrite IH. reflexivity.
Qed.

Lemma ready_len df component : Pd.len (ready df component) = Pd.len df.
Proof. reflexivity. Qed.

Lemma ready_select_key df component :
  Pd.select "SEQN" (ready df component) = Pd.select "SEQN" df.
Proof. unfold ready. rewrite select_suffix_key. apply select_optimize_key. Qed.

Lemma ready_keys df component : keys (ready df component) = keys df.
Proof. unfold keys. rewrite ready_select_key. reflexivity. Qed.


End ready_facts.

Section rows_facts.
Context `{Numeric}.

Lemma ready_keyed df component : keyed df -> keyed (ready df component).
Proof.
  intros (Hwf & Hhas & Hnd). unfold keyed.
  unfold ready at 1. rewrite wf_suffix, wf_optimize.
  split; [exact Hwf|]. split.
  - apply has_column_sel. rewrite ready_select_key. apply has_column_sel. exact Hhas.
  - unfold Pd.key_rows in *. rewrite ready_select_key, ready_len. exact Hnd.
Qed.

(** The keys of a loaded component stay distinct in a join that it enters
    cleanly. *)
Lemma join_keys_NoDup a d lk rk :
  keyed d -> joins_cleanly a d ->
  Pd.select "SEQN" a = [lk] -> Pd.select "SEQN" d = [rk] ->
  NoDup (map (right_key lk rk) (svalues rk)).
Proof.
  intros (Hwf & _ & Hnd) Hclean Hlk Hrk.
  unfold joins_cleanly in Hclean. rewrite Hlk, Hrk in Hclean.
  unfold right_key. destruct (is_float_dtype (sdtype lk) && is_integer_dtype (sdtype rk)).
  - exact (Hclean eq_refl).
  - rewrite map_id. rewrite (key_rows_single _ rk Hwf Hrk) in Hnd.
    apply NoDup_ListNoDup in Hnd. apply NoDup_ListNoDup.
    exact (NoDup_map_inv _ _ Hnd).
Qed.

(** The left join against right keys that stay distinct: the rows and the
    key column of the left table. *)
Lemma merged_rows a d lk rk :
  wf_frame a = true -> Pd.select "SEQN" a = [lk] ->
  NoDup (map (right_key lk rk) (svalues rk)) ->
  let m := merged a d lk rk in
  Pd.len m = Pd.len a /\ wf_frame m = true /\ Pd.select "SEQN" m = [lk].
Proof.
  intros Hwf Hsel Hnd m.
  pose proof (merged_key_column a d lk rk Hsel) as Hkey. fold m in Hkey.
  destruct (left_join_indexer_unique 0 (map (left_key lk rk) (svalues lk))
              (map (right_key lk rk) (svalues rk)) Hnd) as [Hfst _].
  rewrite length_map in Hfst.
  assert (Hlk : length (svalues lk) = Pd.len a)
    by (apply (wf_frame_select a "SEQN" lk Hwf); rewrite Hsel; left; reflexivity).
  rewrite Hfst, (take_series_seq lk _ eq_refl) in Hkey.
  assert (Hlen : Pd.len m = Pd.len a).
  { unfold m, merged. rewrite coerce_keys_maps. cbv zeta. unfold Pd.len at 1.
    cbn [index]. rewrite length_range_index.
    rewrite <- (length_map fst), Hfst, length_seq. exact Hlk. }
  split; [exact Hlen|]. split; [|exact Hkey].
  unfold wf_frame. rewrite Hlen. unfold m, merged. rewrite coerce_keys_maps.
  cbv zeta. cbn [cols].
  apply forallb_forall. intros p Hp. apply Nat.eqb_eq.
  apply in_app_or in Hp as [Hp|Hp]; apply in_map_iff in Hp as (q & <- & _);
    cbn [snd].
  - cbn [Pd.take_series svalues]. unfold Pd.take_values.
    rewrite length_map, Hfst, length_seq. exact Hlk.
  - rewrite length_take_series_fill, length_map.
    rewrite <- (length_map fst), Hfst, length_seq. exact Hlk.
Qed.

End rows_facts.

(** ** The merge loop *)

Section loop_facts.
Context `{Sorter}.

Lemma Batched_loop_body_eq p total i f l :
  Batched.loop_body p total i f l
  = body_with (fun f => lift (Batched.read_any f)) p total i f l.
Proof. reflexivity. Qed.

Lemma Files_loop_body_eq p total i f l :
  Files.loop_body p total i f l = body_with Files.read_any p total i f l.
Proof. reflexivity. Qed.

Lemma Batched_loop_eq p total i files l w :
  Batched.loop p total i files l w
  = loop_with (fun f => lift (Batched.read_any f)) p total i files l w.
Proof.
  revert i l w. induction files as [|f rest IH]; intros i l w; [reflexivity|].
  cbn [Batched.loop loop_with]. unfold bind.
  rewrite Batched_loop_body_eq.
  destruct (body_with _ p total i f l w) as [[l'|e|a] w']; [|reflexivity..].
  apply IH.
Qed.

Lemma Files_loop_eq p total i files l w :
  Files.loop p total i files l w = loop_with Files.read_any p total i files l w.
Proof.
  revert i l w. induction files as [|f rest IH]; intros i l w; [reflexivity|].
  cbn [Files.loop loop_with]. unfold bind.
  rewrite Files_loop_body_eq.
  destruct (body_with _ p total i f l w) as [[l'|e|a] w']; [|reflexivity..].
  apply IH.
Qed.

Lemma Batched_reads : reads (fun f => lift (Batched.read_any f)) Batched.read_any.
Proof.
  intros f w. exists []. destruct w as [fsw out]. cbn [fs stdout].
  rewrite app_nil_r. destruct (Batched.read_any f); reflexivity.
Qed.

Lemma Files_reads : reads Files.read_any loaded.
Proof.
  intros f w. exists (loader_prints f). apply Files_read_any_eq.
Qed.

End loop_facts.

Section step_facts.
Context `{Sorter}.
Variables (read : file -> M DataFrame) (load : file -> result DataFrame).
Hypothesis Hreads : reads read load.

(** A component that fails to load is skipped: the locals and the files are
    as before, and the last line printed is the warning. *)
Lemma body_with_skip p total i f l w e :
  load f = Raise e ->
  exists out,
    body_with read p total i f l w
    = (Normal l,
       mkWorld (fs w)
         (stdout w ++ out
          ++ ["[WARN] Skipping " +:+ fname f +:+ ": " +:+ str_of_exn e])).
Proof.
  intros Hload. unfold body_with. unfold bind at 1. unfold print at 1.
  cbn [fs stdout]. unfold try_except.
  match goal with |- context [read f ?w1] => destruct (Hreads f w1) as [out Hr] end.
  rewrite Hr, Hload. cbn [outcome_of fs stdout].
  unfold bind, print, ret. cbn [fs stdout].
  match goal with
  | |- context [(stdout w ++ [?hdr]) ++ out] => exists ([hdr] ++ out)
  end.
  rewrite <- !app_assoc. reflexivity.
Qed.

(** A component that loads and whose step completes: the merged table was
    written to the checkpoint and the accumulator is what was read back. *)
Lemma body_with_load p total i f l w df l' w' :
  load f = Ok df ->
  body_with read p total i f l w = (Normal l', w') ->
  let comp := component_from_filename (Py.path_stem (fname f)) in
  exists m,
    match accumulator l with
    | None => m = ready df comp
    | Some a => Pd.merge "SEQN" a (ready df comp) = Ok m
    end
    /\ IO.has_dups (Pd.columns m) = false
    /\ accumulator l' = Some (mkDataFrame (Pd.range_index (Pd.len m)) (cols m))
    /\ report_rows l'
       = report_rows l ++ [mkReportRow comp (fname f) (Pd.len (ready df comp))
                                       (Pd.shape1 (ready df comp))]
    /\ fs w' = <[tmp_parquet p := ParquetFile (Pd.len m) (cols m)]> (fs w).
Proof.
  intros Hload Hbody comp. unfold body_with in Hbody. fold comp in Hbody.
  unfold bind at 1 in Hbody. unfold print at 1 in Hbody.
  cbn [fs stdout] in Hbody. unfold try_except in Hbody.
  match type of Hbody with context [read f ?w1] =>
    destruct (Hreads f w1) as [out Hr] end.
  rewrite Hr, Hload in Hbody. cbn [outcome_of fs stdout] in Hbody.
  fold (ready df comp) in Hbody.
  assert (Hfin : forall m w1,
             (run IO.to_parquet m (tmp_parquet p);
              do acc <- IO.read_parquet (tmp_parquet p);
              run print ("    Accumulator now: " +:+ string_of_nat (Pd.len acc)
                         +:+ " rows x " +:+ string_of_nat (Pd.shape1 acc) +:+ " cols");
              ret (mkLocals (Some acc)
                     (report_rows l
                      ++ [mkReportRow comp (fname f) (Pd.len (ready df comp))
                                      (Pd.shape1 (ready df comp))]))) w1
             = (Normal l', w') ->
             IO.has_dups (Pd.columns m) = false
             /\ accumulator l' = Some (mkDataFrame (Pd.range_index (Pd.len m)) (cols m))
             /\ report_rows l'
                = report_rows l ++ [mkReportRow comp (fname f) (Pd.len (ready df comp))
                                                (Pd.shape1 (ready df comp))]
             /\ fs w' = <[tmp_parquet p := ParquetFile (Pd.len m) (cols m)]> (fs w1)).
  { intros m w1 Hrun. unfold bind, IO.to_parquet, IO.read_parquet, print, ret in Hrun.
    destruct (IO.has_dups (Pd.columns m)); [discriminate Hrun|].
    destruct (parquet_ok m); cbn [negb] in Hrun; [|discriminate Hrun].
    cbn [fs stdout] in Hrun. rewrite lookup_insert_eq in Hrun.
    injection Hrun as <- <-. cbn [accumulator report_rows fs]. auto. }
  destruct (accumulator l) as [a|].
  - unfold bind at 1 in Hbody. unfold bind at 1 in Hbody.
    unfold print at 1 in Hbody. cbn [fs stdout] in Hbody.
    destruct (Pd.merge "SEQN" a (ready df comp)) as [m|e]; cbn [lift] in Hbody;
      [|discriminate Hbody].
    unfold ret at 1 in Hbody. exists m. split; [reflexivity|].
    apply Hfin in Hbody. cbn [fs] in Hbody. exact Hbody.
  - exists (ready df comp). split; [reflexivity|].
    unfold bind at 1 in Hbody. unfold ret at 1 in Hbody.
    apply Hfin in Hbody. cbn [fs] in Hbody. exact Hbody.
Qed.

End step_facts.

(** ** The row invariant of the accumulator *)

Lemma reloaded_len m : Pd.len (reloaded m) = Pd.len m.
Proof. unfold reloaded, Pd.len at 1. cbn [index]. apply length_range_index. Qed.

Lemma reloaded_wf m : wf_frame (reloaded m) = wf_frame m.
Proof. unfold wf_frame. rewrite reloaded_len. reflexivity. Qed.

Lemma no_dups_single c df :
  IO.has_dups (Pd.columns df) = false -> Pd.has_column c df = true ->
  exists s, Pd.select c df = [s].
Proof.
  unfold Pd.has_column, Pd.columns, Pd.select.
  induction (cols df) as [|p cs IH]; cbn [map IO.has_dups existsb List.filter];
    [discriminate|].
  intros Hnd Hhas. apply orb_false_elim in Hnd as [Hp Hnd].
  rewrite String.eqb_sym in Hhas.
  destruct (String.eqb (fst p) c) eqn:E.
  - apply String.eqb_eq in E. exists (snd p). cbn [map]. f_equal.
    change (sel c cs = []). apply sel_none. intros q Hq Heq.
    assert (existsb (String.eqb (fst p)) (map fst cs) = true); [|congruence].
    apply existsb_exists. exists (fst q). split; [apply in_map; exact Hq|].
    apply String.eqb_eq. congruence.
  - cbn [orb] in Hhas. exact (IH Hnd Hhas).
Qed.

Section keeps.
Context `{Sorter}.

Lemma acc_keeps_anchor df component :
  keyed df -> IO.has_dups (Pd.columns (ready df component)) = false ->
  acc_keeps df (reloaded (ready df component)).
Proof.
  intros Hkeyed Hnd. pose proof (ready_keyed df component Hkeyed) as (Hwf & Hhas & _).
  destruct (no_dups_single "SEQN" _ Hnd Hhas) as (s & Hs).
  split; [rewrite reloaded_wf; exact Hwf|].
  split; [rewrite reloaded_len; reflexivity|].
  exists s. split; [exact Hs|]. rewrite <- (ready_select_key df component). exact Hs.
Qed.

Lemma acc_keeps_merge df0 a df component m :
  acc_keeps df0 a -> keyed df -> joins_cleanly df0 df ->
  Pd.merge "SEQN" a (ready df component) = Ok m ->
  acc_keeps df0 (reloaded m).
Proof.
  intros (Hwf & Hlen & s & Hs & Hs0) Hkeyed Hclean Hm.
  apply merge_Ok_inv in Hm as (lk & rk & Hlk & Hrk & _ & ->).
  rewrite Hs in Hlk. injection Hlk as <-.
  rewrite ready_select_key in Hrk.
  pose proof (join_keys_NoDup df0 df s rk Hkeyed Hclean Hs0 Hrk) as Hnd.
  destruct (merged_rows a (ready df component) s rk Hwf Hs Hnd) as (Hl & Hw & Hsel).
  split; [rewrite reloaded_wf; exact Hw|].
  split; [rewrite reloaded_len, Hl; exact Hlen|].
  exists s. split; [exact Hsel | exact Hs0].
Qed.

Variables (read : file -> M DataFrame) (load : file -> result DataFrame).
Hypothesis Hreads : reads read load.
Hypothesis Hkeyed : forall f df, file_wf f = true -> load f = Ok df -> keyed df.

Lemma loop_with_keeps p total files :
  Forall (fun f => file_wf f = true) files ->
  forall i a rows w l w' df0,
    loop_with read p total i files (mkLocals (Some a) rows) w = (Normal l, w') ->
    acc_keeps df0 a -> run_joins_cleanly load df0 files ->
    exists acc, accumulator l = Some acc /\ acc_keeps df0 acc.
Proof.
  induction 1 as [|f files Hf Hfiles IH]; intros i a rows w l w' df0 Hloop Hinv Hclean.
  - cbn in Hloop. injection Hloop as <- _. exists a. auto.
  - cbn [loop_with] in Hloop. unfold bind at 1 in Hloop.
    destruct (body_with read p total i f (mkLocals (Some a) rows) w)
      as [[l1|e|x] w1] eqn:Hbody; try discriminate Hloop.
    apply Forall_cons_iff in Hclean as [Hcf Hclean].
    destruct (load f) as [df|e] eqn:Hload.
    + destruct (body_with_load read load Hreads p total i f _ w df l1 w1 Hload Hbody)
        as (m & Hm & _ & Hacc & _).
      cbn [accumulator] in Hm. destruct l1 as [acc1 rows1]. cbn [accumulator] in Hacc.
      subst acc1.
      apply (IH _ _ _ _ _ _ df0 Hloop); [|exact Hclean].
      exact (acc_keeps_merge df0 a df _ m Hinv (Hkeyed f df Hf Hload) Hcf Hm).
    + destruct (body_with_skip read load Hreads p total i f (mkLocals (Some a) rows) w e Hload)
        as (out & Hskip).
      rewrite Hskip in Hbody. injection Hbody as <- _.
      exact (IH _ _ _ _ _ _ df0 Hloop Hinv Hclean).
Qed.

Lemma loop_with_keeps_anchor p total files :
  Forall (fun f => file_wf f = true) files ->
  forall i rows w l w',
    loop_with read p total i files (mkLocals None rows) w = (Normal l, w') ->
    match anchor load files with
    | None => accumulator l = None
    | Some df0 =>
        run_joins_cleanly load df0 files ->
        exists acc, accumulator l = Some acc /\ acc_keeps df0 acc
    end.
Proof.
  induction 1 as [|f files Hf Hfiles IH]; intros i rows w l w' Hloop.
  - cbn in Hloop. injection Hloop as <- _. reflexivity.
  - cbn [loop_with] in Hloop. unfold bind at 1 in Hloop.
    destruct (body_with read p total i f (mkLocals None rows) w)
      as [[l1|e|x] w1] eqn:Hbody; try discriminate Hloop.
    cbn [anchor]. destruct (load f) as [df|e] eqn:Hload.
    + intros Hclean. apply Forall_cons_iff in Hclean as [_ Hclean].
      destruct (body_with_load read load Hreads p total i f _ w df l1 w1 Hload Hbody)
        as (m & Hm & Hnd & Hacc & _).
      cbn [accumulator] in Hm. subst m.
      destruct l1 as [acc1 rows1]. cbn [accumulator] in Hacc. subst acc1.
      apply (loop_with_keeps p total files Hfiles _ _ _ _ _ _ df Hloop); [|exact Hclean].
      apply acc_keeps_anchor; [exact (Hkeyed f df Hf Hload) | exact Hnd].
    + destruct (body_with_skip read load Hreads p total i f (mkLocals None rows) w e Hload)
        as (out & Hskip).
      rewrite Hskip in Hbody. injection Hbody as <- _.
      specialize (IH _ _ _ _ _ Hloop).
      destruct (anchor load files) as [df0|]; [|exact IH].
      intros Hclean. apply Forall_cons_iff in Hclean as [_ Hclean]. exact (IH Hclean).
Qed.

End keeps.

(** ** The reference kernel sorts *)

Lemma reference_value_le_total (a b : value) :
  value_le a b = true \/ value_le b a = true.
Proof.
  destruct a as [|x|x|x|x], b as [|y|y|y|y]; cbn; auto;
    try (destruct (Z.leb_spec x y); [left; reflexivity | right; apply Z.leb_le; lia]).
  - destruct (Z.leb_spec (Reference.float_key x) (Reference.float_key y));
      [left; reflexivity | right; apply Z.leb_le; lia].
  - apply String.leb_total.
  - destruct x, y; cbn; auto.
Qed.

Global Instance reference_key_order_total l : Total (Reference.key_order l).
Proof. intros i j. apply reference_value_le_total. Qed.

Lemma reference_argsort_perm l :
  Reference.merge_argsort l ≡ₚ seq 0 (length l).
Proof. apply merge_sort_Permutation. Qed.

Lemma reference_argsort_sorted l :
  Sorted (fun i j => value_le (nth i l NA) (nth j l NA) = true)
         (Reference.merge_argsort l).
Proof. apply (Sorted_merge_sort (Reference.key_order l)). Qed.

Global Instance reference_sorter : Sorter := {|
  argsort := Reference.merge_argsort;
  argsort_perm := reference_argsort_perm;
  argsort_sorted := reference_argsort_sorted
|}.

(** ** The two [main] functions *)

Lemma Forall_insert_file (P : file -> Prop) f fs :
  P f -> Forall P fs -> Forall P (insert_file f fs).
Proof.
  intros Hf. induction 1 as [|g rest Hg Hrest IH]; cbn [insert_file].
  - repeat constructor. exact Hf.
  - destruct (sort_key_le (sort_key f) (sort_key g)); repeat constructor; auto.
Qed.

Lemma Forall_processing_order (P : file -> Prop) globbed :
  Forall P globbed -> Forall P (processing_order globbed).
Proof.
  intros Hall. unfold processing_order, sorted_files.
  assert (Hf : Forall P (List.filter (fun f => negb (is_excluded (fname f))) globbed)).
  { apply List.Forall_forall. intros f Hin. apply filter_In in Hin as [Hin _].
    rewrite List.Forall_forall in Hall. exact (Hall f Hin). }
  induction Hf as [|f rest Hf Hrest IH]; [constructor|].
  cbn [foldr]. apply Forall_insert_file; assumption.
Qed.

Section main_facts.
Context `{Sorter}.

(** A run of [main] of [merge_nhanes_files.py] that returns ran the loop to
    its end with a table in the accumulator and wrote it to the output; the
    later writes touch other paths only. *)
Lemma Files_main_Normal e p dir_exists globbed w w' :
  Files.main e p dir_exists globbed w = (Normal tt, w') ->
  let files := processing_order globbed in
  exists l w1 acc,
    Files.loop p (length files) 1 files (mkLocals None []) w = (Normal l, w1)
    /\ accumulator l = Some acc
    /\ forall path, path <> out_csv p -> path <> out_report p -> path <> tmp_parquet p ->
         fs w' !! path
         = (<[out_parquet p := ParquetFile (Pd.len acc) (cols acc)]> (fs w1)) !! path.
Proof.
  unfold Files.main, processing_order. intros Hmain.
  destruct (negb (Files.truthy (Files.NHANES_INPUT_DIR e))
            || negb (Files.truthy (Files.NHANES_OUTPUT_DIR e))); [discriminate Hmain|].
  destruct (negb dir_exists); [discriminate Hmain|].
  destruct (List.filter (fun f => negb (is_excluded (fname f))) globbed) as [|f0 fl];
    [discriminate Hmain|].
  unfold IO.mkdir_parent in Hmain. unfold bind at 1 in Hmain.
  unfold ret at 1 in Hmain. unfold bind at 1 in Hmain.
  destruct (Files.loop p _ 1 _ (mkLocals None []) w) as [[l|ex|x] w1] eqn:Hloop;
    try discriminate Hmain.
  destruct (accumulator l) as [acc|] eqn:Hacc; [|discriminate Hmain].
  exists l, w1, acc. split; [reflexivity|]. split; [exact Hacc|].
  intros path Hcsv Hrep Htmp.
  unfold bind, IO.to_parquet, IO.to_csv, IO.report_to_csv, IO.exists_, IO.unlink,
    try_except, print, ret in Hmain.
  destruct (IO.has_dups (Pd.columns acc)); [discriminate Hmain|].
  destruct (parquet_ok acc); cbn [negb] in Hmain; [|discriminate Hmain].
  cbn [fs stdout] in Hmain.
  destruct (String.eqb (default "0" (Files.NHANES_MAKE_CSV e)) "1");
    cbn [fs stdout] in Hmain;
    match type of Hmain with
    | context [bool_decide ?P] => destruct (bool_decide P)
    end;
    cbn [fs stdout] in Hmain;
    repeat match type of Hmain with
           | context [match ?m !! ?k with _ => _ end] =>
               destruct (m !! k); cbn [fs stdout] in Hmain
           end;
    injection Hmain as <-; cbn [fs];
    rewrite ?lookup_delete_ne, ?lookup_insert_ne by congruence; reflexivity.
Qed.

(** The same for [main] of [merge_nhanes_any_batched.py]. *)
Lemma Batched_main_Normal a p dir_exists globbed w w' :
  Batched.main a p dir_exists globbed w = (Normal tt, w') ->
  let files := processing_order globbed in
  exists l w1 acc,
    Batched.loop p (length files) 1 files (mkLocals None []) w = (Normal l, w1)
    /\ accumulator l = Some acc
    /\ forall path, path <> out_csv p -> path <> out_report p ->
         fs w' !! path
         = (<[out_parquet p := ParquetFile (Pd.len acc) (cols acc)]> (fs w1)) !! path.
Proof.
  unfold Batched.main, processing_order. intros Hmain.
  destruct (negb dir_exists); [discriminate Hmain|].
  destruct (List.filter (fun f => negb (is_excluded (fname f))) globbed) as [|f0 fl];
    [discriminate Hmain|].
  unfold bind at 1 in Hmain.
  destruct (Batched.loop p _ 1 _ (mkLocals None []) w) as [[l|ex|x] w1] eqn:Hloop;
    try discriminate Hmain.
  destruct (accumulator l) as [acc|] eqn:Hacc; [|discriminate Hmain].
  exists l, w1, acc. split; [reflexivity|]. split; [exact Hacc|].
  intros path Hcsv Hrep.
  unfold bind, IO.to_parquet, IO.to_csv, IO.report_to_csv, print, ret in Hmain.
  destruct (IO.has_dups (Pd.columns acc)); [discriminate Hmain|].
  destruct (parquet_ok acc); cbn [negb] in Hmain; [|discriminate Hmain].
  cbn [fs stdout] in Hmain.
  destruct (Batched.csv a =? 1)%Z; cbn [fs stdout] in Hmain;
    injection Hmain as <-; cbn [fs];
    rewrite ?lookup_insert_ne by congruence; reflexivity.
Qed.



End main_facts.

(** ** The left-join row invariant *)

(** C1, as amended: the rows of the final table are the rows of the anchor,
    as long as no component is joined whose integer keys meet float keys of
    the anchor and are no longer distinct as floats.  For input files whose
    frames are well formed and under that condition: whenever the merge loop
    of either script runs to its end, the accumulator is empty if no
    component loaded and otherwise has as many rows as the first component
    that loaded, with the same keys in the same order; whenever [main] of
    either script returns, the output file holds that many rows; and one
    merge step against a loaded component keeps the rows and the keys of the
    accumulator as they are, so that a key of the component alone adds no
    row. *)
Theorem C1_final_rows_are_anchor_rows `{Sorter}
        (p : paths) (files : list file) (w : world) :
  Forall (fun f => file_wf f = true) files ->
  out_parquet p <> out_csv p ->
  out_parquet p <> out_report p ->
  out_parquet p <> tmp_parquet p ->
  (forall total i rows l w',
      Batched.loop p total i files (mkLocals None rows) w = (Normal l, w') ->
      match anchor Batched.read_any files with
      | None => accumulator l = None
      | Some df0 =>
          run_joins_cleanly Batched.read_any df0 files ->
          exists acc, accumulator l = Some acc
                      /\ Pd.len acc = Pd.len df0 /\ keys acc = keys df0
      end)
  /\ (forall total i rows l w',
      Files.loop p total i files (mkLocals None rows) w = (Normal l, w') ->
      match anchor loaded files with
      | None => accumulator l = None
      | Some df0 =>
          run_joins_cleanly loaded df0 files ->
          exists acc, accumulator l = Some acc
                      /\ Pd.len acc = Pd.len df0 /\ keys acc = keys df0
      end)
  /\ (forall a dir_exists w',
      Batched.main a p dir_exists files w = (Normal tt, w') ->
      exists df0 cs,
        anchor Batched.read_any (processing_order files) = Some df0
        /\ (run_joins_cleanly Batched.read_any df0 (processing_order files) ->
            fs w' !! out_parquet p = Some (ParquetFile (Pd.len df0) cs)))
  /\ (forall e dir_exists w',
      Files.main e p dir_exists files w = (Normal tt, w') ->
      exists df0 cs,
        anchor loaded (processing_order files) = Some df0
        /\ (run_joins_cleanly loaded df0 (processing_order files) ->
            fs w' !! out_parquet p = Some (ParquetFile (Pd.len df0) cs)))
  /\ (forall acc df component m,
      wf_frame acc = true -> keyed df -> joins_cleanly acc df ->
      Pd.merge "SEQN" acc (ready df component) = Ok m ->
      Pd.len m = Pd.len acc /\ keys m = keys acc).
Proof.
  intros Hfiles Hcsv Hrep Htmp.
  assert (Hinv_keys : forall df0 acc, acc_keeps df0 acc ->
                                      Pd.len acc = Pd.len df0 /\ keys acc = keys df0).
  { intros df0 acc (_ & Hlen & s & Hs & Hs0). split; [exact Hlen|].
    rewrite (keys_single acc s Hs), (keys_single df0 s Hs0). reflexivity. }
  assert (Hloop : forall load (fl : list file) l,
             match anchor load fl with
             | None => accumulator l = None
             | Some df0 =>
                 run_joins_cleanly load df0 fl ->
                 exists acc, accumulator l = Some acc /\ acc_keeps df0 acc
             end ->
             match anchor load fl with
             | None => accumulator l = None
             | Some df0 =>
                 run_joins_cleanly load df0 fl ->
                 exists acc, accumulator l = Some acc
                             /\ Pd.len acc = Pd.len df0 /\ keys acc = keys df0
             end).
  { intros load fl l. destruct (anchor load fl); [|auto].
    intros Hacc Hclean. destruct (Hacc Hclean) as (acc & Hl & Hinv). exists acc.
    split; [exact Hl|]. exact (Hinv_keys _ _ Hinv). }
  split; [|split; [|split; [|split]]].
  - intros total i rows l w' Hrun. apply Hloop. rewrite Batched_loop_eq in Hrun.
    exact (loop_with_keeps_anchor _ _ Batched_reads Batched_read_any_keyed p total files
             Hfiles i rows w l w' Hrun).
  - intros total i rows l w' Hrun. apply Hloop. rewrite Files_loop_eq in Hrun.
    exact (loop_with_keeps_anchor _ _ Files_reads loaded_keyed p total files
             Hfiles i rows w l w' Hrun).
  - intros a dir_exists w' Hmain.
    apply Batched_main_Normal in Hmain as (l & w1 & acc & Hrun & Hacc & Hfs).
    rewrite Batched_loop_eq in Hrun.
    pose proof (loop_with_keeps_anchor _ _ Batched_reads Batched_read_any_keyed p _ _
                  (Forall_processing_order _ _ Hfiles) _ _ _ _ _ Hrun) as Hanchor.
    destruct (anchor Batched.read_any (processing_order files)) as [df0|];
      [|congruence].
    exists df0, (cols acc). split; [reflexivity|]. intros Hclean.
    destruct (Hanchor Hclean) as (acc' & Hacc' & Hinv).
    rewrite Hacc in Hacc'. injection Hacc' as <-.
    destruct (Hinv_keys _ _ Hinv) as [Hlen _].
    rewrite Hfs by congruence. rewrite lookup_insert_eq, Hlen. reflexivity.
  - intros e dir_exists w' Hmain.
    apply Files_main_Normal in Hmain as (l & w1 & acc & Hrun & Hacc & Hfs).
    rewrite Files_loop_eq in Hrun.
    pose proof (loop_with_keeps_anchor _ _ Files_reads loaded_keyed p _ _
                  (Forall_processing_order _ _ Hfiles) _ _ _ _ _ Hrun) as Hanchor.
    destruct (anchor loaded (processing_order files)) as [df0|]; [|congruence].
    exists df0, (cols acc). split; [reflexivity|]. intros Hclean.
    destruct (Hanchor Hclean) as (acc' & Hacc' & Hinv).
    rewrite Hacc in Hacc'. injection Hacc' as <-.
    destruct (Hinv_keys _ _ Hinv) as [Hlen _].
    rewrite Hfs by congruence. rewrite lookup_insert_eq, Hlen. reflexivity.
  - intros acc df component m Hwf Hkeyed Hclean Hm.
    apply merge_Ok_inv in Hm as (lk & rk & Hlk & Hrk & _ & ->).
    rewrite ready_select_key in Hrk.
    pose proof (join_keys_NoDup acc df lk rk Hkeyed Hclean Hlk Hrk) as Hnd.
    destruct (merged_rows acc (ready df component) lk rk Hwf Hlk Hnd) as (Hl & _ & Hsel).
    split; [exact Hl|].
    rewrite (keys_single _ lk Hsel), (keys_single acc lk Hlk). reflexivity.
Qed.

Lemma C1_final_rows_are_anchor_rows_witness :
  let files := [Example.medications; Example.labs; Example.demographics] in
  Forall (fun f => file_wf f = true) files
  /\ exists df0 cs,
      anchor loaded (processing_order files) = Some df0
      /\ run_joins_cleanly loaded df0 (processing_order files)
      /\ Pd.len df0 = 3%nat
      /\ fs (snd (Files.main Example.environment Example.out_paths true files
                    Example.empty_world)) !! "out.parquet"
         = Some (ParquetFile (Pd.len df0) cs).
Proof.
  cbv zeta. split; [repeat constructor|].
  destruct (C1_final_rows_are_anchor_rows Example.out_paths
              [Example.medications; Example.labs; Example.demographics]
              Example.empty_world)
    as (_ & _ & _ & Hmain & _);
    [repeat constructor | discriminate | discriminate | discriminate |].
  destruct (Hmain Example.environment true
              (snd (Files.main Example.environment Example.out_paths true
                      [Example.medications; Example.labs; Example.demographics]
                      Example.empty_world)))
    as (df0 & cs & Hanchor & Hrows); [vm_compute; reflexivity|].
  assert (Hclean : run_joins_cleanly loaded df0
                     (processing_order
                        [Example.medications; Example.labs; Example.demographics])).
  { vm_compute in Hanchor. injection Hanchor as <-.
    repeat (constructor; [vm_compute; first [exact I | discriminate]|]). constructor. }
  exists df0, cs. split; [exact Hanchor|]. split; [exact Hclean|].
  split; [|exact (Hrows Hclean)].
  vm_compute in Hanchor. injection Hanchor as <-. reflexivity.
Defined.

(** C1, as stated, fails.  The keys of the anchor are floats, [2^53] and
    [5.0]; the second component has the integer keys [2^53] and [2^53 + 1],
    which are distinct and survive the deduplication, and which the join
    compares as floats, where both are [2^53].  The first subject matches
    two rows, and the run of either script completes with three rows in the
    output for an anchor of two. *)
Lemma C1_float_keys_duplicate_rows :
  let files := [Samples.float_keys; Samples.wide_keys] in
  let ended := Batched.main Example.arguments Example.out_paths true files
                 Example.empty_world in
  Forall (fun f => file_wf f = true) files
  /\ (exists df0, anchor Batched.read_any (processing_order files) = Some df0
                  /\ Pd.len df0 = 2%nat
                  /\ ~ run_joins_cleanly Batched.read_any df0 (processing_order files))
  /\ fst ended = Normal tt
  /\ (exists cs, fs (snd ended) !! "out.parquet" = Some (ParquetFile 3 cs))
  /\ (exists cs,
        fs (snd (Files.main Example.environment Example.out_paths true files
                   Example.empty_world)) !! "out.parquet"
        = Some (ParquetFile 3 cs))
  /\ ~ rows_of_anchor Batched.main Batched.read_any
  /\ ~ rows_of_anchor Files.main loaded.
Proof.
  cbv zeta.
  split; [repeat constructor|].
  split.
  { eexists. split; [vm_compute; reflexivity|]. split; [reflexivity|].
    intros Hclean. apply Forall_cons_iff in Hclean as [_ Hclean].
    apply Forall_cons_iff in Hclean as [Hclean _].
    vm_compute in Hclean. specialize (Hclean eq_refl).
    apply NoDup_cons in Hclean as [Hin _]. apply Hin. left. }
  split; [vm_compute; reflexivity|].
  split; [eexists; vm_compute; reflexivity|].
  split; [eexists; vm_compute; reflexivity|].
  split.
  - intros Hrows.
    set (files := [Samples.float_keys; Samples.wide_keys]).
    set (w' := snd (Batched.main Example.arguments Example.out_paths true files
                      Example.empty_world)).
    set (df0 := default (mkDataFrame [] [])
                  (anchor Batched.read_any (processing_order files))).
    set (cs := match fs w' !! "out.parquet" with
               | Some (ParquetFile _ cs) => cs
               | _ => []
               end).
    assert (Hmain : Batched.main Example.arguments Example.out_paths true files
                      Example.empty_world = (Normal tt, w'))
      by (vm_compute; reflexivity).
    assert (Hanchor : anchor Batched.read_any (processing_order files) = Some df0)
      by (vm_compute; reflexivity).
    assert (Hfs : fs w' !! out_parquet Example.out_paths = Some (ParquetFile 3 cs))
      by (vm_compute; reflexivity).
    pose proof (Hrows _ _ _ _ _ _ _ _ _ Hmain Hanchor Hfs) as Hthree.
    vm_compute in Hthree. discriminate Hthree.
  - intros Hrows.
    set (files := [Samples.float_keys; Samples.wide_keys]).
    set (w' := snd (Files.main Example.environment Example.out_paths true files
                      Example.empty_world)).
    set (df0 := default (mkDataFrame [] []) (anchor loaded (processing_order files))).
    set (cs := match fs w' !! "out.parquet" with
               | Some (ParquetFile _ cs) => cs
               | _ => []
               end).
    assert (Hmain : Files.main Example.environment Example.out_paths true files
                      Example.empty_world = (Normal tt, w'))
      by (vm_compute; reflexivity).
    assert (Hanchor : anchor loaded (processing_order files) = Some df0)
      by (vm_compute; reflexivity).
    assert (Hfs : fs w' !! out_parquet Example.out_paths = Some (ParquetFile 3 cs))
      by (vm_compute; reflexivity).
    pose proof (Hrows _ _ _ _ _ _ _ _ _ Hmain Hanchor Hfs) as Hthree.
    vm_compute in Hthree. discriminate Hthree.
Qed.

(** ** The labels of the merged table *)

Lemma endswith_prefix s suf : Py.endswith s suf = true -> exists x, s = x +:+ suf.
Proof.
  induction s as [|c s IH]; cbn [Py.endswith].
  - destruct (String.eqb "" suf) eqn:E; [|discriminate].
    apply String.eqb_eq in E. intros _. exists "". subst suf. reflexivity.
  - destruct (String.eqb (String c s) suf) eqn:E.
    + apply String.eqb_eq in E. intros _. exists "". subst suf. reflexivity.
    + intros Hs. destruct (IH Hs) as [x ->]. exists (String c x). reflexivity.
Qed.

Lemma has_dups_NoDup (l : list string) : IO.has_dups l = false <-> NoDup l.
Proof.
  induction l as [|x l IH]; cbn [IO.has_dups].
  - split; [intros _; constructor | reflexivity].
  - rewrite NoDup_cons, <- IH, orb_false_iff. apply and_iff_compat_r.
    rewrite list_elem_of_In. split.
    + intros Hex Hin. rewrite (existsb_eqb_self x l Hin) in Hex. discriminate Hex.
    + intros Hnin. apply not_true_is_false. intros Hex.
      apply existsb_exists in Hex as (y & Hy & Heq). apply String.eqb_eq in Heq.
      subst y. exact (Hnin Hy).
Qed.

(** Two components share a namespaced label exactly when one of the two
    suffixes that the namespacer appends ends the other. *)
Lemma namespaces_disjoint_iff component1 component2 :
  namespaces_disjoint component1 component2
  <-> Py.endswith ("__" +:+ component1) ("__" +:+ component2) = false
      /\ Py.endswith ("__" +:+ component2) ("__" +:+ component1) = false.
Proof.
  assert (Hcollide : forall c1 c2 x,
             "__" +:+ c1 = x +:+ ("__" +:+ c2) -> ~ namespaces_disjoint c1 c2).
  { intros c1 c2 x Hx Hdis.
    assert (Habs : "A" +:+ "__" +:+ c1 = "SEQN"); [|discriminate Habs].
    apply (Hdis (mkDataFrame [] [("A", mkSeries Int64 [])])
                (mkDataFrame [] [("A" +:+ x, mkSeries Int64 [])]));
      rewrite columns_suffix_non_key; cbn [Pd.columns cols map fst]; left.
    - reflexivity.
    - unfold namespaced. change (String.eqb ("A" +:+ x) "SEQN") with false. cbv iota.
      change ("A" +:+ "__" +:+ c1) with (String "A" ("__" +:+ c1)). rewrite Hx.
      rewrite <- !append_assoc. reflexivity. }
  split.
  - intros Hdis. split; apply not_true_is_false; intros Hend;
      apply endswith_prefix in Hend as [x Hx].
    + exact (Hcollide _ _ x Hx Hdis).
    + apply (Hcollide _ _ x Hx). intros df1 df2 c H1 H2. exact (Hdis df2 df1 c H2 H1).
  - intros [H12 H21] df1 df2 c H1 H2.
    rewrite columns_suffix_non_key in H1, H2.
    apply in_map_iff in H1 as (a & Ha & _), H2 as (b & Hb & _).
    unfold namespaced in Ha, Hb.
    destruct (String.eqb a "SEQN") eqn:Ea;
      [apply String.eqb_eq in Ea; congruence|].
    destruct (String.eqb b "SEQN") eqn:Eb;
      [apply String.eqb_eq in Eb; congruence|].
    exfalso. rewrite <- Hb in Ha.
    destruct (append_eq_endswith _ _ _ _ Ha); congruence.
Qed.

Section labels.
Context `{Sorter}.
Variables (read : file -> M DataFrame) (load : file -> result DataFrame).
Hypothesis Hreads : reads read load.

(** Every table the loop holds went through the checkpoint, which refuses
    repeated labels. *)
Lemma loop_with_labels p total files :
  forall i l w l' w',
    loop_with read p total i files l w = (Normal l', w') ->
    (forall a, accumulator l = Some a -> NoDup (Pd.columns a)) ->
    forall acc, accumulator l' = Some acc -> NoDup (Pd.columns acc).
Proof.
  induction files as [|f files IH]; intros i l w l' w' Hloop Hl acc Hacc.
  - cbn in Hloop. injection Hloop as <- _. exact (Hl acc Hacc).
  - cbn [loop_with] in Hloop. unfold bind at 1 in Hloop.
    destruct (body_with read p total i f l w) as [[l1|e|x] w1] eqn:Hbody;
      try discriminate Hloop.
    apply (IH _ _ _ _ _ Hloop); [|exact Hacc].
    destruct (load f) as [df|e] eqn:Hload.
    + destruct (body_with_load read load Hreads p total i f l w df l1 w1 Hload Hbody)
        as (m & _ & Hnd & Hl1 & _).
      intros a Ha. rewrite Hl1 in Ha. injection Ha as <-.
      apply has_dups_NoDup. exact Hnd.
    + destruct (body_with_skip read load Hreads p total i f l w e Hload)
        as (out & Hskip).
      rewrite Hskip in Hbody. injection Hbody as <- _. exact Hl.
Qed.

End labels.

(** C7: no two columns of the merged table share a label.  The namespacer
    keeps the rows and the cells, leaves the key label and renames every
    other label [c] to [c__component]; within one component distinct labels
    stay distinct; two components share a namespaced label exactly when one
    of the suffixes [__component] ends the other, which distinct component
    names do not exclude; and in every case the labels of the table that the
    loop of either script holds, and of the table that [main] writes, are
    pairwise distinct: the join renames a label that both sides have, and
    every table goes through the checkpoint, which refuses repeated
    labels. *)
Theorem C7_merged_labels_are_distinct `{Sorter} (p : paths) (files : list file) (w : world) :
  (forall df component,
      index (suffix_non_key df component) = index df
      /\ cols (suffix_non_key df component)
         = map (fun q => (if String.eqb (fst q) "SEQN" then "SEQN"
                          else fst q +:+ "__" +:+ component, snd q)) (cols df))
  /\ (forall df component,
        NoDup (Pd.columns df) -> NoDup (Pd.columns (suffix_non_key df component)))
  /\ (forall component1 component2,
        namespaces_disjoint component1 component2
        <-> Py.endswith ("__" +:+ component1) ("__" +:+ component2) = false
            /\ Py.endswith ("__" +:+ component2) ("__" +:+ component1) = false)
  /\ (forall total i rows l w' acc,
        Batched.loop p total i files (mkLocals None rows) w = (Normal l, w') ->
        accumulator l = Some acc -> NoDup (Pd.columns acc))
  /\ (forall total i rows l w' acc,
        Files.loop p total i files (mkLocals None rows) w = (Normal l, w') ->
        accumulator l = Some acc -> NoDup (Pd.columns acc))
  /\ (forall a dir_exists w',
        out_parquet p <> out_csv p -> out_parquet p <> out_report p ->
        Batched.main a p dir_exists files w = (Normal tt, w') ->
        exists n cs, fs w' !! out_parquet p = Some (ParquetFile n cs)
                     /\ NoDup (map fst cs))
  /\ (forall e dir_exists w',
        out_parquet p <> out_csv p -> out_parquet p <> out_report p ->
        out_parquet p <> tmp_parquet p ->
        Files.main e p dir_exists files w = (Normal tt, w') ->
        exists n cs, fs w' !! out_parquet p = Some (ParquetFile n cs)
                     /\ NoDup (map fst cs)).
Proof.
  split; [|split; [|split; [|split; [|split; [|split]]]]].
  - intros df component. split; [reflexivity|].
    rewrite cols_suffix_non_key. apply map_ext. intros q. unfold namespaced.
    destruct (String.eqb (fst q) "SEQN") eqn:E; [|reflexivity].
    apply String.eqb_eq in E. rewrite E. reflexivity.
  - intros df component Hnd. rewrite columns_suffix_non_key.
    apply NoDup_ListNoDup. apply Injective_map_NoDup.
    + intros c c'. apply namespaced_inj.
    + apply NoDup_ListNoDup. exact Hnd.
  - apply namespaces_disjoint_iff.
  - intros total i rows l w' acc Hrun Hacc. rewrite Batched_loop_eq in Hrun.
    apply (loop_with_labels _ _ Batched_reads p total files _ _ _ _ _ Hrun);
      [discriminate | exact Hacc].
  - intros total i rows l w' acc Hrun Hacc. rewrite Files_loop_eq in Hrun.
    apply (loop_with_labels _ _ Files_reads p total files _ _ _ _ _ Hrun);
      [discriminate | exact Hacc].
  - intros a dir_exists w' Hcsv Hrep Hmain.
    apply Batched_main_Normal in Hmain as (l & w1 & acc & Hrun & Hacc & Hfs).
    exists (Pd.len acc), (cols acc). split.
    + rewrite Hfs by congruence. apply lookup_insert_eq.
    + rewrite Batched_loop_eq in Hrun.
      apply (loop_with_labels _ _ Batched_reads p _ _ _ _ _ _ _ Hrun);
        [discriminate | exact Hacc].
  - intros e dir_exists w' Hcsv Hrep Htmp Hmain.
    apply Files_main_Normal in Hmain as (l & w1 & acc & Hrun & Hacc & Hfs).
    exists (Pd.len acc), (cols acc). split.
    + rewrite Hfs by congruence. apply lookup_insert_eq.
    + rewrite Files_loop_eq in Hrun.
      apply (loop_with_labels _ _ Files_reads p _ _ _ _ _ _ _ Hrun);
        [discriminate | exact Hacc].
Qed.

Lemma C7_merged_labels_are_distinct_witness :
  let files := [Samples.two_three; Samples.three] in
  let ended := Batched.main Example.arguments Example.out_paths true files
                 Example.empty_world in
  fst ended = Normal tt
  /\ exists n cs,
       fs (snd ended) !! "out.parquet" = Some (ParquetFile n cs)
       /\ NoDup (map fst cs)
       /\ map fst cs = ["SEQN"; "1__2__3_x"; "1__2__3_y"].
Proof.
  cbv zeta.
  set (ended := Batched.main Example.arguments Example.out_paths true
                  [Samples.two_three; Samples.three] Example.empty_world).
  assert (Hmain : ended = (Normal tt, snd ended)) by (vm_compute; reflexivity).
  split; [rewrite Hmain; reflexivity|].
  destruct (C7_merged_labels_are_distinct Example.out_paths
              [Samples.two_three; Samples.three] Example.empty_world)
    as (_ & _ & _ & _ & _ & Hbatched & _).
  destruct (Hbatched Example.arguments true (snd ended)
              ltac:(discriminate) ltac:(discriminate) Hmain)
    as (n & cs & Hfs & Hnd).
  exists n, cs. split; [exact Hfs|]. split; [exact Hnd|].
  assert (Hcs : fs (snd ended) !! "out.parquet"
                = Some (ParquetFile 1
                          [ ("SEQN", mkSeries Int64 [VInt 1]);
                            ("1__2__3_x", mkSeries Int8 [VInt 10]);
                            ("1__2__3_y", mkSeries Int8 [VInt 20]) ]))
    by (vm_compute; reflexivity).
  change (out_parquet Example.out_paths) with "out.parquet" in Hfs.
  rewrite Hcs in Hfs. injection Hfs as <- <-. reflexivity.
Defined.

(** ** The checkpoint *)

Lemma parquet_round_trip `{Numeric} m path w w1 :
  IO.to_parquet m path w = (Normal tt, w1) ->
  fs w1 !! path = Some (ParquetFile (Pd.len m) (cols m))
  /\ IO.read_parquet path w1 = (Normal (reloaded m), w1).
Proof.
  unfold IO.to_parquet, IO.read_parquet. intros Hw.
  destruct (IO.has_dups (Pd.columns m)); [discriminate Hw|].
  destruct (parquet_ok m); cbn [negb] in Hw; [|discriminate Hw].
  injection Hw as <-. cbn [fs]. rewrite lookup_insert_eq. auto.
Qed.

(** C2: every step that merges a component spills the merged table to the
    checkpoint and continues with what it reads back.  Writing a table and
    reading the path back returns the columns of the table, labels, types
    and cells, under a fresh row index of the same length.  For a loop step
    of either script on a component that loads: if the step completes, the
    checkpoint file holds the merged table [m] (the component itself for the
    first one, the left join otherwise), the new accumulator is what
    [read_parquet] returns on the checkpoint, and it has the columns and the
    number of rows of [m]. *)
Theorem C2_checkpoint_round_trip `{Sorter}
        (p : paths) (total i : nat) (f : file) (l : locals) (w : world) :
  (forall m path w0 w1,
      IO.to_parquet m path w0 = (Normal tt, w1) ->
      exists back,
        IO.read_parquet path w1 = (Normal back, w1)
        /\ cols back = cols m /\ Pd.len back = Pd.len m
        /\ index back = Pd.range_index (Pd.len m))
  /\ (forall df l' w',
      Batched.read_any f = Ok df ->
      Batched.loop_body p total i f l w = (Normal l', w') ->
      exists m acc,
        match accumulator l with
        | None => m = ready df (component_from_filename (Py.path_stem (fname f)))
        | Some a =>
            Pd.merge "SEQN" a
              (ready df (component_from_filename (Py.path_stem (fname f)))) = Ok m
        end
        /\ fs w' !! tmp_parquet p = Some (ParquetFile (Pd.len m) (cols m))
        /\ accumulator l' = Some acc
        /\ IO.read_parquet (tmp_parquet p) w' = (Normal acc, w')
        /\ cols acc = cols m /\ Pd.len acc = Pd.len m)
  /\ (forall df l' w',
      loaded f = Ok df ->
      Files.loop_body p total i f l w = (Normal l', w') ->
      exists m acc,
        match accumulator l with
        | None => m = ready df (component_from_filename (Py.path_stem (fname f)))
        | Some a =>
            Pd.merge "SEQN" a
              (ready df (component_from_filename (Py.path_stem (fname f)))) = Ok m
        end
        /\ fs w' !! tmp_parquet p = Some (ParquetFile (Pd.len m) (cols m))
        /\ accumulator l' = Some acc
        /\ IO.read_parquet (tmp_parquet p) w' = (Normal acc, w')
        /\ cols acc = cols m /\ Pd.len acc = Pd.len m).
Proof.
  assert (Hstep : forall read load, reads read load ->
            forall df l' w',
              load f = Ok df ->
              body_with read p total i f l w = (Normal l', w') ->
              exists m acc,
                match accumulator l with
                | None => m = ready df (component_from_filename (Py.path_stem (fname f)))
                | Some a =>
                    Pd.merge "SEQN" a
                      (ready df (component_from_filename (Py.path_stem (fname f))))
                    = Ok m
                end
                /\ fs w' !! tmp_parquet p = Some (ParquetFile (Pd.len m) (cols m))
                /\ accumulator l' = Some acc
                /\ IO.read_parquet (tmp_parquet p) w' = (Normal acc, w')
                /\ cols acc = cols m /\ Pd.len acc = Pd.len m).
  { intros read load Hreads df l' w' Hload Hbody.
    destruct (body_with_load read load Hreads p total i f l w df l' w' Hload Hbody)
      as (m & Hm & _ & Hacc & _ & Hfs).
    exists m, (reloaded m). split; [exact Hm|].
    assert (Hlook : fs w' !! tmp_parquet p = Some (ParquetFile (Pd.len m) (cols m)))
      by (rewrite Hfs; apply lookup_insert_eq).
    split; [exact Hlook|]. split; [exact Hacc|].
    split; [unfold IO.read_parquet; rewrite Hlook; reflexivity|].
    split; [reflexivity | apply reloaded_len]. }
  split; [|split].
  - intros m path w0 w1 Hw. destruct (parquet_round_trip m path w0 w1 Hw) as [_ Hr].
    exists (reloaded m). split; [exact Hr|].
    split; [reflexivity|]. split; [apply reloaded_len | reflexivity].
  - intros df l' w' Hload Hbody. rewrite Batched_loop_body_eq in Hbody.
    exact (Hstep _ _ Batched_reads df l' w' Hload Hbody).
  - intros df l' w' Hload Hbody. rewrite Files_loop_body_eq in Hbody.
    exact (Hstep _ _ Files_reads df l' w' Hload Hbody).
Qed.

Lemma C2_checkpoint_round_trip_witness :
  exists df l' w' m acc,
    loaded Example.demographics = Ok df
    /\ Files.loop_body Example.out_paths 1 1 Example.demographics
         (mkLocals None []) Example.empty_world = (Normal l', w')
    /\ fs w' !! "out_tmp.parquet" = Some (ParquetFile (Pd.len m) (cols m))
    /\ accumulator l' = Some acc
    /\ cols acc = cols m /\ Pd.len acc = 3%nat.
Proof.
  destruct (loaded Example.demographics) as [df|e] eqn:Hload;
    [|vm_compute in Hload; discriminate Hload].
  destruct (Files.loop_body Example.out_paths 1 1 Example.demographics
              (mkLocals None []) Example.empty_world) as [[l'|e|x] w'] eqn:Hbody;
    try (vm_compute in Hbody; discriminate Hbody).
  destruct (C2_checkpoint_round_trip Example.out_paths 1 1 Example.demographics
              (mkLocals None []) Example.empty_world) as (_ & _ & Hfiles).
  destruct (Hfiles df l' w' Hload Hbody) as (m & acc & Hm & Hfs & Hacc & _ & Hcols & Hlen).
  exists df, l', w', m, acc. repeat split; try assumption.
  rewrite Hlen. cbn [accumulator] in Hm. subst m.
  vm_compute in Hload. injection Hload as <-. reflexivity.
Defined.

(** ** A run in which no component loads *)

Section empty_run.
Context `{Sorter}.

Lemma loop_with_all_skipped read load p total files :
  reads read load ->
  anchor load files = None ->
  forall i l w, exists out,
    loop_with read p total i files l w
    = (Normal l, mkWorld (fs w) (stdout w ++ out)).
Proof.
  intros Hreads. induction files as [|f rest IH]; intros Hnone i l w.
  - exists []. cbn. rewrite app_nil_r. destruct w; reflexivity.
  - cbn [anchor] in Hnone. destruct (load f) as [df|e] eqn:Hload; [discriminate Hnone|].
    destruct (body_with_skip read load Hreads p total i f l w e Hload) as (out & Hskip).
    cbn [loop_with]. unfold bind at 1. rewrite Hskip.
    match goal with
    | |- context [loop_with read p total (S i) rest l ?w1] =>
        destruct (IH Hnone (S i) l w1) as (out' & Hrest)
    end.
    rewrite Hrest. cbn [fs stdout].
    match goal with
    | |- context [(stdout w ++ ?o) ++ out'] => exists (o ++ out')
    end.
    rewrite <- !app_assoc. reflexivity.
Qed.

End empty_run.

(** C3: what the two scripts do when no component loads.  With a directory
    that exists and at least one matched file: [main] of
    [merge_nhanes_files.py] ends in [sys.exit("No data merged. Exiting.")],
    status 1, and has written no file; [main] of
    [merge_nhanes_any_batched.py] has no such test and ends in the
    [AttributeError] of calling [to_parquet] on [None], also with status 1
    and no file written. *)
Theorem C3_zero_components_loaded `{Sorter}
        (p : paths) (globbed : list file) (w : world) :
  processing_order globbed <> [] ->
  (anchor loaded (processing_order globbed) = None ->
   forall e,
     Files.truthy (Files.NHANES_INPUT_DIR e) = true ->
     Files.truthy (Files.NHANES_OUTPUT_DIR e) = true ->
     exists w',
       Files.main e p true globbed w
       = (SystemExit (ExitMsg "No data merged. Exiting."), w')
       /\ fs w' = fs w
       /\ exit_status (fst (Files.main e p true globbed w)) = 1%Z)
  /\ (anchor Batched.read_any (processing_order globbed) = None ->
      forall a,
      exists w',
        Batched.main a p true globbed w
        = (Exn (AttributeError "'NoneType' object has no attribute 'to_parquet'"), w')
        /\ fs w' = fs w
        /\ exit_status (fst (Batched.main a p true globbed w)) = 1%Z).
Proof.
  intros Hfiles. unfold processing_order in *.
  destruct (List.filter (fun f => negb (is_excluded (fname f))) globbed)
    as [|f0 fl] eqn:Hfilter; [contradiction Hfiles; reflexivity|].
  split.
  - intros Hnone e Hin Hout.
    destruct (loop_with_all_skipped _ _ p (length (sorted_files (f0 :: fl))) _
                Files_reads Hnone 1%nat (mkLocals None []) w) as (out & Hloop).
    rewrite <- Files_loop_eq in Hloop.
    exists (mkWorld (fs w) (stdout w ++ out)).
    assert (Hmain : Files.main e p true globbed w
                    = (SystemExit (ExitMsg "No data merged. Exiting."),
                       mkWorld (fs w) (stdout w ++ out))).
    { unfold Files.main. rewrite Hin, Hout, Hfilter. cbn [negb orb].
      unfold IO.mkdir_parent. unfold bind at 1. unfold ret at 1.
      unfold bind at 1. rewrite Hloop. reflexivity. }
    rewrite Hmain. auto.
  - intros Hnone a.
    destruct (loop_with_all_skipped _ _ p (length (sorted_files (f0 :: fl))) _
                Batched_reads Hnone 1%nat (mkLocals None []) w) as (out & Hloop).
    rewrite <- Batched_loop_eq in Hloop.
    exists (mkWorld (fs w) (stdout w ++ out)).
    assert (Hmain : Batched.main a p true globbed w
                    = (Exn (AttributeError "'NoneType' object has no attribute 'to_parquet'"),
                       mkWorld (fs w) (stdout w ++ out))).
    { unfold Batched.main. rewrite Hfilter. cbn [negb].
      unfold bind at 1. rewrite Hloop. reflexivity. }
    rewrite Hmain. auto.
Qed.

Lemma C3_zero_components_loaded_witness :
  processing_order [Example.labs] <> []
  /\ anchor Batched.read_any (processing_order [Example.labs]) = None
  /\ exists w',
      Batched.main Example.arguments Example.out_paths true [Example.labs]
        Example.empty_world
      = (Exn (AttributeError "'NoneType' object has no attribute 'to_parquet'"), w')
      /\ fs w' = ∅.
Proof.
  split; [vm_compute; discriminate|]. split; [vm_compute; reflexivity|].
  destruct (C3_zero_components_loaded Example.out_paths [Example.labs]
              Example.empty_world) as [_ Hbatched]; [vm_compute; discriminate|].
  destruct (Hbatched ltac:(vm_compute; reflexivity) Example.arguments)
    as (w' & Hrun & Hfs & _).
  exists w'. split; [exact Hrun | exact Hfs].
Defined.

(** ** A component that fails *)

(** C4, as amended: a component whose load fails is skipped.  When
    [read_any] raises on a file, the loop body of either script prints the
    warning and returns the locals it was given, accumulator and report, and
    it writes no file, so the checkpoint is as before; the loop then goes on
    with the next file. *)
Theorem C4_failed_load_is_skipped `{Sorter}
        (p : paths) (total i : nat) (f : file) (rest : list file)
        (l : locals) (w : world) :
  (forall e,
      Batched.read_any f = Raise e ->
      exists out,
        let w1 := mkWorld (fs w)
                    (stdout w ++ out
                     ++ ["[WARN] Skipping " +:+ fname f +:+ ": " +:+ str_of_exn e]) in
        Batched.loop_body p total i f l w = (Normal l, w1)
        /\ Batched.loop p total i (f :: rest) l w = Batched.loop p total (S i) rest l w1)
  /\ (forall e,
      loaded f = Raise e ->
      exists out,
        let w1 := mkWorld (fs w)
                    (stdout w ++ out
                     ++ ["[WARN] Skipping " +:+ fname f +:+ ": " +:+ str_of_exn e]) in
        Files.loop_body p total i f l w = (Normal l, w1)
        /\ Files.loop p total i (f :: rest) l w = Files.loop p total (S i) rest l w1).
Proof.
  split.
  - intros e Hload.
    destruct (body_with_skip _ _ Batched_reads p total i f l w e Hload) as (out & Hskip).
    rewrite <- Batched_loop_body_eq in Hskip.
    exists out. cbv zeta. split; [exact Hskip|].
    cbn [Batched.loop]. unfold bind at 1. rewrite Hskip. reflexivity.
  - intros e Hload.
    destruct (body_with_skip _ _ Files_reads p total i f l w e Hload) as (out & Hskip).
    rewrite <- Files_loop_body_eq in Hskip.
    exists out. cbv zeta. split; [exact Hskip|].
    cbn [Files.loop]. unfold bind at 1. rewrite Hskip. reflexivity.
Qed.

Lemma C4_failed_load_is_skipped_witness :
  Batched.read_any Example.labs
  = Raise (ValueError "labs_clean.csv: No SEQN column found.")
  /\ exists out,
      Batched.loop_body Example.out_paths 1 1 Example.labs (mkLocals None [])
        Example.empty_world
      = (Normal (mkLocals None []),
         mkWorld ∅ ([] ++ out
                    ++ ["[WARN] Skipping labs_clean.csv: labs_clean.csv: No SEQN column found."])).
Proof.
  split; [vm_compute; reflexivity|].
  destruct (C4_failed_load_is_skipped Example.out_paths 1 1 Example.labs []
              (mkLocals None []) Example.empty_world) as [Hbatched _].
  destruct (Hbatched (ValueError "labs_clean.csv: No SEQN column found.")
              ltac:(vm_compute; reflexivity)) as (out & Hskip & _).
  exists out. exact Hskip.
Defined.

(** C4, as stated, fails: a failure of the merge is not caught.  The
    demographics load and become the accumulator; the visits file loads too,
    but its keys are strings and the merge raises; the exception leaves the
    loop and [main], the weights file is never read and no output is
    written. *)
Lemma C4_failed_merge_aborts_the_run :
  let files := [Example.demographics; Example.visits; Example.weights] in
  let ended := Batched.main Example.arguments Example.out_paths true files
                 Example.empty_world in
  let error :=
    ValueError ("You are trying to merge on int64 and object columns for key 'SEQN'. "
                +:+ "If you wish to proceed you should use pd.concat") in
  (exists df, Batched.read_any Example.visits = Ok df)
  /\ fst ended = Exn error
  /\ fs (snd ended) !! "out.parquet" = None
  /\ last (stdout (snd ended))
     = Some "    Merging 'visits' into accumulator (2 cols) ..."
  /\ fst (Files.main Example.environment Example.out_paths true files
            Example.empty_world) = Exn error
  /\ ~ never_aborts Batched.loop_body
  /\ ~ never_aborts Files.loop_body.
Proof.
  cbv zeta.
  split; [eexists; vm_compute; reflexivity|].
  split; [vm_compute; reflexivity|].
  split; [vm_compute; reflexivity|].
  split; [vm_compute; reflexivity|].
  split; [vm_compute; reflexivity|].
  split.
  - intros Hnever.
    destruct (Hnever Example.out_paths 2%nat 2%nat Example.visits
                (mkLocals (Some (mkDataFrame [0; 1; 2]
                   [("SEQN", mkSeries Int64 [VInt 1; VInt 2; VInt 3])])) [])
                Example.empty_world) as (l' & w' & Hbody).
    vm_compute in Hbody. discriminate Hbody.
  - intros Hnever.
    destruct (Hnever Example.out_paths 2%nat 2%nat Example.visits
                (mkLocals (Some (mkDataFrame [0; 1; 2]
                   [("SEQN", mkSeries Int64 [VInt 1; VInt 2; VInt 3])])) [])
                Example.empty_world) as (l' & w' & Hbody).
    vm_compute in Hbody. discriminate Hbody.
Qed.

(** ** The medication component *)

Lemma filter_both {A} (P Q : A -> bool) (l : list A) :
  List.filter P (List.filter Q l) = List.filter (fun x => P x && Q x) l.
Proof.
  induction l as [|x l IH]; [reflexivity|]. cbn [List.filter].
  destruct (Q x); cbn [List.filter]; rewrite ?andb_false_r, ?andb_true_r;
    [destruct (P x)|]; rewrite IH; reflexivity.
Qed.

Section medication_component.
Context `{Sorter}.

Lemma medication_loaded path c ks :
  file_wf path = true ->
  cleaned path = Ok c ->
  takes_medication_path path c = true ->
  Pd.select "SEQN" c = [ks] ->
  exists vs,
    Pd.select "RXDDRUG" c = [vs]
    /\ length (svalues ks) = length (svalues vs)
    /\ loaded path = Ok (aggregated ks vs)
    /\ forall w, fst (Files.read_any path w) = Normal (aggregated ks vs).
Proof.
  intros Hfw Hc Hmeds Hks.
  pose proof (cleaned_wf path c Hfw Hc) as Hwf.
  pose proof Hc as Hc'.
  apply cleaned_Ok in Hc' as (raw & _ & _ & _ & _ & _ & Hsingle).
  pose proof Hmeds as Hrx. unfold takes_medication_path in Hrx.
  apply andb_prop in Hrx as [_ Hrx].
  destruct (Hsingle "RXDDRUG" ltac:(discriminate) Hrx) as (vs & Hvs).
  exists vs. split; [exact Hvs|].
  assert (Hloaded : loaded path = Ok (aggregated ks vs)).
  { unfold loaded. rewrite Hc. cbn [rbind]. rewrite Hmeds.
    apply aggregate_medications_eq; assumption. }
  split.
  - rewrite (wf_frame_select c "SEQN" ks Hwf) by (rewrite Hks; left; reflexivity).
    rewrite (wf_frame_select c "RXDDRUG" vs Hwf) by (rewrite Hvs; left; reflexivity).
    reflexivity.
  - split; [exact Hloaded|].
    intros w. rewrite Files_read_any_eq, Hloaded. reflexivity.
Qed.

End medication_component.

(** C5: a medication component is reduced to one row per subject.  When
    [read_any] of [merge_nhanes_files.py] takes the medication path on a
    cleaned frame with key column [ks], there is one drug column [vs] and the
    result has the two columns [SEQN] and [RXDDRUG] only; its keys are
    distinct and are exactly the keys of the input that are present and have
    a row with a drug name, so that there is one row for each of them; and
    on the row of each key stand the drug names of that key's rows that have
    one, converted to text, in row order, repeats kept, joined with a comma
    and a space.  The rows (1, A), (1, B), (2, C) give (1, "A, B"),
    (2, "C"). *)
Theorem C5_medications_aggregated_per_key `{Sorter}
        (path : file) (c : DataFrame) (ks : Series) (w : world) :
  file_wf path = true ->
  cleaned path = Ok c ->
  takes_medication_path path c = true ->
  Pd.select "SEQN" c = [ks] ->
  (exists vs out,
      Pd.select "RXDDRUG" c = [vs]
      /\ fst (Files.read_any path w) = Normal out
      /\ Pd.columns out = ["SEQN"; "RXDDRUG"]
      /\ NoDup (keys out)
      /\ (forall k,
            In k (keys out)
            <-> k <> NA
                /\ exists v, In (k, v) (combine (svalues ks) (svalues vs)) /\ v <> NA)
      /\ Pd.len out = length (keys out)
      /\ forall i, (i < Pd.len out)%nat ->
           Pd.key_at (Pd.select "RXDDRUG" out) i
           = [VStr (Pd.join ", "
                      (map (fun kv => Pd.str_of_value (snd kv))
                           (List.filter
                              (fun kv => value_eqb (fst kv) (nth i (keys out) NA)
                                         && notna (snd kv))
                              (combine (svalues ks) (svalues vs)))))])
  /\ fst (Files.read_any
            (mkFile "rxq_rx_clean.csv"
               (Ok (mkDataFrame [0; 1; 2]
                      [ ("SEQN", mkSeries Int64 [VInt 1; VInt 1; VInt 2]);
                        ("RXDDRUG", mkSeries Object [VStr "A"; VStr "B"; VStr "C"]) ])))
            w)
     = Normal (mkDataFrame [0; 1]
                 [ ("SEQN", mkSeries Int64 [VInt 1; VInt 2]);
                   ("RXDDRUG", mkSeries Object [VStr "A, B"; VStr "C"]) ]).
Proof.
  intros Hfw Hc Hmeds Hks. split.
  - destruct (medication_loaded path c ks Hfw Hc Hmeds Hks)
      as (vs & Hvs & _ & _ & Hread).
    exists vs, (aggregated ks vs). split; [exact Hvs|]. split; [apply Hread|].
    split; [reflexivity|].
    change (keys (aggregated ks vs)) with (medication_keys (svalues ks) (svalues vs)).
    split; [apply medication_keys_NoDup|].
    split; [intros k; apply medication_keys_In|].
    split; [unfold aggregated, Pd.len; cbn [index]; apply length_range_index|].
    intros i Hi.
    unfold aggregated, Pd.len in Hi. cbn [index] in Hi. rewrite length_range_index in Hi.
    change (Pd.select "RXDDRUG" (aggregated ks vs))
      with [mkSeries Object
              (map (fun k => VStr (Pd.join ", " (drug_names k (svalues ks) (svalues vs))))
                   (medication_keys (svalues ks) (svalues vs)))].
    unfold Pd.key_at. cbn [map svalues]. f_equal.
    set (F := fun k => VStr (Pd.join ", " (drug_names k (svalues ks) (svalues vs)))).
    rewrite (nth_indep _ NA (F NA)) by (rewrite length_map; exact Hi).
    rewrite (map_nth F). unfold F, drug_names, medication_rows.
    do 3 f_equal. apply filter_both.
  - rewrite Files_read_any_eq. vm_compute. reflexivity.
Qed.

Lemma C5_medications_aggregated_per_key_witness :
  exists vs out,
    Pd.select "RXDDRUG"
      (mkDataFrame [0; 1; 2; 3]
         [ ("SEQN", mkSeries Int64 [VInt 1; VInt 1; VInt 2; VInt 5]);
           ("RXDDRUG", mkSeries Object [VStr "A"; VStr "B"; NA; VStr "C"]);
           ("DOSE", mkSeries Int64 [VInt 1; VInt 2; VInt 3; VInt 4]) ]) = [vs]
    /\ fst (Files.read_any Example.medications Example.empty_world) = Normal out
    /\ Pd.columns out = ["SEQN"; "RXDDRUG"]
    /\ NoDup (keys out).
Proof.
  destruct (C5_medications_aggregated_per_key Example.medications
              (mkDataFrame [0; 1; 2; 3]
                 [ ("SEQN", mkSeries Int64 [VInt 1; VInt 1; VInt 2; VInt 5]);
                   ("RXDDRUG", mkSeries Object [VStr "A"; VStr "B"; NA; VStr "C"]);
                   ("DOSE", mkSeries Int64 [VInt 1; VInt 2; VInt 3; VInt 4]) ])
              (mkSeries Int64 [VInt 1; VInt 1; VInt 2; VInt 5])
              Example.empty_world)
    as [(vs & out & Hvs & Hread & Hcols & Hnd & _) _];
    [vm_compute; reflexivity | vm_compute; reflexivity
     | vm_compute; reflexivity | vm_compute; reflexivity |].
  exists vs, out. auto.
Defined.



(** ** Duplicate keys in a component *)

Lemma where_true_S from mask :
  Pd.where_true (S from) mask = map S (Pd.where_true from mask).
Proof.
  revert from. induction mask as [|b mask IH]; intros from; [reflexivity|].
  cbn [Pd.where_true]. destruct b; cbn [map]; rewrite IH; reflexivity.
Qed.

Lemma where_true_increasing from mask : StronglySorted lt (Pd.where_true from mask).
Proof.
  revert from. induction mask as [|b mask IH]; intros from; [constructor|].
  cbn [Pd.where_true]. destruct b; [|apply IH].
  constructor; [apply IH|]. apply List.Forall_forall. intros i Hi.
  apply where_true_bounds in Hi. lia.
Qed.

Section first_positions.
Context {A : Type} `{EqDecision A} (d : A).

Lemma where_true_first_positions (seen l : list A) p :
  In p (Pd.where_true 0 (map negb (Pd.duplicated_mask seen l)))
  <-> (p < length l)%nat /\ (nth p l d ∉ seen)
      /\ forall j, (j < p)%nat -> nth j l d <> nth p l d.
Proof.
  revert seen p. induction l as [|k rest IH]; intros seen p.
  - cbn. split; [intros [] | intros [Hp _]; lia].
  - cbn [Pd.duplicated_mask map Pd.where_true length].
    rewrite where_true_S.
    assert (Htail : In p (map S (Pd.where_true 0
                                   (map negb (Pd.duplicated_mask (k :: seen) rest))))
                    <-> exists q, p = S q /\ (q < length rest)%nat
                                  /\ (nth q rest d ∉ k :: seen)
                                  /\ forall j, (j < q)%nat -> nth j rest d <> nth q rest d).
    { rewrite in_map_iff. split.
      - intros (q & <- & Hq). exists q. split; [reflexivity|]. apply IH. exact Hq.
      - intros (q & -> & Hq). exists q. split; [reflexivity|]. apply IH. exact Hq. }
    assert (Hsucc : forall q,
               ((q < length rest)%nat /\ (nth q rest d ∉ k :: seen)
                /\ forall j, (j < q)%nat -> nth j rest d <> nth q rest d)
               <-> ((S q < S (length rest))%nat /\ (nth (S q) (k :: rest) d ∉ seen)
                    /\ forall j, (j < S q)%nat ->
                                 nth j (k :: rest) d <> nth (S q) (k :: rest) d)).
    { intros q. cbn [nth]. rewrite not_elem_of_cons. split.
      - intros (Hq & [Hne Hns] & Hfirst). split; [lia|]. split; [exact Hns|].
        intros [|j] Hj; cbn [nth]; [congruence | apply Hfirst; lia].
      - intros (Hq & Hns & Hfirst). split; [lia|]. split.
        + split; [|exact Hns]. intros Heq. apply (Hfirst O); [lia|].
          cbn [nth]. congruence.
        + intros j Hj. apply (Hfirst (S j)). lia. }
    destruct (bool_decide (k ∈ seen)) eqn:E; cbn [negb].
    + apply bool_decide_eq_true in E. rewrite Htail. split.
      * intros (q & -> & Hq). apply Hsucc. exact Hq.
      * intros (Hp & Hns & Hfirst). destruct p as [|q]; [cbn in Hns; contradiction|].
        exists q. split; [reflexivity|]. apply Hsucc. auto.
    + apply bool_decide_eq_false in E. cbn [In]. rewrite Htail. split.
      * intros [<-|(q & -> & Hq)]; [|apply Hsucc; exact Hq].
        cbn [nth]. split; [lia|]. split; [exact E|]. intros j Hj. lia.
      * intros (Hp & Hns & Hfirst). destruct p as [|q]; [left; reflexivity|].
        right. exists q. split; [reflexivity|]. apply Hsucc. auto.
Qed.

End first_positions.

Lemma Sorted_map_nth (R : value -> value -> Prop) (l : list value) (ps : list nat) :
  Sorted (fun i j => R (nth i l NA) (nth j l NA)) ps ->
  Sorted R (map (fun i => nth i l NA) ps).
Proof.
  induction 1 as [|i ps Hs IH Hhd]; [constructor|].
  cbn [map]. constructor; [exact IH|].
  destruct Hhd; cbn [map]; constructor. assumption.
Qed.

Section dedup_rows.
Context `{Sorter}.

Lemma keys_take ps df s :
  Pd.select "SEQN" df = [s] -> keys (Pd.take ps df) = Pd.take_values ps (svalues s).
Proof.
  intros Hs. unfold keys. rewrite select_take, Hs. reflexivity.
Qed.

Lemma key_rows_keys df s :
  wf_frame df = true -> Pd.select "SEQN" df = [s] ->
  Pd.key_rows "SEQN" df = map (fun v => [v]) (keys df).
Proof.
  intros Hwf Hs. rewrite (keys_single df s Hs). apply key_rows_single; assumption.
Qed.

Lemma singleton_inj (x y : value) : [x] = [y] -> x = y.
Proof. intros Heq. injection Heq. auto. Qed.

(** Sorting by key and dropping the later duplicates, row by row. *)
Lemma drop_duplicates_sorted c ks :
  Pd.select "SEQN" c = [ks] ->
  let sorted := Pd.take (argsort (svalues ks)) c in
  let ps := Pd.where_true 0 (map negb (Pd.duplicated "SEQN" sorted)) in
  Pd.drop_duplicates "SEQN" sorted = Pd.take ps sorted
  /\ StronglySorted lt ps
  /\ (forall p, In p ps <-> is_first_occurrence (keys sorted) p)
  /\ NoDup (keys (Pd.take ps sorted))
  /\ (forall k, In k (keys (Pd.take ps sorted)) <-> In k (keys sorted)).
Proof.
  intros Hks sorted ps.
  assert (Hwf : wf_frame sorted = true) by apply wf_take.
  assert (Hsel : Pd.select "SEQN" sorted = [Pd.take_series (argsort (svalues ks)) ks])
    by (unfold sorted; rewrite select_take, Hks; reflexivity).
  pose proof (key_rows_keys sorted _ Hwf Hsel) as Hrows.
  split; [reflexivity|]. split; [apply where_true_increasing|].
  assert (Hsel' : Pd.select "SEQN" (Pd.take ps sorted)
                  = [Pd.take_series ps (Pd.take_series (argsort (svalues ks)) ks)])
    by (rewrite select_take, Hsel; reflexivity).
  pose proof (key_rows_keys (Pd.take ps sorted) _ (wf_take _ _) Hsel') as Hrows'.
  pose proof (key_rows_drop_duplicates "SEQN" sorted) as Hfirst.
  change (Pd.drop_duplicates "SEQN" sorted) with (Pd.take ps sorted) in Hfirst.
  rewrite Hrows', Hrows in Hfirst.
  split; [|split].
  - intros p. unfold ps, Pd.duplicated. rewrite Hrows.
    rewrite (where_true_first_positions [NA]). unfold is_first_occurrence.
    rewrite length_map.
    change [NA] with ((fun v : value => [v]) NA).
    split.
    + intros (Hp & _ & Hf). split; [exact Hp|]. intros j Hj Heq.
      apply (Hf j Hj). rewrite !(map_nth (fun v : value => [v])). congruence.
    + intros (Hp & Hf). split; [exact Hp|]. split; [apply not_elem_of_nil|].
      intros j Hj Heq. apply (Hf j Hj).
      rewrite !(map_nth (fun v : value => [v])) in Heq. exact (singleton_inj _ _ Heq).
  - apply NoDup_ListNoDup. apply (NoDup_map_inv (fun v : value => [v])).
    rewrite Hfirst. apply NoDup_ListNoDup. apply NoDup_first_occurrences.
  - intros k. split.
    + intros Hin. apply (in_map (fun v : value => [v])) in Hin.
      rewrite Hfirst in Hin. apply list_elem_of_In in Hin.
      apply first_occurrences_spec in Hin as [Hin _].
      apply list_elem_of_In in Hin. apply in_map_iff in Hin as (k' & Heq & Hin).
      apply singleton_inj in Heq. subst k'. exact Hin.
    + intros Hin. apply (in_map (fun v : value => [v])) in Hin.
      apply list_elem_of_In in Hin.
      assert (Hin' : [k] ∈ first_occurrences [] (map (fun v : value => [v]) (keys sorted)))
        by (apply first_occurrences_spec; split; [exact Hin | apply not_elem_of_nil]).
      rewrite <- Hfirst in Hin'. apply list_elem_of_In in Hin'.
      apply in_map_iff in Hin' as (k' & Heq & Hin').
      apply singleton_inj in Heq. subst k'. exact Hin'.
Qed.

Lemma keys_sorted c ks :
  Pd.select "SEQN" c = [ks] ->
  let sorted := Pd.take (argsort (svalues ks)) c in
  Sorted (fun a b => value_le a b = true) (keys sorted)
  /\ keys sorted ≡ₚ svalues ks.
Proof.
  intros Hks sorted. unfold sorted. rewrite (keys_take _ c ks Hks).
  unfold Pd.take_values. split.
  - apply (Sorted_map_nth (fun a b => value_le a b = true)). apply argsort_sorted.
  - rewrite (argsort_perm (svalues ks)).
    rewrite (map_nth_seq (fun v => v) (svalues ks) NA). rewrite map_id. reflexivity.
Qed.

End dedup_rows.

(** C6: duplicate keys are resolved by sorting and keeping first rows.  For
    a file that is not aggregated and whose cleaned frame has duplicate
    keys, [read_any] of both scripts returns the rows of the frame sorted by
    key that hold the first occurrence of their key there, in that order:
    the sorted frame is a rearrangement of the rows, ascending in the key;
    the rows kept are exactly the first occurrences; the keys of the result
    are distinct and are the keys of the input.  The result is a function of
    the file and of the sort, so a rerun returns the same rows. *)
Theorem C6_duplicate_keys_resolved `{Sorter}
        (path : file) (c : DataFrame) (ks : Series) (w : world) :
  cleaned path = Ok c ->
  Pd.select "SEQN" c = [ks] ->
  Pd.unorderable (svalues ks) = false ->
  existsb id (Pd.duplicated "SEQN" c) = true ->
  let sorted := Pd.take (argsort (svalues ks)) c in
  let ps := Pd.where_true 0 (map negb (Pd.duplicated "SEQN" sorted)) in
  Batched.read_any path = Ok (Pd.take ps sorted)
  /\ (takes_medication_path path c = false ->
      fst (Files.read_any path w) = Normal (Pd.take ps sorted))
  /\ Sorted (fun a b => value_le a b = true) (keys sorted)
  /\ keys sorted ≡ₚ svalues ks
  /\ StronglySorted lt ps
  /\ (forall p, In p ps <-> is_first_occurrence (keys sorted) p)
  /\ NoDup (keys (Pd.take ps sorted))
  /\ (forall k, In k (keys (Pd.take ps sorted)) <-> In k (svalues ks)).
Proof.
  intros Hc Hks Hord Hdup sorted ps.
  assert (Hres : resolve_duplicates c = Ok (Pd.take ps sorted)).
  { unfold resolve_duplicates. rewrite Hdup. unfold Pd.sort_values.
    rewrite Hks, Hord. reflexivity. }
  destruct (drop_duplicates_sorted c ks Hks) as (_ & Hinc & Hfirst & Hnd & Hin).
  destruct (keys_sorted c ks Hks) as (Hsorted & Hperm).
  split; [rewrite Batched_read_any_eq, Hc; exact Hres|].
  split.
  { intros Hmeds. rewrite Files_read_any_eq. unfold loaded.
    rewrite Hc. cbn [rbind]. rewrite Hmeds, Hres. reflexivity. }
  split; [exact Hsorted|]. split; [exact Hperm|]. split; [exact Hinc|].
  split; [exact Hfirst|]. split; [exact Hnd|].
  intros k. etransitivity; [exact (Hin k)|].
  rewrite <- !list_elem_of_In. rewrite Hperm. reflexivity.
Qed.

Lemma C6_duplicate_keys_resolved_witness :
  exists df,
    Batched.read_any Example.demographics = Ok df
    /\ keys df = [VInt 1; VInt 2; VInt 3]
    /\ NoDup (keys df).
Proof.
  destruct (C6_duplicate_keys_resolved Example.demographics
              (mkDataFrame [0; 1; 2; 3]
                 [ ("SEQN", mkSeries Int64 [VInt 3; VInt 1; VInt 2; VInt 1]);
                   ("AGE", mkSeries Int64 [VInt 30; VInt 10; VInt 20; VInt 11]) ])
              (mkSeries Int64 [VInt 3; VInt 1; VInt 2; VInt 1])
              Example.empty_world)
    as (Hread & _ & _ & _ & _ & _ & Hnd & _);
    [vm_compute; reflexivity | vm_compute; reflexivity | vm_compute; reflexivity
     | vm_compute; reflexivity |].
  eexists. split; [exact Hread|]. split; [vm_compute; reflexivity | exact Hnd].
Defined.

(** * Further properties

    What the scripts do beyond the statements above: the order and the
    choice of the files, the names of the components, the loop and the two
    ends of [main] as a whole, the optimizer against its input, a merge
    step column by column, the edge cases of the loader, the conversion
    script, and what a run does not depend on. *)

(** ** The order of the files *)

Lemma string_compare_refl s : String.compare s s = Eq.
Proof.
  induction s as [|c s IH]; [reflexivity|]. cbn [String.compare].
  unfold Ascii.compare. rewrite N.compare_refl. exact IH.
Qed.

Lemma string_leb_refl s : String.leb s s = true.
Proof. unfold String.leb. rewrite string_compare_refl. reflexivity. Qed.

Lemma string_leb_trans a b c :
  String.leb a b = true -> String.leb b c = true -> String.leb a c = true.
Proof.
  unfold String.leb. revert b c.
  induction a as [|x a IH]; intros [|y b] [|z c]; cbn [String.compare];
    try reflexivity; try discriminate.
  unfold Ascii.compare.
  destruct (N.compare_spec (N_of_ascii x) (N_of_ascii y)) as [Exy|Lxy|Gxy];
    destruct (N.compare_spec (N_of_ascii y) (N_of_ascii z)) as [Eyz|Lyz|Gyz];
    try discriminate; intros Hab Hbc;
    destruct (N.compare_spec (N_of_ascii x) (N_of_ascii z)) as [Exz|Lxz|Gxz];
    try reflexivity; try lia.
  exact (IH b c Hab Hbc).
Qed.

Lemma sort_key_le_refl k : sort_key_le k k = true.
Proof.
  unfold sort_key_le. rewrite Z.eqb_refl, string_leb_refl. apply orb_true_r.
Qed.

Lemma sort_key_le_total k1 k2 :
  sort_key_le k1 k2 = true \/ sort_key_le k2 k1 = true.
Proof.
  unfold sort_key_le. destruct k1 as [r1 n1], k2 as [r2 n2]. cbn [fst snd].
  destruct (Z.ltb_spec r1 r2); [left; reflexivity|].
  destruct (Z.ltb_spec r2 r1); [right; reflexivity|].
  assert (r1 = r2) as -> by lia. rewrite Z.eqb_refl. cbn [orb andb].
  apply String.leb_total.
Qed.

Lemma sort_key_le_trans k1 k2 k3 :
  sort_key_le k1 k2 = true -> sort_key_le k2 k3 = true -> sort_key_le k1 k3 = true.
Proof.
  unfold sort_key_le. destruct k1 as [r1 n1], k2 as [r2 n2], k3 as [r3 n3].
  cbn [fst snd]. intros H12 H23.
  apply orb_true_iff in H12 as [H12|H12], H23 as [H23|H23];
    rewrite ?andb_true_iff, ?Z.ltb_lt, ?Z.eqb_eq in *; apply orb_true_iff;
    rewrite ?andb_true_iff, ?Z.ltb_lt, ?Z.eqb_eq.
  - left. lia.
  - left. lia.
  - left. lia.
  - right. split; [lia|]. destruct H12 as [_ H12], H23 as [_ H23].
    exact (string_leb_trans _ _ _ H12 H23).
Qed.

Lemma insert_file_perm f l : insert_file f l ≡ₚ f :: l.
Proof.
  induction l as [|g l IH]; cbn [insert_file]; [reflexivity|].
  destruct (sort_key_le (sort_key f) (sort_key g)); [reflexivity|].
  rewrite IH. apply Permutation_swap.
Qed.

Lemma sorted_files_perm l : sorted_files l ≡ₚ l.
Proof.
  unfold sorted_files. induction l as [|f l IH]; cbn [foldr]; [reflexivity|].
  rewrite insert_file_perm. constructor. exact IH.
Qed.

Lemma insert_file_sorted f l :
  StronglySorted file_le l -> StronglySorted file_le (insert_file f l).
Proof.
  induction 1 as [|g l Hl IH Hg]; cbn [insert_file].
  - repeat constructor.
  - destruct (sort_key_le (sort_key f) (sort_key g)) eqn:E.
    + constructor; [constructor; assumption|]. constructor; [exact E|].
      rewrite List.Forall_forall in Hg |- *. intros h Hh.
      exact (sort_key_le_trans _ _ _ E (Hg h Hh)).
    + constructor; [exact IH|].
      assert (Hgf : file_le g f).
      { destruct (sort_key_le_total (sort_key f) (sort_key g)) as [Hfg|Hgf];
          [congruence | exact Hgf]. }
      apply List.Forall_forall. intros h Hh.
      apply (Permutation_in _ (insert_file_perm f l)) in Hh as [<-|Hh]; [exact Hgf|].
      rewrite List.Forall_forall in Hg. exact (Hg h Hh).
Qed.

Lemma sorted_files_sorted l : StronglySorted file_le (sorted_files l).
Proof.
  unfold sorted_files. induction l as [|f l IH]; cbn [foldr]; [constructor|].
  apply insert_file_sorted. exact IH.
Qed.

(** [sorted] is stable: the files of one key stay in the order they had. *)
Lemma insert_file_stable k f l :
  List.filter (fun g => bool_decide (sort_key g = k)) (insert_file f l)
  = List.filter (fun g => bool_decide (sort_key g = k)) (f :: l).
Proof.
  induction l as [|g l IH]; cbn [insert_file]; [reflexivity|].
  destruct (sort_key_le (sort_key f) (sort_key g)) eqn:E; [reflexivity|].
  cbn [List.filter] in IH |- *. rewrite IH.
  destruct (bool_decide (sort_key f = k)) eqn:Ef; [|reflexivity].
  destruct (bool_decide (sort_key g = k)) eqn:Eg; [|reflexivity].
  apply bool_decide_eq_true in Ef, Eg. rewrite Ef, Eg, sort_key_le_refl in E.
  discriminate E.
Qed.

Lemma sorted_files_stable k l :
  List.filter (fun g => bool_decide (sort_key g = k)) (sorted_files l)
  = List.filter (fun g => bool_decide (sort_key g = k)) l.
Proof.
  unfold sorted_files. induction l as [|f l IH]; cbn [foldr]; [reflexivity|].
  rewrite insert_file_stable. cbn [List.filter]. rewrite IH. reflexivity.
Qed.

(** X1: the order [main] processes the files in.  The processed files are
    the matched files that are not excluded, each as often as it was matched;
    they are in ascending order of the sort key, that is demographics files
    first and then by lower-cased name; files with the same key keep the
    order in which they were matched; and whatever is processed before a
    demographics file is a demographics file. *)
Theorem processing_order_sorted (globbed : list file) :
  processing_order globbed
  ≡ₚ List.filter (fun f => negb (is_excluded (fname f))) globbed
  /\ StronglySorted (fun f g => sort_key_le (sort_key f) (sort_key g) = true)
       (processing_order globbed)
  /\ (forall k,
        List.filter (fun f => bool_decide (sort_key f = k)) (processing_order globbed)
        = List.filter (fun f => bool_decide (sort_key f = k))
            (List.filter (fun f => negb (is_excluded (fname f))) globbed))
  /\ (forall pre f post,
        processing_order globbed = pre ++ f :: post ->
        Py.startswith (Py.lower (fname f)) "demographics_clean" = true ->
        Forall (fun g => Py.startswith (Py.lower (fname g)) "demographics_clean" = true)
               pre).
Proof.
  unfold processing_order. split; [apply sorted_files_perm|].
  split; [apply sorted_files_sorted|]. split; [intros k; apply sorted_files_stable|].
  intros pre f post Hsplit Hdemo.
  pose proof (sorted_files_sorted
                (List.filter (fun f => negb (is_excluded (fname f))) globbed)) as Hs.
  rewrite Hsplit in Hs. clear Hsplit.
  induction pre as [|g pre IH]; [constructor|].
  cbn [app] in Hs. apply StronglySorted_inv in Hs as [Hs Hg].
  constructor; [|exact (IH Hs)].
  rewrite List.Forall_forall in Hg. specialize (Hg f ltac:(apply in_elt)).
  unfold file_le, sort_key_le, sort_key in Hg. cbn [fst snd] in Hg.
  rewrite Hdemo in Hg.
  destruct (Py.startswith (Py.lower (fname g)) "demographics_clean"); [reflexivity|].
  cbn in Hg. discriminate Hg.
Qed.

(** ** Excluded files *)

Lemma lower_char_upper_char c : Py.lower_char (Py.upper_char c) = Py.lower_char c.
Proof. destruct c as [[] [] [] [] [] [] [] []]; reflexivity. Qed.

Lemma lower_char_idem c : Py.lower_char (Py.lower_char c) = Py.lower_char c.
Proof. destruct c as [[] [] [] [] [] [] [] []]; reflexivity. Qed.

Lemma lower_upper s : Py.lower (Py.upper s) = Py.lower s.
Proof.
  unfold Py.lower, Py.upper. induction s as [|c s IH]; [reflexivity|].
  cbn [Py.map_chars]. rewrite lower_char_upper_char, IH. reflexivity.
Qed.

Lemma lower_idem s : Py.lower (Py.lower s) = Py.lower s.
Proof.
  unfold Py.lower. induction s as [|c s IH]; [reflexivity|].
  cbn [Py.map_chars]. rewrite lower_char_idem, IH. reflexivity.
Qed.

Lemma map_chars_append f a b :
  Py.map_chars f (a +:+ b) = Py.map_chars f a +:+ Py.map_chars f b.
Proof.
  induction a as [|c a IH]; [reflexivity|].
  change (String (f c) (Py.map_chars f (a +:+ b))
          = String (f c) (Py.map_chars f a +:+ Py.map_chars f b)).
  rewrite IH. reflexivity.
Qed.

Lemma prefix_append p s : String.prefix p s = true <-> exists rest, s = p +:+ rest.
Proof.
  revert s. induction p as [|a p IH]; intros s.
  - split; [intros _; exists s; reflexivity|]. intros _. destruct s; reflexivity.
  - destruct s as [|b s]; cbn [String.prefix].
    + split; [discriminate|]. intros [rest Hrest]. discriminate Hrest.
    + destruct (ascii_dec a b) as [->|Hne].
      * rewrite IH. split; intros [rest Hrest]; exists rest.
        -- rewrite Hrest. reflexivity.
        -- change (String b s = String b (p +:+ rest)) in Hrest. congruence.
      * split; [discriminate|]. intros [rest Hrest].
        change (String b s = String a (p +:+ rest)) in Hrest. congruence.
Qed.

Lemma is_excluded_iff name :
  is_excluded name = true
  <-> exists p rest, In p EXCLUDE_PREFIXES /\ Py.lower name = p +:+ rest.
Proof.
  unfold is_excluded, Py.startswith. rewrite existsb_exists. split.
  - intros (p & Hp & Hpre). apply prefix_append in Hpre as [rest Hrest]. eauto.
  - intros (p & rest & Hp & Hrest). exists p. split; [exact Hp|].
    apply prefix_append. eauto.
Qed.

(** X2: an ASCII name is excluded when, lower-cased, it starts with one of
    the excluded prefixes.  For such names the test does not depend on the
    case of the name nor on the ASCII text that follows the prefix, and no
    demographics file is excluded. *)
Theorem is_excluded_by_prefix (name : string) :
  Py.isascii name = true ->
  (is_excluded name = true
   <-> exists p rest, In p EXCLUDE_PREFIXES /\ Py.lower name = p +:+ rest)
  /\ is_excluded (Py.upper name) = is_excluded name
  /\ is_excluded (Py.lower name) = is_excluded name
  /\ (forall rest, Py.isascii rest = true ->
                   is_excluded name = true -> is_excluded (name +:+ rest) = true)
  /\ (Py.startswith (Py.lower name) "demographics_clean" = true ->
      is_excluded name = false).
Proof.
  intros _. split; [apply is_excluded_iff|].
  split; [unfold is_excluded; rewrite lower_upper; reflexivity|].
  split; [unfold is_excluded; rewrite lower_idem; reflexivity|].
  split.
  - intros rest _ Hex. apply is_excluded_iff in Hex as (p & r & Hp & Hr).
    apply is_excluded_iff. exists p, (r +:+ Py.lower rest). split; [exact Hp|].
    unfold Py.lower in *. rewrite map_chars_append, Hr.
    clear. induction p as [|c p IH]; [reflexivity|].
    change (String c ((p +:+ r) +:+ Py.map_chars Py.lower_char rest)
            = String c (p +:+ (r +:+ Py.map_chars Py.lower_char rest))).
    rewrite IH. reflexivity.
  - unfold Py.startswith. intros Hdemo. apply prefix_append in Hdemo as [rest Hrest].
    unfold is_excluded. rewrite Hrest. reflexivity.
Qed.

Lemma is_excluded_by_prefix_witness :
  Py.isascii "Dictionary_2017.xlsx" = true
  /\ is_excluded "Dictionary_2017.xlsx" = true
  /\ is_excluded (Py.upper "Dictionary_2017.xlsx") = true
  /\ is_excluded ("Dictionary_2017.xlsx" +:+ ".bak") = true.
Proof.
  destruct (is_excluded_by_prefix "Dictionary_2017.xlsx" eq_refl)
    as (Hiff & Hupper & _ & Hrest & _).
  assert (Hex : is_excluded "Dictionary_2017.xlsx" = true).
  { apply Hiff. exists "dictionary_", "2017.xlsx". split; [left; reflexivity|].
    reflexivity. }
  split; [reflexivity|]. split; [exact Hex|].
  split; [rewrite Hupper; exact Hex | exact (Hrest ".bak" eq_refl Hex)].
Defined.

Lemma filter_idem {A} (P : A -> bool) (l : list A) :
  List.filter P (List.filter P l) = List.filter P l.
Proof.
  induction l as [|x l IH]; [reflexivity|]. cbn [List.filter].
  destruct (P x) eqn:E; [|exact IH]. cbn [List.filter]. rewrite E, IH. reflexivity.
Qed.

(** X3: excluded files take no part in a run.  No file that is processed
    is excluded, and [main] of either script does on the matched files what
    it does on those of them that are not excluded. *)
Theorem excluded_files_are_ignored `{Sorter}
        (a : Batched.args) (e : Files.env) (p : paths) (dir_exists : bool)
        (globbed : list file) :
  Forall (fun f => is_excluded (fname f) = false) (processing_order globbed)
  /\ processing_order (List.filter (fun f => negb (is_excluded (fname f))) globbed)
     = processing_order globbed
  /\ Batched.main a p dir_exists
       (List.filter (fun f => negb (is_excluded (fname f))) globbed)
     = Batched.main a p dir_exists globbed
  /\ Files.main e p dir_exists
       (List.filter (fun f => negb (is_excluded (fname f))) globbed)
     = Files.main e p dir_exists globbed.
Proof.
  split.
  - apply List.Forall_forall. intros f Hf. unfold processing_order in Hf.
    apply (Permutation_in _ (sorted_files_perm _)) in Hf.
    apply filter_In in Hf as [_ Hne].
    destruct (is_excluded (fname f)); [discriminate | reflexivity].
  - split; [unfold processing_order; rewrite filter_idem; reflexivity|].
    split.
    + unfold Batched.main. rewrite filter_idem. reflexivity.
    + unfold Files.main. rewrite filter_idem. reflexivity.
Qed.

(** ** Component names *)

Lemma chars_append a b :
  list_ascii_of_string (a +:+ b) = list_ascii_of_string a ++ list_ascii_of_string b.
Proof.
  induction a as [|c a IH]; [reflexivity|].
  change (c :: list_ascii_of_string (a +:+ b)
          = c :: (list_ascii_of_string a ++ list_ascii_of_string b)).
  rewrite IH. reflexivity.
Qed.

Lemma lower_char_not_upper c : Py.is_upper (Py.lower_char c) = false.
Proof. destruct c as [[] [] [] [] [] [] [] []]; reflexivity. Qed.

Lemma lower_char_ascii c :
  Py.isascii_char c = true -> Py.isascii_char (Py.lower_char c) = true.
Proof. destruct c as [[] [] [] [] [] [] [] []]; intros Hc; try reflexivity; exact Hc. Qed.

Lemma lower_ascii_not_upper s :
  Py.isascii s = true ->
  Forall (fun c => Py.is_upper c = false /\ Py.isascii_char c = true)
         (list_ascii_of_string (Py.lower s)).
Proof.
  unfold Py.lower, Py.isascii. induction s as [|c s IH]; intros Hs; [constructor|].
  cbn [list_ascii_of_string forallb] in Hs. apply andb_prop in Hs as [Hc Hs].
  constructor; [|exact (IH Hs)].
  split; [apply lower_char_not_upper | apply lower_char_ascii; exact Hc].
Qed.

Lemma re_sub_tail_unfold tail s :
  Py.re_sub_tail tail s
  = if String.eqb s tail then EmptyString
    else if String.eqb s (tail +:+ String "010" EmptyString)
         then String "010" EmptyString
    else match s with
         | EmptyString => EmptyString
         | String c s' => String c (Py.re_sub_tail tail s')
         end.
Proof. destruct s; reflexivity. Qed.

Lemma re_sub_tail_chars (P : ascii -> Prop) tail s :
  Forall P (list_ascii_of_string s) ->
  Forall P (list_ascii_of_string (Py.re_sub_tail tail s)).
Proof.
  induction s as [|c s IH]; intros Hs; rewrite re_sub_tail_unfold.
  - destruct (String.eqb "" tail); [constructor|].
    destruct (String.eqb "" (tail +:+ String "010" EmptyString)) eqn:E; [|constructor].
    apply String.eqb_eq in E. rewrite E, chars_append in Hs.
    apply Forall_app in Hs as [_ Hs]. exact Hs.
  - destruct (String.eqb (String c s) tail); [constructor|].
    destruct (String.eqb (String c s) (tail +:+ String "010" EmptyString)) eqn:E.
    + apply String.eqb_eq in E. rewrite E, chars_append in Hs.
      apply Forall_app in Hs as [_ Hs]. exact Hs.
    + apply Forall_cons_iff in Hs as [Hc Hs]. constructor; [exact Hc | exact (IH Hs)].
Qed.

Lemma lstrip_chars (P : ascii -> Prop) s :
  Forall P (list_ascii_of_string s) ->
  Forall P (list_ascii_of_string (Py.lstrip s)).
Proof.
  induction s as [|c s IH]; intros Hs; [constructor|]. cbn [Py.lstrip].
  destruct (Py.isspace c); [|exact Hs].
  apply Forall_cons_iff in Hs as [_ Hs]. exact (IH Hs).
Qed.

Lemma rstrip_chars (P : ascii -> Prop) s :
  Forall P (list_ascii_of_string s) ->
  Forall P (list_ascii_of_string (Py.rstrip s)).
Proof.
  induction s as [|c s IH]; intros Hs; [constructor|]. cbn [Py.rstrip].
  apply Forall_cons_iff in Hs as [Hc Hs]. specialize (IH Hs).
  destruct (Py.rstrip s) as [|d r].
  - destruct (Py.isspace c); [constructor|]. constructor; [exact Hc | constructor].
  - constructor; [exact Hc | exact IH].
Qed.

Lemma strip_chars (P : ascii -> Prop) s :
  Forall P (list_ascii_of_string s) ->
  Forall P (list_ascii_of_string (Py.strip s)).
Proof. intros Hs. apply rstrip_chars, lstrip_chars, Hs. Qed.

Lemma re_sub_spaces_chars (P : ascii -> Prop) in_run s :
  P "_"%char -> Forall P (list_ascii_of_string s) ->
  Forall (fun c => Py.isspace c = false /\ P c)
         (list_ascii_of_string (Py.re_sub_spaces_aux "_" in_run s)).
Proof.
  intros Hu. revert in_run. induction s as [|c s IH]; intros in_run Hs; [constructor|].
  apply Forall_cons_iff in Hs as [Hc Hs]. cbn [Py.re_sub_spaces_aux].
  destruct (Py.isspace c) eqn:E.
  - destruct in_run; [exact (IH true Hs)|].
    change (Forall (fun c => Py.isspace c = false /\ P c)
              ("_"%char :: list_ascii_of_string (Py.re_sub_spaces_aux "_" true s))).
    constructor; [split; [reflexivity | exact Hu] | exact (IH true Hs)].
  - constructor; [split; [exact E | exact Hc] | exact (IH false Hs)].
Qed.

(** X4: the component name of an ASCII stem is ASCII text that holds no
    upper-case letter and no whitespace. *)
Theorem component_name_shape (stem : string) :
  Py.isascii stem = true ->
  Forall (fun c => Py.isspace c = false
                   /\ Py.is_upper c = false /\ Py.isascii_char c = true)
         (list_ascii_of_string (component_from_filename stem)).
Proof.
  intros Hstem. unfold component_from_filename, Py.re_sub_spaces.
  apply (re_sub_spaces_chars
           (fun c => Py.is_upper c = false /\ Py.isascii_char c = true));
    [split; reflexivity|].
  apply strip_chars, re_sub_tail_chars, re_sub_tail_chars, lower_ascii_not_upper.
  exact Hstem.
Qed.

Lemma component_name_shape_witness :
  component_from_filename "Body  Measures_CLEAN" = "body_measures"
  /\ Forall (fun c => Py.isspace c = false
                      /\ Py.is_upper c = false /\ Py.isascii_char c = true)
            (list_ascii_of_string (component_from_filename "Body  Measures_CLEAN")).
Proof.
  split; [reflexivity|]. apply (component_name_shape "Body  Measures_CLEAN").
  reflexivity.
Defined.

(** *** The component of a file named [<base>_clean.<ext>] *)

Lemma rfind_dot_append a ext :
  Py.rfind_dot ext = Some 0%nat -> Py.rfind_dot (a +:+ ext) = Some (String.length a).
Proof.
  intros Hext. induction a as [|c a IH]; [exact Hext|].
  change (Py.rfind_dot (String c (a +:+ ext)) = Some (S (String.length a))).
  cbn [Py.rfind_dot]. rewrite IH. reflexivity.
Qed.

Lemma substring_append_r a b :
  String.substring (String.length a) (String.length b) (a +:+ b) = b.
Proof.
  induction a as [|c a IH]; [|exact IH].
  change (String.substring 0 (String.length b) b = b).
  induction b as [|c b IHb]; [reflexivity|]. cbn. rewrite IHb. reflexivity.
Qed.

Lemma substring_append_l a b :
  String.substring 0 (String.length a) (a +:+ b) = a.
Proof.
  induction a as [|c a IH]; [destruct b; reflexivity|].
  change (String c (String.substring 0 (String.length a) (a +:+ b)) = String c a).
  rewrite IH. reflexivity.
Qed.

Lemma path_suffix_append a ext :
  Py.rfind_dot ext = Some 0%nat -> (0 < String.length a)%nat ->
  (1 < String.length ext)%nat ->
  Py.path_suffix (a +:+ ext) = ext /\ Py.path_stem (a +:+ ext) = a.
Proof.
  intros Hext Ha Hlen.
  assert (Hsuf : Py.path_suffix (a +:+ ext) = ext).
  { unfold Py.path_suffix. rewrite (rfind_dot_append a ext Hext), length_append.
    assert ((0 <? String.length a)%nat = true) as -> by (apply Nat.ltb_lt; lia).
    assert ((String.length a <? String.length a + String.length ext - 1)%nat = true) as ->
      by (apply Nat.ltb_lt; lia).
    cbn [andb].
    replace (String.length a + String.length ext - String.length a)%nat
      with (String.length ext) by lia.
    apply substring_append_r. }
  split; [exact Hsuf|].
  unfold Py.path_stem. rewrite Hsuf, length_append.
  replace (String.length a + String.length ext - String.length ext)%nat
    with (String.length a) by lia.
  apply substring_append_l.
Qed.

Lemma lower_fixed s :
  Forall (fun c => Py.is_upper c = false) (list_ascii_of_string s) -> Py.lower s = s.
Proof.
  unfold Py.lower. induction s as [|c s IH]; intros Hs; [reflexivity|].
  apply Forall_cons_iff in Hs as [Hc Hs]. cbn [Py.map_chars].
  rewrite (IH Hs). unfold Py.lower_char. rewrite Hc. reflexivity.
Qed.

Lemma re_sub_tail_clean b : Py.re_sub_tail "_clean" (b +:+ "_clean") = b.
Proof.
  induction b as [|c b IH]; [reflexivity|].
  change (String c b +:+ "_clean") with (String c (b +:+ "_clean")).
  rewrite re_sub_tail_unfold.
  assert (String.eqb (String c (b +:+ "_clean")) "_clean" = false) as ->.
  { apply String.eqb_neq. intros Heq. apply (f_equal String.length) in Heq.
    change (S (String.length (b +:+ "_clean")) = 6%nat) in Heq.
    rewrite length_append in Heq. change (String.length "_clean") with 6%nat in Heq. lia. }
  assert (String.eqb (String c (b +:+ "_clean")) ("_clean" +:+ String "010" EmptyString)
          = false) as ->.
  { apply String.eqb_neq. intros Heq.
    pose proof (f_equal String.length Heq) as Hlen.
    change (S (String.length (b +:+ "_clean")) = 7%nat) in Hlen.
    rewrite length_append in Hlen. change (String.length "_clean") with 6%nat in Hlen.
    destruct b as [|? ?]; [|cbn [String.length] in Hlen; lia]. discriminate Heq. }
  rewrite IH. reflexivity.
Qed.

Lemma endswith_unfold s suf :
  Py.endswith s suf
  = if String.eqb s suf then true
    else match s with
         | EmptyString => false
         | String _ s' => Py.endswith s' suf
         end.
Proof. destruct s; reflexivity. Qed.

Lemma re_sub_tail_absent tail s :
  Forall (fun c => Py.isspace c = false) (list_ascii_of_string s) ->
  Py.endswith s tail = false -> Py.re_sub_tail tail s = s.
Proof.
  induction s as [|c s IH]; intros Hs Hend; rewrite re_sub_tail_unfold;
    rewrite endswith_unfold in Hend.
  - destruct (String.eqb "" tail); [discriminate Hend|].
    destruct (String.eqb "" (tail +:+ String "010" EmptyString)) eqn:E; [|reflexivity].
    apply String.eqb_eq in E. destruct tail; discriminate E.
  - destruct (String.eqb (String c s) tail); [discriminate Hend|].
    destruct (String.eqb (String c s) (tail +:+ String "010" EmptyString)) eqn:E.
    + apply String.eqb_eq in E. rewrite E, chars_append in Hs.
      apply Forall_app in Hs as [_ Hs]. apply Forall_cons_iff in Hs as [Hs _].
      discriminate Hs.
    + apply Forall_cons_iff in Hs as [_ Hs]. rewrite (IH Hs Hend). reflexivity.
Qed.

Lemma lstrip_fixed s :
  Forall (fun c => Py.isspace c = false) (list_ascii_of_string s) -> Py.lstrip s = s.
Proof.
  destruct s as [|c s]; intros Hs; [reflexivity|].
  apply Forall_cons_iff in Hs as [Hc _]. cbn [Py.lstrip]. rewrite Hc. reflexivity.
Qed.

Lemma rstrip_fixed s :
  Forall (fun c => Py.isspace c = false) (list_ascii_of_string s) -> Py.rstrip s = s.
Proof.
  induction s as [|c s IH]; intros Hs; [reflexivity|].
  apply Forall_cons_iff in Hs as [Hc Hs]. cbn [Py.rstrip]. rewrite (IH Hs), Hc.
  destruct s; reflexivity.
Qed.

Lemma re_sub_spaces_fixed rep in_run s :
  Forall (fun c => Py.isspace c = false) (list_ascii_of_string s) ->
  Py.re_sub_spaces_aux rep in_run s = s.
Proof.
  revert in_run. induction s as [|c s IH]; intros in_run Hs; [reflexivity|].
  apply Forall_cons_iff in Hs as [Hc Hs]. cbn [Py.re_sub_spaces_aux].
  rewrite Hc, (IH false Hs). reflexivity.
Qed.

(** X5: the component of a file [<base>_clean.<ext>].  For a supported
    extension and a base name without upper-case letters and whitespace that
    does not end in [_unclean], the suffix of the file name is the
    extension, its stem is [<base>_clean] and its component is [<base>]. *)
Theorem component_of_clean_file (base ext : string) :
  In ext [".csv"; ".xlsx"; ".xls"] ->
  Forall (fun c => Py.isspace c = false /\ Py.is_upper c = false)
         (list_ascii_of_string base) ->
  Py.endswith base "_unclean" = false ->
  Py.path_suffix (base +:+ "_clean" +:+ ext) = ext
  /\ Py.path_stem (base +:+ "_clean" +:+ ext) = base +:+ "_clean"
  /\ component_from_filename (Py.path_stem (base +:+ "_clean" +:+ ext)) = base.
Proof.
  intros Hext Hbase Hend.
  assert (Hsp : Forall (fun c => Py.isspace c = false) (list_ascii_of_string base))
    by (eapply Forall_impl; [exact Hbase|]; intros c [Hc _]; exact Hc).
  assert (Hup : Forall (fun c => Py.is_upper c = false) (list_ascii_of_string base))
    by (eapply Forall_impl; [exact Hbase|]; intros c [_ Hc]; exact Hc).
  assert (Hname : base +:+ "_clean" +:+ ext = (base +:+ "_clean") +:+ ext).
  { clear. induction base as [|c b IH]; [reflexivity|].
    change (String c (b +:+ "_clean" +:+ ext) = String c ((b +:+ "_clean") +:+ ext)).
    rewrite IH. reflexivity. }
  rewrite Hname.
  destruct (path_suffix_append (base +:+ "_clean") ext) as [Hsuf Hstem].
  - destruct Hext as [<-|[<-|[<-|[]]]]; reflexivity.
  - rewrite length_append. cbn. lia.
  - destruct Hext as [<-|[<-|[<-|[]]]]; cbn; lia.
  - split; [exact Hsuf|]. split; [exact Hstem|]. rewrite Hstem.
    unfold component_from_filename, Py.lower. rewrite map_chars_append.
    fold (Py.lower base). rewrite (lower_fixed base Hup).
    change (Py.map_chars Py.lower_char "_clean") with "_clean".
    rewrite re_sub_tail_clean, (re_sub_tail_absent "_unclean" base Hsp Hend).
    unfold Py.strip. rewrite (lstrip_fixed base Hsp), (rstrip_fixed base Hsp).
    apply re_sub_spaces_fixed. exact Hsp.
Qed.

Lemma component_of_clean_file_witness :
  In ".xlsx" [".csv"; ".xlsx"; ".xls"]
  /\ Py.endswith "labs_2017" "_unclean" = false
  /\ Py.path_suffix ("labs_2017" +:+ "_clean" +:+ ".xlsx") = ".xlsx"
  /\ Py.path_stem ("labs_2017" +:+ "_clean" +:+ ".xlsx") = "labs_2017" +:+ "_clean"
  /\ component_from_filename (Py.path_stem ("labs_2017" +:+ "_clean" +:+ ".xlsx"))
     = "labs_2017".
Proof.
  split; [right; left; reflexivity|]. split; [reflexivity|].
  apply (component_of_clean_file "labs_2017" ".xlsx").
  - right. left. reflexivity.
  - repeat constructor.
  - reflexivity.
Defined.

(** ** The loop, up to what it prints *)

Section step_spec.
Context `{Sorter}.
Variables (read : file -> M DataFrame) (load : file -> result DataFrame).
Hypothesis Hreads : reads read load.

Lemma shape1_ready df component : Pd.shape1 (ready df component) = Pd.shape1 df.
Proof.
  unfold ready, suffix_non_key, rename, Pd.map_columns, optimize_dtypes, Pd.shape1.
  cbn [cols]. rewrite !length_map. reflexivity.
Qed.

Lemma body_with_spec p total i f l w :
  exists out,
    body_with read p total i f l w
    = (fst (step_of p f (load f) l (fs w)),
       mkWorld (snd (step_of p f (load f) l (fs w))) (stdout w ++ out)).
Proof.
  unfold body_with, step_of.
  set (comp := component_from_filename (Py.path_stem (fname f))).
  unfold bind at 1. unfold print at 1. cbn [fs stdout]. unfold try_except.
  match goal with |- context [read f ?w1] => destruct (Hreads f w1) as [out Hr] end.
  rewrite Hr. cbn [fs stdout]. destruct (load f) as [df|e]; cbn [outcome_of].
  - fold (ready df comp). rewrite (ready_len df comp), (shape1_ready df comp).
    unfold merged_with. destruct (accumulator l) as [a|].
    + unfold bind at 1. unfold bind at 1. unfold print at 1. cbn [fs stdout].
      destruct (Pd.merge "SEQN" a (ready df comp)) as [m|e]; cbn [lift].
      * unfold ret at 1. unfold bind, IO.to_parquet, IO.read_parquet, print, ret.
        cbn [fs stdout].
        destruct (IO.has_dups (Pd.columns m)); cbn [fst snd].
        -- eexists. rewrite <- !app_assoc. reflexivity.
        -- destruct (parquet_ok m); cbn [negb fst snd fs stdout].
           ++ rewrite lookup_insert_eq. cbn [fs stdout]. eexists.
              rewrite <- !app_assoc. reflexivity.
           ++ eexists. rewrite <- !app_assoc. reflexivity.
      * unfold raise. cbn [fst snd]. eexists. rewrite <- !app_assoc. reflexivity.
    + unfold bind at 1. unfold ret at 1.
      unfold bind, IO.to_parquet, IO.read_parquet, print, ret. cbn [fs stdout].
      destruct (IO.has_dups (Pd.columns (ready df comp))); cbn [fst snd].
      * eexists. rewrite <- !app_assoc. reflexivity.
      * destruct (parquet_ok (ready df comp)); cbn [negb fst snd fs stdout].
        -- rewrite lookup_insert_eq. cbn [fs stdout]. eexists.
           rewrite <- !app_assoc. reflexivity.
        -- eexists. rewrite <- !app_assoc. reflexivity.
  - unfold bind, print, ret. cbn [fs stdout fst snd]. eexists.
    rewrite <- !app_assoc. reflexivity.
Qed.

End step_spec.

Section run_spec.
Context `{Sorter}.
Variables (read : file -> M DataFrame) (load : file -> result DataFrame).
Hypothesis Hreads : reads read load.

Lemma loop_with_spec p total files :
  forall i l w,
  exists out,
    loop_with read p total i files l w
    = (fst (run_of load p files l (fs w)),
       mkWorld (snd (run_of load p files l (fs w))) (stdout w ++ out)).
Proof.
  induction files as [|f rest IH]; intros i l w.
  - exists []. rewrite app_nil_r. destruct w; reflexivity.
  - cbn [loop_with run_of]. unfold bind at 1.
    destruct (body_with_spec read load Hreads p total i f l w) as [out Hb].
    rewrite Hb. destruct (step_of p f (load f) l (fs w)) as [[l'|e|arg] store'];
      cbn [fst snd].
    + destruct (IH (S i) l' (mkWorld store' (stdout w ++ out))) as [out' Hrest].
      rewrite Hrest. cbn [fs stdout]. exists (out ++ out').
      rewrite <- app_assoc. reflexivity.
    + exists out. reflexivity.
    + exists out. reflexivity.
Qed.

End run_spec.

Section run_facts.
Context `{Numeric}.
Variable (load : file -> result DataFrame).

Lemma step_of_frame p f r l store path :
  path <> tmp_parquet p -> snd (step_of p f r l store) !! path = store !! path.
Proof.
  intros Hne. unfold step_of. destruct r as [df|e]; [|reflexivity].
  destruct (merged_with l _) as [m|e]; [|reflexivity].
  destruct (IO.has_dups _); [reflexivity|].
  destruct (parquet_ok m); cbn [negb snd]; [|reflexivity].
  apply lookup_insert_ne. congruence.
Qed.

Lemma step_of_no_exit p f r l store arg :
  fst (step_of p f r l store) <> SystemExit arg.
Proof.
  unfold step_of. destruct r as [df|e]; [|discriminate].
  destruct (merged_with l _) as [m|e]; [|discriminate].
  destruct (IO.has_dups _); [discriminate|].
  destruct (parquet_ok m); discriminate.
Qed.

Lemma run_of_frame p files l store path :
  path <> tmp_parquet p -> snd (run_of load p files l store) !! path = store !! path.
Proof.
  intros Hne. revert l store. induction files as [|f rest IH]; intros l store;
    [reflexivity|].
  cbn [run_of]. pose proof (step_of_frame p f (load f) l store path Hne) as Hstep.
  destruct (step_of p f (load f) l store) as [[l'|e|arg] store']; cbn [snd] in *;
    [|exact Hstep..].
  rewrite IH. exact Hstep.
Qed.

Lemma run_of_no_exit p files l store arg :
  fst (run_of load p files l store) <> SystemExit arg.
Proof.
  revert l store. induction files as [|f rest IH]; intros l store; [discriminate|].
  cbn [run_of]. pose proof (step_of_no_exit p f (load f) l store arg) as Hstep.
  destruct (step_of p f (load f) l store) as [[l'|e|arg'] store']; cbn [fst] in *;
    [apply IH | discriminate | exact Hstep].
Qed.

End run_facts.

(** X6: the loop of either script, however it ends, has written no file
    but the checkpoint, has only added to what is printed, and does not end
    in [sys.exit]. *)
Theorem loop_touches_only_the_checkpoint `{Sorter}
        (p : paths) (total i : nat) (files : list file) (l : locals) (w : world) :
  ((forall path, path <> tmp_parquet p ->
      fs (snd (Batched.loop p total i files l w)) !! path = fs w !! path)
   /\ (exists out, stdout (snd (Batched.loop p total i files l w)) = stdout w ++ out)
   /\ (forall arg, fst (Batched.loop p total i files l w) <> SystemExit arg))
  /\ ((forall path, path <> tmp_parquet p ->
        fs (snd (Files.loop p total i files l w)) !! path = fs w !! path)
      /\ (exists out, stdout (snd (Files.loop p total i files l w)) = stdout w ++ out)
      /\ (forall arg, fst (Files.loop p total i files l w) <> SystemExit arg)).
Proof.
  split.
  - rewrite Batched_loop_eq.
    destruct (loop_with_spec _ _ Batched_reads p total files i l w) as [out ->].
    cbn [fst snd fs stdout]. split; [intros path Hne; apply run_of_frame; exact Hne|].
    split; [exists out; reflexivity|]. intros arg. apply run_of_no_exit.
  - rewrite Files_loop_eq.
    destruct (loop_with_spec _ _ Files_reads p total files i l w) as [out ->].
    cbn [fst snd fs stdout]. split; [intros path Hne; apply run_of_frame; exact Hne|].
    split; [exists out; reflexivity|]. intros arg. apply run_of_no_exit.
Qed.

Section main_spec.
Context `{Sorter}.

Lemma Batched_loop_run p total i files l w :
  exists out,
    Batched.loop p total i files l w
    = (fst (run_of Batched.read_any p files l (fs w)),
       mkWorld (snd (run_of Batched.read_any p files l (fs w))) (stdout w ++ out)).
Proof. rewrite Batched_loop_eq. apply (loop_with_spec _ _ Batched_reads). Qed.

Lemma Files_loop_run p total i files l w :
  exists out,
    Files.loop p total i files l w
    = (fst (run_of loaded p files l (fs w)),
       mkWorld (snd (run_of loaded p files l (fs w))) (stdout w ++ out)).
Proof. rewrite Files_loop_eq. apply (loop_with_spec _ _ Files_reads). Qed.

Lemma Batched_main_run a p globbed w :
  processing_order globbed <> [] ->
  exists out,
    Batched.main a p true globbed w
    = (fst (Batched_end a p
              (run_of Batched.read_any p (processing_order globbed) (mkLocals None [])
                 (fs w))),
       mkWorld (snd (Batched_end a p
                       (run_of Batched.read_any p (processing_order globbed)
                          (mkLocals None []) (fs w))))
               (stdout w ++ out)).
Proof.
  unfold processing_order, Batched.main. cbn [negb]. intros Hfiles.
  destruct (List.filter (fun f => negb (is_excluded (fname f))) globbed) as [|f0 fl];
    [contradiction Hfiles; reflexivity|].
  unfold bind at 1.
  destruct (Batched_loop_run p (length (sorted_files (f0 :: fl))) 1
              (sorted_files (f0 :: fl)) (mkLocals None []) w) as [out ->].
  destruct (run_of Batched.read_any p (sorted_files (f0 :: fl)) (mkLocals None []) (fs w))
    as [[l|e|arg] store]; cbn [fst snd Batched_end];
    [|exists out; reflexivity..].
  destruct (accumulator l) as [acc|]; [|exists out; reflexivity].
  unfold bind, IO.to_parquet, IO.to_csv, IO.report_to_csv, print, ret, raise.
  cbn [fs stdout].
  destruct (IO.has_dups (Pd.columns acc)); [exists out; reflexivity|].
  destruct (parquet_ok acc); cbn [negb]; [|exists out; reflexivity].
  cbn [fs stdout].
  destruct (Batched.csv a =? 1)%Z; cbn [fs stdout fst snd];
    eexists; rewrite <- !app_assoc; reflexivity.
Qed.

Lemma Files_main_run e p globbed w :
  Files.truthy (Files.NHANES_INPUT_DIR e) = true ->
  Files.truthy (Files.NHANES_OUTPUT_DIR e) = true ->
  processing_order globbed <> [] ->
  exists out,
    Files.main e p true globbed w
    = (fst (Files_end e p
              (run_of loaded p (processing_order globbed) (mkLocals None []) (fs w))),
       mkWorld (snd (Files_end e p
                       (run_of loaded p (processing_order globbed)
                          (mkLocals None []) (fs w))))
               (stdout w ++ out)).
Proof.
  unfold processing_order, Files.main. intros -> -> Hfiles. cbn [negb orb].
  destruct (List.filter (fun f => negb (is_excluded (fname f))) globbed) as [|f0 fl];
    [contradiction Hfiles; reflexivity|].
  unfold IO.mkdir_parent. unfold bind at 1. unfold ret at 1. unfold bind at 1.
  destruct (Files_loop_run p (length (sorted_files (f0 :: fl))) 1
              (sorted_files (f0 :: fl)) (mkLocals None []) w) as [out ->].
  destruct (run_of loaded p (sorted_files (f0 :: fl)) (mkLocals None []) (fs w))
    as [[l|ex|arg] store]; cbn [fst snd Files_end];
    [|exists out; reflexivity..].
  destruct (accumulator l) as [acc|]; [|exists out; reflexivity].
  unfold bind, IO.to_parquet, IO.to_csv, IO.report_to_csv, IO.exists_, IO.unlink,
    try_except, print, ret, raise.
  cbn [fs stdout].
  destruct (IO.has_dups (Pd.columns acc)); [exists out; reflexivity|].
  destruct (parquet_ok acc); cbn [negb]; [|exists out; reflexivity].
  cbn [fs stdout].
  destruct (String.eqb (default "0" (Files.NHANES_MAKE_CSV e)) "1"); cbn [fs stdout fst snd].
  - match goal with |- context [bool_decide (is_Some (?m !! ?k))] =>
      destruct (m !! k) as [x|] eqn:Hk end.
    + rewrite bool_decide_eq_true_2 by eauto. cbn [fs stdout].
      rewrite Hk. cbn [fs stdout]. eexists. rewrite <- !app_assoc. reflexivity.
    + rewrite bool_decide_eq_false_2 by (intros [? ?]; discriminate).
      cbn [fs stdout]. rewrite (delete_id _ _ Hk).
      eexists. rewrite <- !app_assoc. reflexivity.
  - match goal with |- context [bool_decide (is_Some (?m !! ?k))] =>
      destruct (m !! k) as [x|] eqn:Hk end.
    + rewrite bool_decide_eq_true_2 by eauto. cbn [fs stdout].
      rewrite Hk. cbn [fs stdout]. eexists. rewrite <- !app_assoc. reflexivity.
    + rewrite bool_decide_eq_false_2 by (intros [? ?]; discriminate).
      cbn [fs stdout]. rewrite (delete_id _ _ Hk).
      eexists. rewrite <- !app_assoc. reflexivity.
Qed.

End main_spec.

Section run_more.
Context `{Numeric}.
Variable (load : file -> result DataFrame).

Lemma step_of_Normal p f r l store l' store' :
  step_of p f r l store = (Normal l', store') ->
  match r with
  | Raise _ => l' = l /\ store' = store
  | Ok df =>
      exists m,
        merged_with l (ready df (component_from_filename (Py.path_stem (fname f)))) = Ok m
        /\ IO.has_dups (Pd.columns m) = false
        /\ l' = mkLocals (Some (reloaded m))
                  (report_rows l
                   ++ [mkReportRow (component_from_filename (Py.path_stem (fname f)))
                                   (fname f) (Pd.len df) (Pd.shape1 df)])
        /\ store' = <[tmp_parquet p := ParquetFile (Pd.len m) (cols m)]> store
  end.
Proof.
  unfold step_of. destruct r as [df|e].
  - destruct (merged_with l _) as [m|e]; [|discriminate].
    destruct (IO.has_dups (Pd.columns m)) eqn:Hd; [discriminate|].
    destruct (parquet_ok m); cbn [negb]; [|discriminate].
    intros Heq. injection Heq as <- <-. exists m. auto.
  - intros Heq. injection Heq as <- <-. auto.
Qed.

Lemma run_of_cons p f rest l store :
  run_of load p (f :: rest) l store
  = match step_of p f (load f) l store with
    | (Normal l', store') => run_of load p rest l' store'
    | ended => ended
    end.
Proof. reflexivity. Qed.

(** Induction over a run that completes. *)
Lemma run_of_ind (P : locals -> gmap string artifact -> Prop) p :
  (forall f l store l' store',
      P l store -> step_of p f (load f) l store = (Normal l', store') -> P l' store') ->
  forall files l store l' store',
    P l store -> run_of load p files l store = (Normal l', store') -> P l' store'.
Proof.
  intros Hstep. induction files as [|f rest IH]; intros l store l' store' HP Hrun.
  - injection Hrun as <- <-. exact HP.
  - rewrite run_of_cons in Hrun.
    destruct (step_of p f (load f) l store) as [[l1|e|arg] store1] eqn:Hs;
      try discriminate Hrun.
    exact (IH _ _ _ _ (Hstep _ _ _ _ _ HP Hs) Hrun).
Qed.

Lemma run_of_report p files :
  forall l store l' store',
    run_of load p files l store = (Normal l', store') ->
    report_rows l' = report_rows l ++ report_of load files.
Proof.
  induction files as [|f rest IH]; intros l store l' store' Hrun.
  - injection Hrun as <- <-. cbn. rewrite app_nil_r. reflexivity.
  - rewrite run_of_cons in Hrun.
    destruct (step_of p f (load f) l store) as [[l1|e|arg] store1] eqn:Hs;
      try discriminate Hrun.
    rewrite (IH _ _ _ _ Hrun). apply step_of_Normal in Hs.
    unfold report_of. cbn [flat_map]. destruct (load f) as [df|e].
    + destruct Hs as (m & _ & _ & -> & _). cbn [report_rows].
      rewrite <- app_assoc. reflexivity.
    + destruct Hs as [-> _]. reflexivity.
Qed.

Lemma run_of_checkpoint p files l store l' store' acc :
  (forall a, accumulator l = Some a ->
             store !! tmp_parquet p = Some (ParquetFile (Pd.len a) (cols a))) ->
  run_of load p files l store = (Normal l', store') ->
  accumulator l' = Some acc ->
  store' !! tmp_parquet p = Some (ParquetFile (Pd.len acc) (cols acc)).
Proof.
  intros Hinit Hrun.
  revert acc.
  apply (run_of_ind
           (fun l store => forall a, accumulator l = Some a ->
              store !! tmp_parquet p = Some (ParquetFile (Pd.len a) (cols a)))
           p) with (files := files) (l := l) (store := store); [|exact Hinit|exact Hrun].
  intros f l0 store0 l1 store1 HP Hs a Ha. apply step_of_Normal in Hs.
  destruct (load f) as [df|e].
  - destruct Hs as (m & _ & _ & -> & ->). cbn [accumulator] in Ha.
    injection Ha as <-. rewrite lookup_insert_eq, reloaded_len. reflexivity.
  - destruct Hs as [-> ->]. exact (HP a Ha).
Qed.

Lemma run_of_skipped p files l store :
  anchor load files = None -> run_of load p files l store = (Normal l, store).
Proof.
  induction files as [|f rest IH]; intros Hnone; [reflexivity|].
  cbn [anchor] in Hnone. rewrite run_of_cons. unfold step_of.
  destruct (load f) as [df|e]; [discriminate Hnone|]. exact (IH Hnone).
Qed.

Lemma run_of_keeps_table p files l store l' store' :
  accumulator l <> None ->
  run_of load p files l store = (Normal l', store') -> accumulator l' <> None.
Proof.
  intros Hinit Hrun.
  apply (run_of_ind (fun l _ => accumulator l <> None) p)
    with (files := files) (l := l) (store := store) (store' := store');
    [|exact Hinit|exact Hrun].
  intros f l0 store0 l1 store1 HP Hs. apply step_of_Normal in Hs.
  destruct (load f) as [df|e].
  - destruct Hs as (m & _ & _ & -> & _). discriminate.
  - destruct Hs as [-> _]. exact HP.
Qed.

Lemma run_of_loaded p files l store l' store' df :
  anchor load files = Some df ->
  run_of load p files l store = (Normal l', store') -> accumulator l' <> None.
Proof.
  revert l store. induction files as [|f rest IH]; intros l store Hsome Hrun;
    [discriminate Hsome|].
  cbn [anchor] in Hsome. rewrite run_of_cons in Hrun.
  destruct (step_of p f (load f) l store) as [[l1|e|arg] store1] eqn:Hs;
    try discriminate Hrun.
  apply step_of_Normal in Hs. destruct (load f) as [df'|e].
  - destruct Hs as (m & _ & _ & -> & _).
    eapply run_of_keeps_table; [|exact Hrun]. cbn [accumulator]. discriminate.
  - destruct Hs as [-> ->]. exact (IH _ _ Hsome Hrun).
Qed.

End run_more.

(** ** How [main] ends *)

Lemma processing_order_nil globbed :
  processing_order globbed = []
  <-> List.filter (fun f => negb (is_excluded (fname f))) globbed = [].
Proof.
  unfold processing_order. split; intros Hnil.
  - pose proof (Permutation_length (sorted_files_perm
        (List.filter (fun f => negb (is_excluded (fname f))) globbed))) as Hl.
    rewrite Hnil in Hl. destruct (List.filter _ globbed); [reflexivity|discriminate Hl].
  - rewrite Hnil. reflexivity.
Qed.

Section main_more.
Context `{Sorter}.

Lemma Batched_main_no_files a p globbed w :
  processing_order globbed = [] ->
  Batched.main a p true globbed w
  = (SystemExit (ExitMsg "No '*_clean.(csv|xlsx|xls)' files found."), w).
Proof.
  intros Hnil. apply processing_order_nil in Hnil.
  unfold Batched.main. rewrite Hnil. reflexivity.
Qed.

Lemma Files_main_no_files e p globbed w :
  Files.truthy (Files.NHANES_INPUT_DIR e) = true ->
  Files.truthy (Files.NHANES_OUTPUT_DIR e) = true ->
  processing_order globbed = [] ->
  Files.main e p true globbed w
  = (SystemExit (ExitMsg ("No '*_clean.(csv|xlsx|xls)' files found in " +:+ base p)), w).
Proof.
  intros Hin Hout Hnil. apply processing_order_nil in Hnil.
  unfold Files.main. rewrite Hin, Hout, Hnil. reflexivity.
Qed.

Lemma Batched_end_unfinished a p looped (store0 : gmap string artifact) path :
  fst (Batched_end a p looped) <> Normal tt ->
  snd looped !! path = store0 !! path ->
  snd (Batched_end a p looped) !! path = store0 !! path.
Proof.
  destruct looped as [[l|e|arg] store]; cbn [Batched_end snd]; auto.
  destruct (accumulator l) as [acc|]; cbn [snd]; auto.
  destruct (IO.has_dups _); cbn [snd]; auto.
  destruct (parquet_ok acc); cbn [negb fst snd]; auto.
  intros Hne. contradiction Hne. reflexivity.
Qed.

Lemma Files_end_unfinished e p looped (store0 : gmap string artifact) path :
  fst (Files_end e p looped) <> Normal tt ->
  snd looped !! path = store0 !! path ->
  snd (Files_end e p looped) !! path = store0 !! path.
Proof.
  destruct looped as [[l|ex|arg] store]; cbn [Files_end snd]; auto.
  destruct (accumulator l) as [acc|]; cbn [snd]; auto.
  destruct (IO.has_dups _); cbn [snd]; auto.
  destruct (parquet_ok acc); cbn [negb fst snd]; auto.
  intros Hne. contradiction Hne. reflexivity.
Qed.

End main_more.

(** X7: a run that does not complete has written no output.  When [main]
    of either script ends in an exception or in [sys.exit], every path but
    that of the checkpoint holds what it held before the run. *)
Theorem unfinished_run_writes_no_output `{Sorter}
        (a : Batched.args) (e : Files.env) (p : paths) (dir_exists : bool)
        (globbed : list file) (w : world) :
  (fst (Batched.main a p dir_exists globbed w) <> Normal tt ->
   forall path, path <> tmp_parquet p ->
     fs (snd (Batched.main a p dir_exists globbed w)) !! path = fs w !! path)
  /\ (fst (Files.main e p dir_exists globbed w) <> Normal tt ->
      forall path, path <> tmp_parquet p ->
        fs (snd (Files.main e p dir_exists globbed w)) !! path = fs w !! path).
Proof.
  split.
  - destruct dir_exists; [|reflexivity].
    destruct (decide (processing_order globbed = [])) as [Hnil|Hfiles].
    + rewrite (Batched_main_no_files a p globbed w Hnil). reflexivity.
    + destruct (Batched_main_run a p globbed w Hfiles) as [out ->].
      cbn [fst snd fs]. intros Hne path Hpath.
      apply Batched_end_unfinished; [exact Hne|].
      apply run_of_frame. exact Hpath.
  - destruct (Files.truthy (Files.NHANES_INPUT_DIR e)) eqn:Hin;
      [|unfold Files.main; rewrite Hin; reflexivity].
    destruct (Files.truthy (Files.NHANES_OUTPUT_DIR e)) eqn:Hout;
      [|unfold Files.main; rewrite Hin, Hout; reflexivity].
    destruct dir_exists; [|unfold Files.main; rewrite Hin, Hout; reflexivity].
    destruct (decide (processing_order globbed = [])) as [Hnil|Hfiles].
    + rewrite (Files_main_no_files e p globbed w Hin Hout Hnil). reflexivity.
    + destruct (Files_main_run e p globbed w Hin Hout Hfiles) as [out ->].
      cbn [fst snd fs]. intros Hne path Hpath.
      apply Files_end_unfinished; [exact Hne|].
      apply run_of_frame. exact Hpath.
Qed.

Lemma unfinished_run_writes_no_output_witness :
  let ended := Batched.main Example.arguments Example.out_paths true
                 [Example.demographics; Example.visits] Example.empty_world in
  fst ended <> Normal tt
  /\ fs (snd ended) !! "out.parquet" = None
  /\ fs (snd ended) !! "out_merge_report.csv" = None.
Proof.
  cbv zeta.
  assert (Hne : fst (Batched.main Example.arguments Example.out_paths true
                       [Example.demographics; Example.visits] Example.empty_world)
                <> Normal tt) by (vm_compute; discriminate).
  split; [exact Hne|].
  destruct (unfinished_run_writes_no_output Example.arguments Example.environment
              Example.out_paths true [Example.demographics; Example.visits]
              Example.empty_world) as [Hbatched _].
  split; rewrite (Hbatched Hne) by (vm_compute; discriminate); reflexivity.
Defined.

(** X8: when [main] ends in [sys.exit], once its arguments are read.
    [merge_nhanes_any_batched.py], given the arguments that were parsed,
    does so when the folder is missing and when no file is left to process,
    and in no other case; [merge_nhanes_files.py] does so when a path is
    missing from the environment, when the folder is missing, when no file
    is left to process and when no component loaded, and in no other case.
    Each case has its message, which names the folder as pathlib prints it;
    the exit status is 1 and no file was written or removed. *)
Theorem main_exits `{Sorter}
        (a : Batched.args) (e : Files.env) (p : paths) (dir_exists : bool)
        (globbed : list file) (w : world) (arg : exit_arg) :
  (fst (Batched.main a p dir_exists globbed w) = SystemExit arg
   <-> (dir_exists = false
        /\ arg = ExitMsg ("Folder not found: " +:+ base p))
       \/ (dir_exists = true /\ processing_order globbed = []
           /\ arg = ExitMsg "No '*_clean.(csv|xlsx|xls)' files found."))
  /\ (fst (Files.main e p dir_exists globbed w) = SystemExit arg
      <-> (Files.truthy (Files.NHANES_INPUT_DIR e)
           && Files.truthy (Files.NHANES_OUTPUT_DIR e) = false
           /\ arg = ExitCode 1)
          \/ (Files.truthy (Files.NHANES_INPUT_DIR e)
              && Files.truthy (Files.NHANES_OUTPUT_DIR e) = true
              /\ ((dir_exists = false
                   /\ arg = ExitMsg ("Input Folder not found: " +:+ base p))
                  \/ (dir_exists = true /\ processing_order globbed = []
                      /\ arg = ExitMsg ("No '*_clean.(csv|xlsx|xls)' files found in "
                                          +:+ base p))
                  \/ (dir_exists = true /\ processing_order globbed <> []
                      /\ anchor loaded (processing_order globbed) = None
                      /\ arg = ExitMsg "No data merged. Exiting."))))
  /\ (fst (Batched.main a p dir_exists globbed w) = SystemExit arg ->
      fs (snd (Batched.main a p dir_exists globbed w)) = fs w
      /\ exit_status (fst (Batched.main a p dir_exists globbed w)) = 1)
  /\ (fst (Files.main e p dir_exists globbed w) = SystemExit arg ->
      fs (snd (Files.main e p dir_exists globbed w)) = fs w
      /\ exit_status (fst (Files.main e p dir_exists globbed w)) = 1).
Proof.
  assert (HB : forall looped, fst (Batched_end a p looped) = SystemExit arg ->
                              fst looped = SystemExit arg).
  { intros [[l|ex|x] store]; cbn [Batched_end fst];
      try (intros Hx; discriminate Hx); try (intros Hx; injection Hx as ->; reflexivity).
    destruct (accumulator l) as [acc|]; [|discriminate].
    destruct (IO.has_dups _); [discriminate|].
    destruct (parquet_ok acc); discriminate. }
  assert (HF : forall files,
             fst (Files_end e p (run_of loaded p files (mkLocals None []) (fs w)))
             = SystemExit arg
             <-> anchor loaded files = None /\ arg = ExitMsg "No data merged. Exiting.").
  { intros files. split.
    - destruct (anchor loaded files) as [df|] eqn:Ha.
      + destruct (run_of loaded p files (mkLocals None []) (fs w)) as [[l|ex|x] store] eqn:Hr;
          cbn [Files_end fst]; try discriminate.
        * pose proof (run_of_loaded loaded p files _ _ _ _ df Ha Hr) as Hacc.
          destruct (accumulator l) as [acc|]; [|contradiction Hacc; reflexivity].
          destruct (IO.has_dups _); [discriminate|].
          destruct (parquet_ok acc); discriminate.
        * intros _. exfalso.
          apply (run_of_no_exit loaded p files (mkLocals None []) (fs w) x).
          rewrite Hr. reflexivity.
      + rewrite (run_of_skipped loaded p files _ _ Ha). cbn [Files_end accumulator fst].
        intros Heq. injection Heq as <-. auto.
    - intros [Ha ->]. rewrite (run_of_skipped loaded p files _ _ Ha). reflexivity. }
  assert (HBiff :
    fst (Batched.main a p dir_exists globbed w) = SystemExit arg
    <-> (dir_exists = false /\ arg = ExitMsg ("Folder not found: " +:+ base p))
        \/ (dir_exists = true /\ processing_order globbed = []
            /\ arg = ExitMsg "No '*_clean.(csv|xlsx|xls)' files found.")).
  { destruct dir_exists.
    - destruct (decide (processing_order globbed = [])) as [Hnil|Hfiles].
      + rewrite (Batched_main_no_files a p globbed w Hnil). cbn [fst]. split.
        * intros Heq. injection Heq as <-. right. auto.
        * intros [[Hd _]|(_ & _ & ->)]; [discriminate Hd | reflexivity].
      + destruct (Batched_main_run a p globbed w Hfiles) as [out ->]. cbn [fst]. split.
        * intros Hex. apply HB in Hex. exfalso.
          exact (run_of_no_exit _ _ _ _ _ _ Hex).
        * intros [[Hd _]|(_ & Hnil & _)]; [discriminate Hd | contradiction].
    - cbn [fst Batched.main negb sys_exit]. split.
      + intros Heq. injection Heq as <-. left. auto.
      + intros [[_ ->]|(Hd & _)]; [reflexivity | discriminate Hd]. }
  assert (HFiff :
    fst (Files.main e p dir_exists globbed w) = SystemExit arg
    <-> (Files.truthy (Files.NHANES_INPUT_DIR e)
         && Files.truthy (Files.NHANES_OUTPUT_DIR e) = false
         /\ arg = ExitCode 1)
        \/ (Files.truthy (Files.NHANES_INPUT_DIR e)
            && Files.truthy (Files.NHANES_OUTPUT_DIR e) = true
            /\ ((dir_exists = false
                 /\ arg = ExitMsg ("Input Folder not found: " +:+ base p))
                \/ (dir_exists = true /\ processing_order globbed = []
                    /\ arg = ExitMsg ("No '*_clean.(csv|xlsx|xls)' files found in "
                                        +:+ base p))
                \/ (dir_exists = true /\ processing_order globbed <> []
                    /\ anchor loaded (processing_order globbed) = None
                    /\ arg = ExitMsg "No data merged. Exiting.")))).
  { destruct (Files.truthy (Files.NHANES_INPUT_DIR e)
              && Files.truthy (Files.NHANES_OUTPUT_DIR e)) eqn:Henv.
    - apply andb_prop in Henv as [Hin Hout]. destruct dir_exists.
      + destruct (decide (processing_order globbed = [])) as [Hnil|Hfiles].
        * rewrite (Files_main_no_files e p globbed w Hin Hout Hnil). cbn [fst]. split.
          -- intros Heq. injection Heq as <-. right. split; [reflexivity|].
             right. left. auto.
          -- intros [[Hd _]|(_ & [[Hd _]|[(_ & _ & ->)|(_ & Hne & _)]])];
               [discriminate Hd | discriminate Hd | reflexivity | contradiction].
        * destruct (Files_main_run e p globbed w Hin Hout Hfiles) as [out ->].
          cbn [fst]. rewrite HF. split.
          -- intros [Ha ->]. right. split; [reflexivity|]. right. right. auto.
          -- intros [[Hd _]|(_ & [[Hd _]|[(_ & Hnil & _)|(_ & _ & Ha & ->)]])];
               [discriminate Hd | discriminate Hd | contradiction | auto].
      + unfold Files.main. rewrite Hin, Hout. cbn [negb orb fst sys_exit]. split.
        * intros Heq. injection Heq as <-. right. split; [reflexivity|]. left. auto.
        * intros [[Hd _]|(_ & [[_ ->]|[(Hd & _)|(Hd & _)]])];
            [discriminate Hd | reflexivity | discriminate Hd | discriminate Hd].
    - assert (Hmain : Files.main e p dir_exists globbed w
                      = (SystemExit (ExitCode 1),
                         mkWorld (fs w)
                           (stdout w ++ ["ERROR: Could not find paths in .env file."]))).
      { unfold Files.main.
        destruct (Files.truthy (Files.NHANES_INPUT_DIR e));
          destruct (Files.truthy (Files.NHANES_OUTPUT_DIR e));
          try discriminate Henv; reflexivity. }
      rewrite Hmain. cbn [fst]. split.
      + intros Heq. injection Heq as <-. left. auto.
      + intros [[_ ->]|[Hd _]]; [reflexivity | discriminate Hd]. }
  split; [exact HBiff|]. split; [exact HFiff|]. split.
  - intros Hex. rewrite Hex.
    split; [|destruct (proj1 HBiff Hex) as [[_ ->]|(_ & _ & ->)]; reflexivity].
    destruct (proj1 HBiff Hex) as [[-> _]|(-> & Hnil & _)]; [reflexivity|].
    rewrite (Batched_main_no_files a p globbed w Hnil). reflexivity.
  - intros Hex. rewrite Hex.
    split; [|destruct (proj1 HFiff Hex)
               as [[_ ->]|(_ & [[_ ->]|[(_ & _ & ->)|(_ & _ & _ & ->)]])]; reflexivity].
    destruct (proj1 HFiff Hex) as [[Henv _]|(Henv & Hcases)].
    + unfold Files.main.
      destruct (Files.truthy (Files.NHANES_INPUT_DIR e));
        destruct (Files.truthy (Files.NHANES_OUTPUT_DIR e));
        try discriminate Henv; reflexivity.
    + apply andb_prop in Henv as [Hin Hout].
      destruct Hcases as [[-> _]|[(-> & Hnil & _)|(-> & Hfiles & Ha & _)]].
      * unfold Files.main. rewrite Hin, Hout. reflexivity.
      * rewrite (Files_main_no_files e p globbed w Hin Hout Hnil). reflexivity.
      * destruct (Files_main_run e p globbed w Hin Hout Hfiles) as [out ->].
        cbn [snd fs]. rewrite (run_of_skipped loaded p _ _ _ Ha). reflexivity.
Qed.

Section completed.
Context `{Sorter}.

(** A run of [main] that completes, in terms of the loop. *)
Lemma Batched_main_completed a p dir_exists globbed w w' :
  Batched.main a p dir_exists globbed w = (Normal tt, w') ->
  exists l store acc,
    run_of Batched.read_any p (processing_order globbed) (mkLocals None []) (fs w)
    = (Normal l, store)
    /\ accumulator l = Some acc
    /\ fs w'
       = <[out_report p := ReportFile (report_rows l)]>
           ((if (Batched.csv a =? 1)%Z
             then <[out_csv p := CsvFile (Pd.len acc) (cols acc)]>
             else id)
              (<[out_parquet p := ParquetFile (Pd.len acc) (cols acc)]> store)).
Proof.
  destruct dir_exists; [|discriminate].
  destruct (decide (processing_order globbed = [])) as [Hnil|Hfiles];
    [rewrite (Batched_main_no_files a p globbed w Hnil); discriminate|].
  destruct (Batched_main_run a p globbed w Hfiles) as [out ->].
  destruct (run_of Batched.read_any p (processing_order globbed) (mkLocals None []) (fs w))
    as [[l|e|arg] store]; cbn [Batched_end fst snd]; try discriminate.
  destruct (accumulator l) as [acc|] eqn:Hacc; [|discriminate].
  destruct (IO.has_dups _); [discriminate|].
  destruct (parquet_ok acc); cbn [negb fst snd]; [|discriminate].
  intros Heq. injection Heq as <-. exists l, store, acc. cbn [fs].
  split; [reflexivity|]. split; [exact Hacc|].
  destruct (Batched.csv a =? 1)%Z; reflexivity.
Qed.

Lemma Files_main_completed e p dir_exists globbed w w' :
  Files.main e p dir_exists globbed w = (Normal tt, w') ->
  exists l store acc,
    run_of loaded p (processing_order globbed) (mkLocals None []) (fs w)
    = (Normal l, store)
    /\ accumulator l = Some acc
    /\ fs w'
       = delete (tmp_parquet p)
           (<[out_report p := ReportFile (report_rows l)]>
              ((if String.eqb (default "0" (Files.NHANES_MAKE_CSV e)) "1"
                then <[out_csv p := CsvFile (Pd.len acc) (cols acc)]>
                else id)
                 (<[out_parquet p := ParquetFile (Pd.len acc) (cols acc)]> store))).
Proof.
  destruct (Files.truthy (Files.NHANES_INPUT_DIR e)) eqn:Hin;
    [|unfold Files.main; rewrite Hin; discriminate].
  destruct (Files.truthy (Files.NHANES_OUTPUT_DIR e)) eqn:Hout;
    [|unfold Files.main; rewrite Hin, Hout; discriminate].
  destruct dir_exists; [|unfold Files.main; rewrite Hin, Hout; discriminate].
  destruct (decide (processing_order globbed = [])) as [Hnil|Hfiles];
    [rewrite (Files_main_no_files e p globbed w Hin Hout Hnil); discriminate|].
  destruct (Files_main_run e p globbed w Hin Hout Hfiles) as [out ->].
  destruct (run_of loaded p (processing_order globbed) (mkLocals None []) (fs w))
    as [[l|ex|arg] store]; cbn [Files_end fst snd]; try discriminate.
  destruct (accumulator l) as [acc|] eqn:Hacc; [|discriminate].
  destruct (IO.has_dups _); [discriminate|].
  destruct (parquet_ok acc); cbn [negb fst snd]; [|discriminate].
  intros Heq. injection Heq as <-. exists l, store, acc. cbn [fs].
  split; [reflexivity|]. split; [exact Hacc|].
  destruct (String.eqb (default "0" (Files.NHANES_MAKE_CSV e)) "1"); reflexivity.
Qed.

End completed.

(** X9: the merge report lists the components that loaded, in the order
    they were processed, each with its component name, its file name and the
    rows and columns of the loaded component; a file that was skipped has no
    row.  A loop that completes has added these rows to the report, and a
    run of [main] that completes has written them to the report file. *)
Theorem report_lists_loaded_components `{Sorter}
        (a : Batched.args) (e : Files.env) (p : paths) (dir_exists : bool)
        (globbed : list file) (w w' : world) :
  (forall total i files l l',
      Batched.loop p total i files l w = (Normal l', w') ->
      report_rows l' = report_rows l ++ report_of Batched.read_any files)
  /\ (forall total i files l l',
      Files.loop p total i files l w = (Normal l', w') ->
      report_rows l' = report_rows l ++ report_of loaded files)
  /\ (Batched.main a p dir_exists globbed w = (Normal tt, w') ->
      fs w' !! out_report p
      = Some (ReportFile (report_of Batched.read_any (processing_order globbed))))
  /\ (Files.main e p dir_exists globbed w = (Normal tt, w') ->
      out_report p <> tmp_parquet p ->
      fs w' !! out_report p
      = Some (ReportFile (report_of loaded (processing_order globbed)))).
Proof.
  split; [|split; [|split]].
  - intros total i files l l' Hloop.
    destruct (Batched_loop_run p total i files l w) as [out Hrun].
    rewrite Hrun in Hloop. injection Hloop as Hfst _.
    apply (run_of_report Batched.read_any p files l (fs w) l'
             (snd (run_of Batched.read_any p files l (fs w)))).
    rewrite <- Hfst. apply surjective_pairing.
  - intros total i files l l' Hloop.
    destruct (Files_loop_run p total i files l w) as [out Hrun].
    rewrite Hrun in Hloop. injection Hloop as Hfst _.
    apply (run_of_report loaded p files l (fs w) l'
             (snd (run_of loaded p files l (fs w)))).
    rewrite <- Hfst. apply surjective_pairing.
  - intros Hmain. apply Batched_main_completed in Hmain as (l & store & acc & Hrun & _ & ->).
    rewrite lookup_insert_eq. apply run_of_report in Hrun. rewrite Hrun. reflexivity.
  - intros Hmain Hne. apply Files_main_completed in Hmain as (l & store & acc & Hrun & _ & ->).
    rewrite lookup_delete_ne by congruence.
    rewrite lookup_insert_eq. apply run_of_report in Hrun. rewrite Hrun. reflexivity.
Qed.

Lemma report_lists_loaded_components_witness :
  let files := [Example.demographics; Example.labs; Example.weights] in
  let ended := Files.main Example.environment Example.out_paths true files
                 Example.empty_world in
  ended = (Normal tt, snd ended)
  /\ fs (snd ended) !! "out_merge_report.csv"
     = Some (ReportFile [ mkReportRow "demographics" "demographics_clean.csv" 3 2;
                          mkReportRow "weights" "weights_clean.csv" 2 2 ]).
Proof.
  cbv zeta.
  assert (Hmain : Files.main Example.environment Example.out_paths true
                    [Example.demographics; Example.labs; Example.weights]
                    Example.empty_world
                  = (Normal tt,
                     snd (Files.main Example.environment Example.out_paths true
                            [Example.demographics; Example.labs; Example.weights]
                            Example.empty_world)))
    by (vm_compute; reflexivity).
  split; [exact Hmain|].
  destruct (report_lists_loaded_components Example.arguments Example.environment
              Example.out_paths true
              [Example.demographics; Example.labs; Example.weights]
              Example.empty_world
              (snd (Files.main Example.environment Example.out_paths true
                      [Example.demographics; Example.labs; Example.weights]
                      Example.empty_world)))
    as (_ & _ & _ & Hfiles).
  change "out_merge_report.csv" with (out_report Example.out_paths).
  rewrite (Hfiles Hmain) by discriminate. vm_compute. reflexivity.
Defined.

(** X10: what a completed run leaves on disk, the four paths being
    distinct.  Both scripts have written the table to the output file, have
    written the same table as CSV when asked to and have left the CSV path
    alone otherwise, and have touched no fifth path;
    [merge_nhanes_any_batched.py] leaves the checkpoint behind, holding the
    same table, and [merge_nhanes_files.py] removes it. *)
Theorem completed_run_outputs `{Sorter}
        (a : Batched.args) (e : Files.env) (p : paths) (dir_exists : bool)
        (globbed : list file) (w w' : world) :
  NoDup [out_parquet p; out_csv p; out_report p; tmp_parquet p] ->
  (Batched.main a p dir_exists globbed w = (Normal tt, w') ->
   exists n cs,
     fs w' !! out_parquet p = Some (ParquetFile n cs)
     /\ fs w' !! tmp_parquet p = Some (ParquetFile n cs)
     /\ fs w' !! out_csv p
        = (if (Batched.csv a =? 1)%Z then Some (CsvFile n cs) else fs w !! out_csv p)
     /\ forall path,
          ~ In path [out_parquet p; out_csv p; out_report p; tmp_parquet p] ->
          fs w' !! path = fs w !! path)
  /\ (Files.main e p dir_exists globbed w = (Normal tt, w') ->
      exists n cs,
        fs w' !! out_parquet p = Some (ParquetFile n cs)
        /\ fs w' !! tmp_parquet p = None
        /\ fs w' !! out_csv p
           = (if String.eqb (default "0" (Files.NHANES_MAKE_CSV e)) "1"
              then Some (CsvFile n cs) else fs w !! out_csv p)
        /\ forall path,
             ~ In path [out_parquet p; out_csv p; out_report p; tmp_parquet p] ->
             fs w' !! path = fs w !! path).
Proof.
  intros Hnd.
  assert (Hpc : out_parquet p <> out_csv p /\ out_parquet p <> out_report p
                /\ out_parquet p <> tmp_parquet p /\ out_csv p <> out_report p
                /\ out_csv p <> tmp_parquet p /\ out_report p <> tmp_parquet p).
  { rewrite !NoDup_cons in Hnd. repeat setoid_rewrite elem_of_cons in Hnd.
    intuition congruence. }
  destruct Hpc as (Hpc & Hpr & Hpt & Hcr & Hct & Hrt).
  split.
  - intros Hmain.
    apply Batched_main_completed in Hmain as (l & store & acc & Hrun & Hacc & ->).
    exists (Pd.len acc), (cols acc).
    assert (Hck : store !! tmp_parquet p = Some (ParquetFile (Pd.len acc) (cols acc))).
    { eapply run_of_checkpoint; [|exact Hrun|exact Hacc].
      cbn [accumulator]. intros a0 Ha0. discriminate Ha0. }
    assert (Hframe : forall path, path <> tmp_parquet p -> store !! path = fs w !! path).
    { intros path Hpath.
      pose proof (run_of_frame Batched.read_any p (processing_order globbed)
                    (mkLocals None []) (fs w) path Hpath) as Hf.
      rewrite Hrun in Hf. exact Hf. }
    destruct (Batched.csv a =? 1)%Z; unfold id.
    + split; [rewrite !lookup_insert_ne, lookup_insert_eq by congruence; reflexivity|].
      split; [rewrite !lookup_insert_ne by congruence; exact Hck|].
      split; [rewrite lookup_insert_ne, lookup_insert_eq by congruence; reflexivity|].
      intros path Hpath. cbn [In] in Hpath.
      rewrite !lookup_insert_ne by intuition. apply Hframe. intuition.
    + split; [rewrite !lookup_insert_ne, lookup_insert_eq by congruence; reflexivity|].
      split; [rewrite !lookup_insert_ne by congruence; exact Hck|].
      split; [rewrite !lookup_insert_ne by congruence; apply Hframe; congruence|].
      intros path Hpath. cbn [In] in Hpath.
      rewrite !lookup_insert_ne by intuition. apply Hframe. intuition.
  - intros Hmain.
    apply Files_main_completed in Hmain as (l & store & acc & Hrun & Hacc & ->).
    exists (Pd.len acc), (cols acc).
    assert (Hframe : forall path, path <> tmp_parquet p -> store !! path = fs w !! path).
    { intros path Hpath.
      pose proof (run_of_frame loaded p (processing_order globbed)
                    (mkLocals None []) (fs w) path Hpath) as Hf.
      rewrite Hrun in Hf. exact Hf. }
    destruct (String.eqb (default "0" (Files.NHANES_MAKE_CSV e)) "1"); unfold id.
    + split; [rewrite lookup_delete_ne, !lookup_insert_ne, lookup_insert_eq by congruence;
              reflexivity|].
      split; [apply lookup_delete_eq|].
      split; [rewrite lookup_delete_ne, lookup_insert_ne, lookup_insert_eq by congruence;
              reflexivity|].
      intros path Hpath. cbn [In] in Hpath.
      rewrite lookup_delete_ne, !lookup_insert_ne by intuition. apply Hframe. intuition.
    + split; [rewrite lookup_delete_ne, !lookup_insert_ne, lookup_insert_eq by congruence;
              reflexivity|].
      split; [apply lookup_delete_eq|].
      split; [rewrite lookup_delete_ne, !lookup_insert_ne by congruence;
              apply Hframe; congruence|].
      intros path Hpath. cbn [In] in Hpath.
      rewrite lookup_delete_ne, !lookup_insert_ne by intuition. apply Hframe. intuition.
Qed.

Lemma completed_run_outputs_witness :
  let p := Example.out_paths in
  let files := [Example.demographics; Example.weights] in
  let ended := Batched.main Example.arguments p true files Example.empty_world in
  NoDup [out_parquet p; out_csv p; out_report p; tmp_parquet p]
  /\ ended = (Normal tt, snd ended)
  /\ exists n cs,
      fs (snd ended) !! "out.parquet" = Some (ParquetFile n cs)
      /\ fs (snd ended) !! "out_tmp.parquet" = Some (ParquetFile n cs)
      /\ fs (snd ended) !! "out.csv" = None.
Proof.
  cbv zeta.
  assert (Hnd : NoDup [out_parquet Example.out_paths; out_csv Example.out_paths;
                       out_report Example.out_paths; tmp_parquet Example.out_paths]).
  { apply NoDup_ListNoDup. repeat constructor; cbn; intuition discriminate. }
  assert (Hmain : Batched.main Example.arguments Example.out_paths true
                    [Example.demographics; Example.weights] Example.empty_world
                  = (Normal tt,
                     snd (Batched.main Example.arguments Example.out_paths true
                            [Example.demographics; Example.weights]
                            Example.empty_world)))
    by (vm_compute; reflexivity).
  split; [exact Hnd|]. split; [exact Hmain|].
  destruct (completed_run_outputs Example.arguments Example.environment
              Example.out_paths true [Example.demographics; Example.weights]
              Example.empty_world
              (snd (Batched.main Example.arguments Example.out_paths true
                      [Example.demographics; Example.weights] Example.empty_world))
              Hnd) as [Hbatched _].
  destruct (Hbatched Hmain) as (n & cs & Hout & Htmp & Hcsv & _).
  exists n, cs. split; [exact Hout|]. split; [exact Htmp|].
  change "out.csv" with (out_csv Example.out_paths). rewrite Hcsv. reflexivity.
Defined.

(** ** The width of the table *)

Section width.
Context `{Numeric}.

Lemma merge_shape1 a d m :
  Pd.merge "SEQN" a d = Ok m -> S (Pd.shape1 m) = (Pd.shape1 a + Pd.shape1 d)%nat.
Proof.
  intros Hm. apply merge_Ok_inv in Hm as (lk & rk & _ & Hrk & _ & ->).
  unfold merged. destruct (Pd.coerce_keys lk rk) as [lkeys rkeys].
  unfold Pd.shape1 at 1. cbn [cols]. rewrite length_app, !length_map.
  unfold Pd.shape1.
  pose proof (List.filter_length (fun p : string * Series => String.eqb (fst p) "SEQN")
                (cols d)) as Hsplit.
  assert (Hone : length (List.filter (fun p : string * Series => String.eqb (fst p) "SEQN")
                           (cols d)) = 1%nat).
  { unfold Pd.select in Hrk. apply (f_equal (@length Series)) in Hrk.
    rewrite length_map in Hrk. exact Hrk. }
  rewrite Hone in Hsplit. lia.
Qed.

Lemma run_of_width (load : file -> result DataFrame) p files l store l' store' :
  width_inv l -> run_of load p files l store = (Normal l', store') -> width_inv l'.
Proof.
  intros Hinit Hrun.
  apply (run_of_ind load (fun l _ => width_inv l) p)
    with (files := files) (l := l) (store := store) (store' := store');
    [|exact Hinit|exact Hrun].
  intros f l0 store0 l1 store1 HP Hs. apply step_of_Normal in Hs.
  destruct (load f) as [df|e].
  - destruct Hs as (m & Hm & _ & -> & _).
    unfold width_inv in *. cbn [accumulator report_rows].
    unfold merged_with in Hm. unfold reloaded, Pd.shape1 at 1. cbn [cols].
    fold (Pd.shape1 m).
    rewrite length_app, map_app, list_sum_app. cbn [length map rr_cols].
    change (list_sum [Pd.shape1 df]) with (Pd.shape1 df + 0)%nat.
    destruct (accumulator l0) as [a|].
    + apply merge_shape1 in Hm. rewrite shape1_ready in Hm. lia.
    + injection Hm as <-. rewrite HP, shape1_ready. cbn. lia.
  - destruct Hs as [-> _]. exact HP.
Qed.

End width.

(** X11: the columns of the table are the key and, for every component of
    the report, its columns but the key: after a loop that started empty and
    completed, the number of columns of the accumulator plus the number of
    rows of the report is one more than the sum of the column counts the
    report records. *)
Theorem table_width_matches_report `{Sorter}
        (p : paths) (total i : nat) (files : list file) (w w' : world) (l' : locals)
        (acc : DataFrame) :
  accumulator l' = Some acc ->
  (Batched.loop p total i files (mkLocals None []) w = (Normal l', w') ->
   (Pd.shape1 acc + length (report_rows l')
    = 1 + list_sum (map rr_cols (report_rows l')))%nat
   /\ report_rows l' = report_of Batched.read_any files)
  /\ (Files.loop p total i files (mkLocals None []) w = (Normal l', w') ->
      (Pd.shape1 acc + length (report_rows l')
       = 1 + list_sum (map rr_cols (report_rows l')))%nat
      /\ report_rows l' = report_of loaded files).
Proof.
  intros Hacc. split; intros Hloop.
  - destruct (Batched_loop_run p total i files (mkLocals None []) w) as [out Hrun].
    rewrite Hrun in Hloop. injection Hloop as Hfst _.
    assert (Hr : run_of Batched.read_any p files (mkLocals None []) (fs w)
                 = (Normal l', snd (run_of Batched.read_any p files (mkLocals None []) (fs w))))
      by (rewrite <- Hfst; apply surjective_pairing).
    split; [|exact (run_of_report _ _ _ _ _ _ _ Hr)].
    assert (Hw : width_inv l') by (eapply run_of_width; [|exact Hr]; reflexivity).
    unfold width_inv in Hw. rewrite Hacc in Hw. exact Hw.
  - destruct (Files_loop_run p total i files (mkLocals None []) w) as [out Hrun].
    rewrite Hrun in Hloop. injection Hloop as Hfst _.
    assert (Hr : run_of loaded p files (mkLocals None []) (fs w)
                 = (Normal l', snd (run_of loaded p files (mkLocals None []) (fs w))))
      by (rewrite <- Hfst; apply surjective_pairing).
    split; [|exact (run_of_report _ _ _ _ _ _ _ Hr)].
    assert (Hw : width_inv l') by (eapply run_of_width; [|exact Hr]; reflexivity).
    unfold width_inv in Hw. rewrite Hacc in Hw. exact Hw.
Qed.

Lemma table_width_matches_report_witness :
  let files := [Example.demographics; Example.labs; Example.weights] in
  let ended := Batched.loop Example.out_paths 3 1 files (mkLocals None [])
                 Example.empty_world in
  exists l' acc,
    ended = (Normal l', snd ended)
    /\ accumulator l' = Some acc
    /\ Pd.shape1 acc = 3%nat
    /\ map rr_cols (report_rows l') = [2%nat; 2%nat].
Proof.
  cbv zeta.
  set (ended := Batched.loop Example.out_paths 3 1
                  [Example.demographics; Example.labs; Example.weights]
                  (mkLocals None []) Example.empty_world).
  set (l' := match fst ended with Normal l => l | _ => mkLocals None [] end).
  set (acc := match accumulator l' with Some a => a | None => mkDataFrame [] [] end).
  assert (Hloop : ended = (Normal l', snd ended)) by (vm_compute; reflexivity).
  assert (Hacc : accumulator l' = Some acc) by (vm_compute; reflexivity).
  exists l', acc. split; [exact Hloop|]. split; [exact Hacc|].
  destruct (table_width_matches_report Example.out_paths 3 1
              [Example.demographics; Example.labs; Example.weights]
              Example.empty_world (snd ended) l' acc Hacc) as [Hbatched _].
  destruct (Hbatched Hloop) as [Hwidth Hrows].
  assert (Hcols : map rr_cols (report_rows l') = [2%nat; 2%nat])
    by (rewrite Hrows; vm_compute; reflexivity).
  split; [|exact Hcols].
  rewrite <- (length_map rr_cols), Hcols in Hwidth. cbn in Hwidth. lia.
Defined.

(** ** The two scripts on files that are not medication files *)

Section agree.
Context `{Sorter}.

Lemma plain_file_loaded f : plain_file f -> loaded f = Batched.read_any f.
Proof.
  unfold plain_file, loaded. rewrite Batched_read_any_eq.
  destruct (cleaned f) as [c|e]; [|reflexivity]. cbn [rbind]. intros ->. reflexivity.
Qed.

Lemma plain_file_prints f : plain_file f -> loader_prints f = [].
Proof.
  unfold plain_file, loader_prints.
  destruct (cleaned f) as [c|e]; [|reflexivity]. intros ->. reflexivity.
Qed.

Lemma plain_file_read f w :
  plain_file f -> Files.read_any f w = lift (Batched.read_any f) w.
Proof.
  intros Hp. rewrite Files_read_any_eq, (plain_file_prints f Hp), (plain_file_loaded f Hp).
  rewrite app_nil_r. destruct w as [store out]. cbn [fs stdout].
  destruct (Batched.read_any f); reflexivity.
Qed.

Lemma body_with_ext (read1 read2 : file -> M DataFrame) p total i f l w :
  (forall w1, read1 f w1 = read2 f w1) ->
  body_with read1 p total i f l w = body_with read2 p total i f l w.
Proof.
  intros Hread. unfold body_with.
  assert (Hbind : forall (A B : Type) (m : M A) (k1 k2 : A -> M B) w0,
             (forall x w1, k1 x w1 = k2 x w1) -> bind m k1 w0 = bind m k2 w0).
  { intros A B m k1 k2 w0 Hk. unfold bind. destruct (m w0) as [[x|e|arg] w1]; auto. }
  apply Hbind. intros _ w1. unfold try_except. rewrite Hread. reflexivity.
Qed.

Lemma plain_loop p total files :
  Forall plain_file files ->
  forall i l w, Batched.loop p total i files l w = Files.loop p total i files l w.
Proof.
  induction 1 as [|f rest Hf Hrest IH]; intros i l w; [reflexivity|].
  cbn [Batched.loop Files.loop]. unfold bind.
  assert (Hbody : Batched.loop_body p total i f l w = Files.loop_body p total i f l w).
  { rewrite Batched_loop_body_eq, Files_loop_body_eq. apply body_with_ext.
    intros w1. symmetry. apply plain_file_read. exact Hf. }
  rewrite Hbody. destruct (Files.loop_body p total i f l w) as [[l1|e|arg] w1];
    [apply IH | reflexivity..].
Qed.

End agree.

(** X12: on files that do not take the medication path the two scripts
    load the same components, and their merge loops, started in the same
    state, end in the same way with the same accumulator, the same report,
    the same files and the same printed lines. *)
Theorem scripts_agree_on_plain_files `{Sorter} (globbed : list file) :
  Forall plain_file globbed ->
  (forall f, In f globbed -> loaded f = Batched.read_any f)
  /\ (forall p total i l w,
        Batched.loop p total i globbed l w = Files.loop p total i globbed l w).
Proof.
  intros Hplain. split.
  - intros f Hf. apply plain_file_loaded.
    rewrite List.Forall_forall in Hplain. exact (Hplain f Hf).
  - intros p total i l w. apply plain_loop. exact Hplain.
Qed.

Lemma scripts_agree_on_plain_files_witness :
  let files := [Example.demographics; Example.labs; Example.weights] in
  Forall plain_file files
  /\ Batched.loop Example.out_paths 3 1 files (mkLocals None []) Example.empty_world
     = Files.loop Example.out_paths 3 1 files (mkLocals None []) Example.empty_world.
Proof.
  cbv zeta.
  assert (Hplain : Forall plain_file
                     [Example.demographics; Example.labs; Example.weights]).
  { repeat (constructor; [vm_compute; first [reflexivity | exact I]|]). constructor. }
  split; [exact Hplain|].
  apply (scripts_agree_on_plain_files _ Hplain).
Defined.

(** ** The optimizer against its input *)

Section optimizer_input.
Context `{Numeric}.

Lemma astype_category_cells s :
  Forall2 (fun o n => n = o \/ (notna o = true /\ Pd.py_eq n o = true))
          (svalues s) (svalues (Pd.astype_category s)).
Proof.
  unfold Pd.astype_category. cbn [svalues].
  generalize (Pd.uniques [] (List.filter notna (svalues s))). intros categories.
  induction (svalues s) as [|v vs IH]; [constructor|].
  cbn [map]. constructor; [|exact IH].
  destruct (isna v) eqn:Ena; [left; reflexivity|].
  destruct (find (fun u => Pd.py_eq u v) categories) as [u|] eqn:Efind;
    [|left; reflexivity].
  apply find_some in Efind as [_ Heq]. right. unfold notna. rewrite Ena. auto.
Qed.

Lemma optimize_column_kept p : column_kept p (optimize_column p).
Proof.
  destruct p as [c [d vs]]. unfold column_kept, optimize_column.
  cbn [fst snd sdtype svalues].
  destruct (String.eqb c "SEQN");
    [cbn [fst snd sdtype svalues]; repeat split; auto; lia|].
  destruct (is_float_dtype d) eqn:Ef.
  { destruct d; try discriminate Ef.
    - rewrite downcast_float32_id. cbn [fst snd sdtype svalues].
      repeat split; auto; lia.
    - rewrite downcast_float64_cases.
      destruct (Pd.all_close (map Pd.cast32 vs) vs) eqn:E; cbn [fst snd sdtype svalues].
      + rewrite length_map. split; [reflexivity|]. split; [reflexivity|].
        split; [cbn; lia|]. split; [reflexivity|]. split; [reflexivity|].
        right. left. auto.
      + repeat split; auto; lia. }
  destruct (is_integer_dtype d) eqn:Ei.
  { unfold Pd.to_numeric_downcast_integer. rewrite downcast_loop_width by reflexivity.
    cbn [fst snd sdtype svalues].
    destruct (loop_width_idem (forallb (Pd.int_fits Int8) vs)
                (forallb (Pd.int_fits Int16) vs) (forallb (Pd.int_fits Int32) vs)
                (forallb (Pd.int_fits Int64) vs) (length vs =? 0)%nat d Ei)
      as (_ & Hint & Hle).
    unfold fits_of. cbv zeta in Hint, Hle. rewrite Hint.
    split; [reflexivity|]. split; [reflexivity|]. split; [apply Z.leb_le; exact Hle|].
    split; [reflexivity|]. split; [|left; reflexivity].
    destruct (loop_width _ _ _ d); try discriminate Hint; reflexivity. }
  destruct (is_object_dtype d) eqn:Eo.
  { destruct d; try discriminate Eo.
    destruct ((Pd.nunique _ <=? max_cat)%nat && _);
      [|cbn [fst snd sdtype svalues]; repeat split; auto; lia].
    cbn [fst snd]. split; [reflexivity|].
    split; [cbn [Pd.astype_category svalues]; apply length_map|].
    split; [cbn; lia|]. split; [reflexivity|]. split; [reflexivity|].
    right. right. split; [reflexivity|]. split; [reflexivity|].
    apply (astype_category_cells (mkSeries Object vs)). }
  cbn [fst snd sdtype svalues]. rewrite Ef, Ei. repeat split; auto; lia.
Qed.

Lemma cast32_text vs : Forall text_or_na vs -> map Pd.cast32 vs = vs.
Proof.
  induction 1 as [|v vs Hv _ IH]; [reflexivity|]. cbn [map]. rewrite IH. f_equal.
  destruct Hv as [Hv|Hv]; destruct v; try discriminate Hv; reflexivity.
Qed.

Lemma py_eq_text n o :
  text_or_na o -> n = o \/ (notna o = true /\ Pd.py_eq n o = true) -> n = o.
Proof.
  intros Ho [Heq|[Hna Heq]]; [exact Heq|].
  destruct Ho as [Ho|Ho]; destruct o; try discriminate Ho; try discriminate Hna.
  destruct n; try discriminate Heq. cbn in Heq. apply String.eqb_eq in Heq.
  congruence.
Qed.

(** A column of text keeps its cells, whatever the optimizer does to it. *)
Lemma optimize_column_text p :
  Forall text_or_na (svalues (snd p)) ->
  svalues (snd (optimize_column p)) = svalues (snd p).
Proof.
  intros Htext.
  destruct (optimize_column_kept p) as (_ & _ & _ & _ & _ & [Hsame|[Hfloat|Hcat]]).
  - exact Hsame.
  - destruct Hfloat as (_ & _ & -> & _). apply cast32_text. exact Htext.
  - destruct Hcat as (_ & _ & Hcells). revert Htext Hcells.
    generalize (svalues (snd (optimize_column p))). 
    induction (svalues (snd p)) as [|o olds IH]; intros news Htext Hcells;
      inversion Hcells as [|? n ? news' Hon Hrest]; subst; [reflexivity|].
    apply Forall_cons_iff in Htext as [Ho Htext].
    rewrite (py_eq_text n o Ho Hon), (IH news' Htext Hrest). reflexivity.
Qed.

End optimizer_input.

(** X13: the optimizer keeps the table.  The row labels, the column
    labels and the number of cells of every column are those of the input;
    no column is wider than before; an integer column stays an integer
    column and a float column a float column.  The cells are the cells of
    the input, except in a [float64] column narrowed to [float32], whose
    cells are the narrowed cells and passed the closeness test, and in an
    object column turned into a category, where a cell that is present is
    kept or replaced by a cell that Python holds equal to it ([True] by [1]).
    A column of text and missing cells keeps its cells in every case. *)
Theorem optimizer_keeps_the_cells `{Numeric} (df : DataFrame) :
  index (optimize_dtypes df) = index df
  /\ wf_frame (optimize_dtypes df) = wf_frame df
  /\ Forall2 (fun old new =>
       fst new = fst old
       /\ length (svalues (snd new)) = length (svalues (snd old))
       /\ (itemsize (sdtype (snd new)) <= itemsize (sdtype (snd old)))%Z
       /\ is_integer_dtype (sdtype (snd new)) = is_integer_dtype (sdtype (snd old))
       /\ is_float_dtype (sdtype (snd new)) = is_float_dtype (sdtype (snd old))
       /\ (svalues (snd new) = svalues (snd old)
           \/ (sdtype (snd old) = Float64 /\ sdtype (snd new) = Float32
               /\ svalues (snd new) = map Pd.cast32 (svalues (snd old))
               /\ Pd.all_close (map Pd.cast32 (svalues (snd old))) (svalues (snd old))
                  = true)
           \/ (sdtype (snd old) = Object /\ sdtype (snd new) = Category
               /\ Forall2 (fun o n => n = o \/ (notna o = true /\ Pd.py_eq n o = true))
                          (svalues (snd old)) (svalues (snd new))))
       /\ (Forall (fun v => isna v = true \/ Pd.is_str v = true) (svalues (snd old)) ->
           svalues (snd new) = svalues (snd old)))
       (cols df) (cols (optimize_dtypes df)).
Proof.
  split; [reflexivity|]. split; [apply wf_optimize|].
  unfold optimize_dtypes. cbn [cols].
  induction (cols df) as [|p cs IH]; [constructor|].
  cbn [map]. constructor; [|exact IH].
  pose proof (optimize_column_kept p) as (H1 & H2 & H3 & H4 & H5 & H6).
  repeat (split; [assumption|]). exact (optimize_column_text p).
Qed.

(** *** The integer width *)

Lemma loop_width_narrowest b8 b16 b32 b64 d t :
  is_integer_dtype d = true -> is_integer_dtype t = true ->
  (d = Int8 -> b8 = true) -> (d = Int16 -> b16 = true) ->
  (d = Int32 -> b32 = true) -> (d = Int64 -> b64 = true) ->
  let r := loop_width (fits_table b8 b16 b32 b64) false [Int8; Int16; Int32; Int64] d in
  fits_table b8 b16 b32 b64 r = true
  /\ ((itemsize t <? itemsize r)%Z = true -> fits_table b8 b16 b32 b64 t = false).
Proof.
  intros Hd Ht H8 H16 H32 H64.
  destruct d; try discriminate Hd;
    try (rewrite (H8 eq_refl) in * ); try (rewrite (H16 eq_refl) in * );
    try (rewrite (H32 eq_refl) in * ); try (rewrite (H64 eq_refl) in * );
    clear H8 H16 H32 H64;
    destruct t; try discriminate Ht;
    repeat match goal with b : bool |- _ => destruct b end;
    vm_compute; split; auto; discriminate.
Qed.

(** X14: the integer downcast chooses the narrowest width that holds
    every cell.  On an integer column whose cells fit its type the cells are
    kept and the type is an integer type; an empty column becomes [int8];
    otherwise every cell fits the new type and no narrower integer type
    holds them all. *)
Theorem integer_downcast_is_narrowest (s : Series) :
  is_integer_dtype (sdtype s) = true ->
  forallb (Pd.int_fits (sdtype s)) (svalues s) = true ->
  svalues (Pd.to_numeric_downcast_integer s) = svalues s
  /\ is_integer_dtype (sdtype (Pd.to_numeric_downcast_integer s)) = true
  /\ (svalues s = [] -> sdtype (Pd.to_numeric_downcast_integer s) = Int8)
  /\ (svalues s <> [] ->
      forallb (Pd.int_fits (sdtype (Pd.to_numeric_downcast_integer s))) (svalues s) = true
      /\ forall t, is_integer_dtype t = true ->
           (itemsize t < itemsize (sdtype (Pd.to_numeric_downcast_integer s)))%Z ->
           forallb (Pd.int_fits t) (svalues s) = false).
Proof.
  destruct s as [d vs]. cbn [sdtype svalues]. intros Hd Hfits.
  unfold Pd.to_numeric_downcast_integer. rewrite downcast_loop_width by reflexivity.
  cbn [sdtype svalues].
  destruct (loop_width_idem (forallb (Pd.int_fits Int8) vs)
              (forallb (Pd.int_fits Int16) vs) (forallb (Pd.int_fits Int32) vs)
              (forallb (Pd.int_fits Int64) vs) (length vs =? 0)%nat d Hd)
    as (_ & Hint & _).
  split; [reflexivity|]. split; [exact Hint|]. split.
  - intros ->. destruct d; try discriminate Hd; reflexivity.
  - intros Hne.
    assert (Hlen : (length vs =? 0)%nat = false)
      by (destruct vs; [contradiction Hne; reflexivity | reflexivity]).
    rewrite Hlen. unfold fits_of.
    assert (Hfit : forall t, is_integer_dtype t = true ->
               fits_table (forallb (Pd.int_fits Int8) vs) (forallb (Pd.int_fits Int16) vs)
                 (forallb (Pd.int_fits Int32) vs) (forallb (Pd.int_fits Int64) vs) t
               = forallb (Pd.int_fits t) vs)
      by (intros t Ht; destruct t; try discriminate Ht; reflexivity).
    split.
    + rewrite <- Hfit.
      * apply (loop_width_narrowest _ _ _ _ d Int8 Hd eq_refl);
          intros ->; exact Hfits.
      * rewrite Hlen in Hint. exact Hint.
    + intros t Ht Hlt. rewrite <- (Hfit t Ht).
      apply (loop_width_narrowest _ _ _ _ d t Hd Ht);
        try (intros ->; exact Hfits).
      apply Z.ltb_lt. exact Hlt.
Qed.

Lemma integer_downcast_is_narrowest_witness :
  is_integer_dtype Int64 = true
  /\ sdtype (Pd.to_numeric_downcast_integer (mkSeries Int64 [VInt 1; VInt 300])) = Int16
  /\ forallb (Pd.int_fits Int8) [VInt 1; VInt 300] = false.
Proof.
  split; [reflexivity|]. split; [reflexivity|].
  destruct (integer_downcast_is_narrowest (mkSeries Int64 [VInt 1; VInt 300])
              eq_refl eq_refl) as (_ & _ & _ & Hn).
  destruct (Hn ltac:(discriminate)) as [_ Hmin].
  apply (Hmin Int8 eq_refl). reflexivity.
Defined.

(** ** One merge step, column by column *)



Section merged_columns.
Context `{Numeric}.



End merged_columns.

Section merge_steps.
Context `{Sorter}.



End merge_steps.









(** ** The labels of a loaded component *)

Lemma isspace_upper_char c : Py.isspace (Py.upper_char c) = Py.isspace c.
Proof. destruct c as [[] [] [] [] [] [] [] []]; reflexivity. Qed.

Lemma upper_char_idem c : Py.upper_char (Py.upper_char c) = Py.upper_char c.
Proof. destruct c as [[] [] [] [] [] [] [] []]; reflexivity. Qed.

Lemma upper_idem s : Py.upper (Py.upper s) = Py.upper s.
Proof.
  unfold Py.upper. induction s as [|c s IH]; [reflexivity|].
  cbn [Py.map_chars]. rewrite upper_char_idem, IH. reflexivity.
Qed.

Lemma lstrip_upper s : Py.lstrip (Py.upper s) = Py.upper (Py.lstrip s).
Proof.
  unfold Py.upper. induction s as [|c s IH]; [reflexivity|].
  cbn [Py.map_chars Py.lstrip]. rewrite isspace_upper_char.
  destruct (Py.isspace c); [exact IH | reflexivity].
Qed.

Lemma rstrip_upper s : Py.rstrip (Py.upper s) = Py.upper (Py.rstrip s).
Proof.
  unfold Py.upper. induction s as [|c s IH]; [reflexivity|].
  cbn [Py.map_chars Py.rstrip]. rewrite IH, isspace_upper_char.
  destruct (Py.rstrip s) as [|d r]; cbn [Py.map_chars];
    [destruct (Py.isspace c); reflexivity | reflexivity].
Qed.

Lemma rstrip_idem s : Py.rstrip (Py.rstrip s) = Py.rstrip s.
Proof.
  induction s as [|c s IH]; [reflexivity|]. cbn [Py.rstrip].
  destruct (Py.rstrip s) as [|d r] eqn:E.
  - destruct (Py.isspace c) eqn:Ec; [reflexivity|]. cbn [Py.rstrip]. rewrite Ec.
    reflexivity.
  - cbn [Py.rstrip] in IH |- *. rewrite IH. reflexivity.
Qed.

Lemma lstrip_no_lead s : no_lead (Py.lstrip s).
Proof.
  induction s as [|c s IH]; [exact I|]. cbn [Py.lstrip].
  destruct (Py.isspace c) eqn:E; [exact IH | exact E].
Qed.

Lemma rstrip_no_lead s : no_lead s -> no_lead (Py.rstrip s).
Proof.
  destruct s as [|c s]; [auto|]. cbn [no_lead Py.rstrip]. intros Hc.
  destruct (Py.rstrip s); [rewrite Hc|]; exact Hc.
Qed.

Lemma lstrip_fixed_no_lead s : no_lead s -> Py.lstrip s = s.
Proof.
  destruct s as [|c s]; [reflexivity|]. cbn [no_lead Py.lstrip]. intros ->.
  reflexivity.
Qed.

Lemma strip_idem s : Py.strip (Py.strip s) = Py.strip s.
Proof.
  unfold Py.strip.
  rewrite (lstrip_fixed_no_lead (Py.rstrip (Py.lstrip s)))
    by (apply rstrip_no_lead, lstrip_no_lead).
  apply rstrip_idem.
Qed.

Lemma normalised_idem c : normalised (normalised c) = normalised c.
Proof.
  unfold normalised, Py.strip.
  rewrite lstrip_upper, rstrip_upper, upper_idem.
  fold (Py.strip (Py.rstrip (Py.lstrip c))). fold (Py.strip c).
  rewrite strip_idem. reflexivity.
Qed.

Lemma cleaned_columns path c :
  cleaned path = Ok c ->
  exists raw, payload path = Ok raw
              /\ incl (Pd.columns c) (map normalised (Pd.columns raw)).
Proof.
  unfold cleaned. intros Hc.
  destruct (read_by_extension path) as [raw|e] eqn:Eraw; [|discriminate Hc].
  cbn [rbind] in Hc. exists raw. split; [apply read_by_extension_Ok; exact Eraw|].
  destruct (negb (Pd.has_column "SEQN" _)); [discriminate Hc|].
  destruct (empty_columns _) as [names|e]; [|discriminate Hc].
  cbn [rbind] in Hc. injection Hc as <-.
  assert (Hall : Pd.columns (Pd.map_columns (fun c => Py.upper (Py.strip c)) raw)
                 = map normalised (Pd.columns raw)).
  { unfold Pd.columns, Pd.map_columns. cbn [cols]. rewrite !map_map. reflexivity. }
  destruct names as [|n names]; [rewrite Hall; apply incl_refl|].
  rewrite <- Hall. unfold Pd.columns, Pd.drop. cbn [cols]. intros l Hl.
  apply in_map_iff in Hl as (q & <- & Hq). apply filter_In in Hq as [Hq _].
  apply in_map. exact Hq.
Qed.

Lemma groupby_join_columns `{Numeric} key c sep df out :
  Pd.groupby_join key c sep df = Ok out -> Pd.columns out = [key; c].
Proof.
  unfold Pd.groupby_join. intros Hout.
  destruct (Pd.select key df) as [|ks [|? ?]];
    destruct (Pd.select c df) as [|vs [|? ?]]; try discriminate Hout.
  injection Hout as <-. reflexivity.
Qed.

Lemma has_column_In c df : Pd.has_column c df = true <-> In c (Pd.columns df).
Proof.
  unfold Pd.has_column. rewrite existsb_exists. split.
  - intros (x & Hx & Heq). apply String.eqb_eq in Heq. subst x. exact Hx.
  - intros Hin. exists c. split; [exact Hin | apply String.eqb_refl].
Qed.

(** X17: the labels of a loaded component are normalised labels of the
    file: each is the stripped, upper-cased form of a label the reader
    returned, so it has no surrounding whitespace and no lower-case letter,
    and [SEQN] is among them. *)
Theorem loaded_labels_are_normalised `{Sorter} (f : file) (df : DataFrame) :
  Batched.read_any f = Ok df \/ loaded f = Ok df ->
  exists raw,
    payload f = Ok raw
    /\ In "SEQN" (Pd.columns df)
    /\ Forall (fun c => In c (map (fun c0 => Py.upper (Py.strip c0)) (Pd.columns raw))
                        /\ Py.upper (Py.strip c) = c)
              (Pd.columns df).
Proof.
  intros Hload.
  assert (Hgen : exists c, cleaned f = Ok c
                           /\ In "SEQN" (Pd.columns df)
                           /\ incl (Pd.columns df) (Pd.columns c)).
  { destruct Hload as [Hload|Hload].
    - rewrite Batched_read_any_eq in Hload.
      destruct (cleaned f) as [c|e] eqn:Hc; [|discriminate Hload]. cbn [rbind] in Hload.
      exists c. split; [reflexivity|].
      pose proof Hc as Hc'. apply cleaned_Ok in Hc' as (_ & _ & _ & _ & Hhas & _).
      apply resolve_duplicates_Ok in Hload as (_ & Hcols & _).
      rewrite Hcols. split; [apply has_column_In; exact Hhas | apply incl_refl].
    - unfold loaded in Hload.
      destruct (cleaned f) as [c|e] eqn:Hc; [|discriminate Hload]. cbn [rbind] in Hload.
      exists c. split; [reflexivity|].
      pose proof Hc as Hc'. apply cleaned_Ok in Hc' as (_ & _ & _ & _ & Hhas & _).
      destruct (takes_medication_path f c) eqn:Emeds.
      + unfold aggregate_medications in Hload. apply groupby_join_columns in Hload.
        rewrite Hload. split; [left; reflexivity|].
        unfold takes_medication_path in Emeds. apply andb_prop in Emeds as [_ Hrx].
        intros l [<-|[<-|[]]]; apply has_column_In; assumption.
      + apply resolve_duplicates_Ok in Hload as (_ & Hcols & _).
        rewrite Hcols. split; [apply has_column_In; exact Hhas | apply incl_refl]. }
  destruct Hgen as (c & Hc & Hkey & Hincl).
  apply cleaned_columns in Hc as (raw & Hraw & Hcl). exists raw.
  split; [exact Hraw|]. split; [exact Hkey|].
  apply List.Forall_forall. intros l Hl.
  specialize (Hcl l (Hincl l Hl)). split; [exact Hcl|].
  apply in_map_iff in Hcl as (c0 & <- & _). apply normalised_idem.
Qed.

Lemma loaded_labels_are_normalised_witness :
  exists df raw,
    Batched.read_any Example.demographics = Ok df
    /\ payload Example.demographics = Ok raw
    /\ Pd.columns raw = ["seqn "; "Age"; "notes"]
    /\ Pd.columns df = ["SEQN"; "AGE"]
    /\ Forall (fun c => Py.upper (Py.strip c) = c) (Pd.columns df).
Proof.
  set (df := match Batched.read_any Example.demographics with
             | Ok d => d
             | Raise _ => Samples.table
             end).
  assert (Hload : Batched.read_any Example.demographics = Ok df)
    by (vm_compute; reflexivity).
  destruct (loaded_labels_are_normalised Example.demographics df (or_introl Hload))
    as (raw & Hraw & _ & Hall).
  exists df, raw. split; [exact Hload|]. split; [exact Hraw|].
  split; [cbn in Hraw; injection Hraw as <-; reflexivity|].
  split; [vm_compute; reflexivity|].
  eapply Forall_impl; [exact Hall|]. intros c [_ Hc]. exact Hc.
Defined.

(** ** Edge cases of the loader *)

Lemma supported_read f : supported f -> read_by_extension f = payload f.
Proof.
  unfold supported, read_by_extension. intros [<-|[<-|[<-|[]]]]; reflexivity.
Qed.

Lemma unsupported_read f :
  ~ supported f ->
  read_by_extension f
  = Raise (ValueError ("Unsupported file type: " +:+ Py.lower (Py.path_suffix (fname f)))).
Proof.
  unfold supported, read_by_extension. intros Hno.
  destruct (String.eqb _ ".csv") eqn:E1;
    [apply String.eqb_eq in E1; contradiction Hno; left; auto|].
  destruct (String.eqb _ ".xlsx") eqn:E2;
    [apply String.eqb_eq in E2; contradiction Hno; right; left; auto|].
  destruct (String.eqb _ ".xls") eqn:E3;
    [apply String.eqb_eq in E3; contradiction Hno; right; right; left; auto|].
  reflexivity.
Qed.

Lemma empty_columns_of_raises df cs c :
  In c cs -> c <> "SEQN" -> (1 < length (Pd.select c df))%nat ->
  empty_columns_of df cs
  = Raise (ValueError ("The truth value of a Series is ambiguous. "
                         +:+ "Use a.empty, a.bool(), a.item(), a.any() or a.all().")).
Proof.
  intros Hin Hc Hlen. induction cs as [|c0 cs IH]; [destruct Hin|].
  cbn [empty_columns_of].
  destruct (String.eqb c0 "SEQN") eqn:E; cbn [negb].
  - destruct Hin as [->|Hin]; [apply String.eqb_eq in E; contradiction|]. exact (IH Hin).
  - destruct (decide (c0 = c)) as [->|Hne].
    + destruct (Pd.select c df) as [|s [|s' rest]]; cbn in Hlen; try lia; reflexivity.
    + destruct Hin as [->|Hin]; [contradiction Hne; reflexivity|].
      rewrite (IH Hin). destruct (Pd.select c0 df) as [|s [|s' rest]]; reflexivity.
Qed.

Lemma select_map_columns c g raw :
  Pd.select c (Pd.map_columns g raw)
  = map snd (List.filter (fun p => String.eqb (g (fst p)) c) (cols raw)).
Proof.
  unfold Pd.select, Pd.map_columns. cbn [cols].
  induction (cols raw) as [|p cs IH]; [reflexivity|].
  cbn [map List.filter fst]. destruct (String.eqb (g (fst p)) c); cbn [map snd];
    rewrite IH; reflexivity.
Qed.

(** X18: two columns whose labels normalise to the same label, other than
    the key, fail the load: [read_any] of either script raises a
    [ValueError], so the loop skips the file. *)
Theorem clashing_labels_fail_the_load `{Sorter} (f : file) (raw : DataFrame) (c : string) :
  supported f -> payload f = Ok raw -> c <> "SEQN" ->
  (1 < length (List.filter (fun c0 => String.eqb (Py.upper (Py.strip c0)) c)
                 (Pd.columns raw)))%nat ->
  exists msg,
    Batched.read_any f = Raise (ValueError msg)
    /\ loaded f = Raise (ValueError msg)
    /\ forall w, fst (Files.read_any f w) = Exn (ValueError msg).
Proof.
  intros Hsup Hraw Hc Hlen.
  assert (Hcl : exists msg, cleaned f = Raise (ValueError msg)).
  { unfold cleaned. rewrite (supported_read f Hsup), Hraw. cbn [rbind].
    destruct (negb (Pd.has_column "SEQN" _)); [eexists; reflexivity|].
    exists ("The truth value of a Series is ambiguous. "
              +:+ "Use a.empty, a.bool(), a.item(), a.any() or a.all().").
    unfold empty_columns. rewrite (empty_columns_of_raises _ _ c); [reflexivity| |exact Hc|].
    - unfold Pd.columns, Pd.map_columns. cbn [cols]. rewrite map_map. cbn [fst].
      destruct (List.filter _ (Pd.columns raw)) as [|c0 rest] eqn:Ef; [cbn in Hlen; lia|].
      assert (Hc0 : In c0 (List.filter (fun c0 => String.eqb (Py.upper (Py.strip c0)) c)
                              (Pd.columns raw))) by (rewrite Ef; left; reflexivity).
      apply filter_In in Hc0 as [Hin Heq]. apply String.eqb_eq in Heq. subst c.
      unfold Pd.columns in Hin. apply in_map_iff in Hin as (q & <- & Hq).
      apply in_map_iff. exists q. auto.
    - rewrite select_map_columns, length_map.
      unfold Pd.columns in Hlen.
      assert (Hfm : forall cs : list (string * Series),
                 length (List.filter (fun c0 => String.eqb (Py.upper (Py.strip c0)) c)
                           (map fst cs))
                 = length (List.filter
                             (fun p => String.eqb (Py.upper (Py.strip (fst p))) c) cs)).
      { induction cs as [|q cs IH]; [reflexivity|]. cbn [map List.filter].
        destruct (String.eqb _ c); cbn [length]; rewrite IH; reflexivity. }
      rewrite Hfm in Hlen. exact Hlen. }
  destruct Hcl as (msg & Hcl). exists msg.
  split; [rewrite Batched_read_any_eq, Hcl; reflexivity|].
  assert (Hl : loaded f = Raise (ValueError msg)) by (unfold loaded; rewrite Hcl; reflexivity).
  split; [exact Hl|]. intros w. rewrite Files_read_any_eq, Hl. reflexivity.
Qed.

Lemma clashing_labels_fail_the_load_witness :
  supported Samples.clashing
  /\ exists raw msg,
      payload Samples.clashing = Ok raw
      /\ List.filter (fun c0 => String.eqb (Py.upper (Py.strip c0)) "PULSE")
           (Pd.columns raw) = ["Pulse"; " PULSE"]
      /\ Batched.read_any Samples.clashing = Raise (ValueError msg).
Proof.
  assert (Hsup : supported Samples.clashing) by (left; reflexivity).
  split; [exact Hsup|].
  destruct (clashing_labels_fail_the_load Samples.clashing
              (mkDataFrame [0; 1]
                 [ ("SEQN", mkSeries Int64 [VInt 1; VInt 2]);
                   ("Pulse", mkSeries Int64 [VInt 60; VInt 70]);
                   (" PULSE", mkSeries Int64 [VInt 61; VInt 71]) ])
              "PULSE" Hsup eq_refl ltac:(discriminate) ltac:(vm_compute; lia))
    as (msg & Hbatched & _).
  eexists _, msg. split; [reflexivity|]. split; [reflexivity | exact Hbatched].
Defined.

(** X19: what [read_any] raises on a file it cannot use.  An extension
    other than [.csv], [.xlsx] and [.xls], in any case, raises [Unsupported
    file type] without the file being read; an error of the reader is
    passed on; a file none of whose labels normalises to [SEQN] raises [No
    SEQN column found].  [read_any] of [merge_nhanes_files.py] prints
    nothing in these cases. *)
Theorem unusable_files_raise `{Sorter} (f : file) :
  (~ supported f ->
   let e := ValueError ("Unsupported file type: "
                          +:+ Py.lower (Py.path_suffix (fname f))) in
   Batched.read_any f = Raise e
   /\ forall w, Files.read_any f w = (Exn e, w))
  /\ (forall e, supported f -> payload f = Raise e ->
        Batched.read_any f = Raise e
        /\ forall w, Files.read_any f w = (Exn e, w))
  /\ (forall raw, supported f -> payload f = Ok raw ->
        ~ In "SEQN" (map (fun c => Py.upper (Py.strip c)) (Pd.columns raw)) ->
        let e := ValueError (fname f +:+ ": No SEQN column found.") in
        Batched.read_any f = Raise e
        /\ forall w, Files.read_any f w = (Exn e, w)).
Proof.
  assert (Hboth : forall e, cleaned f = Raise e ->
                            Batched.read_any f = Raise e
                            /\ forall w, Files.read_any f w = (Exn e, w)).
  { intros e Hcl. split; [rewrite Batched_read_any_eq, Hcl; reflexivity|].
    intros w. rewrite Files_read_any_eq. unfold loaded, loader_prints. rewrite Hcl.
    cbn [rbind outcome_of]. rewrite app_nil_r. destruct w; reflexivity. }
  split; [|split].
  - intros Hno. apply Hboth. unfold cleaned. rewrite (unsupported_read f Hno). reflexivity.
  - intros e Hsup He. apply Hboth. unfold cleaned.
    rewrite (supported_read f Hsup), He. reflexivity.
  - intros raw Hsup Hraw Hkey. apply Hboth. unfold cleaned.
    rewrite (supported_read f Hsup), Hraw. cbn [rbind].
    assert (Pd.has_column "SEQN" (Pd.map_columns (fun c => Py.upper (Py.strip c)) raw)
            = false) as ->; [|reflexivity].
    apply not_true_is_false. intros Hhas. apply has_column_In in Hhas. apply Hkey.
    unfold Pd.columns, Pd.map_columns in Hhas. cbn [cols] in Hhas.
    rewrite map_map in Hhas. cbn [fst] in Hhas.
    unfold Pd.columns. rewrite map_map. exact Hhas.
Qed.

Lemma unusable_files_raise_witness :
  ~ supported Samples.text_file
  /\ Batched.read_any Samples.text_file
     = Raise (ValueError "Unsupported file type: .txt")
  /\ Batched.read_any Example.labs
     = Raise (ValueError "labs_clean.csv: No SEQN column found.").
Proof.
  assert (Hno : ~ supported Samples.text_file).
  { unfold supported. vm_compute. intros [H|[H|[H|[]]]]; discriminate H. }
  split; [exact Hno|].
  destruct (unusable_files_raise Samples.text_file) as (Hext & _).
  destruct (unusable_files_raise Example.labs) as (_ & _ & Hkey).
  split.
  - exact (proj1 (Hext Hno)).
  - apply (Hkey (mkDataFrame [0] [ ("ID", mkSeries Int64 [VInt 3]) ])).
    + left. reflexivity.
    + reflexivity.
    + vm_compute. intros [H|[]]. discriminate H.
Defined.

(** *** A file without rows *)

Lemma select_NoDup c df :
  NoDup (Pd.columns df) -> In c (Pd.columns df) ->
  exists s, List.filter (fun p => String.eqb (fst p) c) (cols df) = [(c, s)].
Proof.
  unfold Pd.columns. induction (cols df) as [|p cs IH]; intros Hnd Hin; [destruct Hin|].
  cbn [map] in Hnd. apply NoDup_cons in Hnd as [Hp Hnd]. cbn [List.filter].
  destruct (String.eqb (fst p) c) eqn:E.
  - apply String.eqb_eq in E. exists (snd p).
    assert (Hrest : List.filter (fun q => String.eqb (fst q) c) cs = []).
    { destruct (List.filter (fun q => String.eqb (fst q) c) cs) as [|q rest] eqn:Ef;
        [reflexivity|].
      exfalso. assert (Hq : In q (List.filter (fun q => String.eqb (fst q) c) cs))
        by (rewrite Ef; left; reflexivity).
      apply filter_In in Hq as [Hq Heq]. apply String.eqb_eq in Heq.
      apply Hp. rewrite E, <- Heq. apply list_elem_of_In. apply in_map. exact Hq. }
    rewrite Hrest. destruct p as [l s]. cbn [fst snd] in *. subst l. reflexivity.
  - destruct Hin as [Heq|Hin]; [apply String.eqb_neq in E; contradiction|].
    exact (IH Hnd Hin).
Qed.

Lemma empty_columns_of_all df cs :
  (forall c, In c cs -> c <> "SEQN" ->
             exists s, Pd.select c df = [s] /\ forallb isna (svalues s) = true) ->
  empty_columns_of df cs
  = Ok (List.filter (fun c => negb (String.eqb c "SEQN")) cs).
Proof.
  induction cs as [|c cs IH]; intros Hall; [reflexivity|].
  cbn [empty_columns_of List.filter].
  rewrite IH by (intros c' Hc'; apply Hall; right; exact Hc').
  destruct (String.eqb c "SEQN") eqn:E; cbn [negb]; [reflexivity|].
  apply String.eqb_neq in E.
  destruct (Hall c ltac:(left; reflexivity) E) as (s & -> & ->). reflexivity.
Qed.

(** X20: a file without rows keeps its key column only.  Every column of
    an empty table counts as empty, so [read_any] of either script drops
    all columns but the key and returns a table without rows. *)
Theorem empty_file_keeps_only_the_key `{Sorter} (f : file) (raw : DataFrame) :
  supported f -> payload f = Ok raw -> wf_frame raw = true -> Pd.len raw = 0%nat ->
  NoDup (map (fun c => Py.upper (Py.strip c)) (Pd.columns raw)) ->
  In "SEQN" (map (fun c => Py.upper (Py.strip c)) (Pd.columns raw)) ->
  exists d,
    Batched.read_any f = Ok (mkDataFrame [] [("SEQN", mkSeries d [])])
    /\ loaded f = Ok (mkDataFrame [] [("SEQN", mkSeries d [])]).
Proof.
  intros Hsup Hraw Hwf Hlen Hnd Hkey.
  set (df := Pd.map_columns (fun c => Py.upper (Py.strip c)) raw).
  assert (Hcols : Pd.columns df = map (fun c => Py.upper (Py.strip c)) (Pd.columns raw)).
  { unfold df, Pd.columns, Pd.map_columns. cbn [cols]. rewrite !map_map. reflexivity. }
  rewrite <- Hcols in Hnd, Hkey.
  assert (Hidx : index raw = []) by (apply length_zero_iff_nil; exact Hlen).
  assert (Hwfd : forall q, In q (cols df) -> svalues (snd q) = []).
  { intros q Hq. unfold df, Pd.map_columns in Hq. cbn [cols] in Hq.
    apply in_map_iff in Hq as (q0 & <- & Hq0). cbn [snd].
    unfold wf_frame in Hwf. rewrite forallb_forall in Hwf.
    specialize (Hwf q0 Hq0). apply Nat.eqb_eq in Hwf. rewrite Hlen in Hwf.
    apply length_zero_iff_nil. exact Hwf. }
  destruct (select_NoDup "SEQN" df Hnd Hkey) as (s & Hs).
  assert (Hsv : svalues s = []).
  { apply (Hwfd ("SEQN", s)).
    assert (Hin : In ("SEQN", s) (List.filter (fun p => String.eqb (fst p) "SEQN") (cols df)))
      by (rewrite Hs; left; reflexivity).
    apply filter_In in Hin as [Hin _]. exact Hin. }
  assert (Hempty : empty_columns df
                   = Ok (List.filter (fun c => negb (String.eqb c "SEQN")) (Pd.columns df))).
  { apply empty_columns_of_all. intros c Hc Hne.
    destruct (select_NoDup c df Hnd Hc) as (sc & Hsc).
    exists sc. unfold Pd.select. rewrite Hsc. split; [reflexivity|].
    change (svalues sc) with (svalues (snd (c, sc))).
    rewrite (Hwfd (c, sc)); [reflexivity|].
    assert (Hin : In (c, sc) (List.filter (fun p => String.eqb (fst p) c) (cols df)))
      by (rewrite Hsc; left; reflexivity).
    apply filter_In in Hin as [Hin _]. exact Hin. }
  assert (Hkeep : forall names,
             names = List.filter (fun c => negb (String.eqb c "SEQN")) (Pd.columns df) ->
             cols (match names with [] => df | _ => Pd.drop names df end)
             = [("SEQN", s)]).
  { intros names Hnames. rewrite <- Hs.
    assert (Hdrop : cols (Pd.drop names df)
                    = List.filter (fun p => String.eqb (fst p) "SEQN") (cols df)).
    { unfold Pd.drop. cbn [cols]. apply filter_ext_in. intros q Hq.
      destruct (String.eqb (fst q) "SEQN") eqn:E.
      - apply negb_true_iff. apply not_true_is_false. intros Hex.
        apply existsb_exists in Hex as (x & Hx & Heq). apply String.eqb_eq in Heq.
        subst x. rewrite Hnames in Hx. apply filter_In in Hx as [_ Hx].
        rewrite E in Hx. discriminate Hx.
      - apply negb_false_iff. apply existsb_exists. exists (fst q).
        split; [|apply String.eqb_refl]. rewrite Hnames. apply filter_In.
        split; [unfold Pd.columns; apply in_map; exact Hq | rewrite E; reflexivity]. }
    destruct names as [|n names']; [|exact Hdrop].
    symmetry. rewrite <- (List.filter_true (cols df)) at 2 by idtac.
    apply filter_ext_in. intros q Hq.
    destruct (String.eqb (fst q) "SEQN") eqn:E; [reflexivity|].
    exfalso. assert (Hin : In (fst q) []); [|destruct Hin].
    rewrite Hnames. apply filter_In.
    split; [unfold Pd.columns; apply in_map; exact Hq | rewrite E; reflexivity]. }
  set (c := mkDataFrame [] [("SEQN", s)]).
  assert (Hcl : cleaned f = Ok c).
  { unfold cleaned. rewrite (supported_read f Hsup), Hraw. cbn [rbind]. fold df.
    assert (Pd.has_column "SEQN" df = true) as -> by (apply has_column_In; exact Hkey).
    cbn [negb]. rewrite Hempty. cbn [rbind]. f_equal.
    specialize (Hkeep _ eq_refl).
    destruct (List.filter (fun c => negb (String.eqb c "SEQN")) (Pd.columns df));
      unfold c; [destruct df as [i cs] eqn:Edf | unfold Pd.drop in *]; cbn [cols] in Hkeep.
    - rewrite Hkeep. f_equal. unfold df in Edf. unfold Pd.map_columns in Edf.
      injection Edf as <- _. exact Hidx.
    - rewrite Hkeep. f_equal. exact Hidx. }
  assert (Hres : resolve_duplicates c = Ok c) by reflexivity.
  exists (sdtype s). destruct s as [d vs]. cbn [svalues sdtype] in *. subst vs.
  split; [rewrite Batched_read_any_eq, Hcl; exact Hres|].
  unfold loaded. rewrite Hcl. cbn [rbind].
  assert (takes_medication_path f c = false) as ->; [|exact Hres].
  unfold takes_medication_path. apply andb_false_r.
Qed.

Lemma empty_file_keeps_only_the_key_witness :
  supported Samples.header_only
  /\ Batched.read_any Samples.header_only
     = Ok (mkDataFrame [] [("SEQN", mkSeries Object [])])
  /\ exists d, loaded Samples.header_only = Ok (mkDataFrame [] [("SEQN", mkSeries d [])]).
Proof.
  assert (Hsup : supported Samples.header_only) by (left; reflexivity).
  split; [exact Hsup|]. split; [vm_compute; reflexivity|].
  destruct (empty_file_keeps_only_the_key Samples.header_only
              (mkDataFrame [] [ ("seqn", mkSeries Object []);
                                ("Kcal", mkSeries Object []) ])
              Hsup eq_refl eq_refl eq_refl) as (d & _ & Hloaded).
  - apply NoDup_ListNoDup. vm_compute. repeat constructor; cbn; intuition discriminate.
  - vm_compute. left. reflexivity.
  - exists d. exact Hloaded.
Defined.

(** ** The conversion script *)

Lemma append_cancel_l (s a b : string) : s +:+ a = s +:+ b -> a = b.
Proof.
  induction s as [|c s IH]; [auto|]. intros Heq.
  change (String c (s +:+ a) = String c (s +:+ b)) in Heq. injection Heq as Heq.
  exact (IH Heq).
Qed.

(** X21: the conversion script after a completed merge.  When the output
    variable names the base of the output path and [main] of
    [merge_nhanes_files.py] has completed, the script finds the table,
    writes its columns and rows to the CSV path, prints its three lines and
    leaves the table where it is. *)
Theorem parquet_to_csv_after_merge `{Sorter}
        (e : Files.env) (p : paths) (dir_exists : bool) (globbed : list file)
        (w w1 : world) (out : string) :
  Files.NHANES_OUTPUT_DIR e = Some out ->
  out_parquet p = out +:+ ".parquet" ->
  out_parquet p <> out_csv p -> out_parquet p <> out_report p ->
  out_parquet p <> tmp_parquet p ->
  Files.main e p dir_exists globbed w = (Normal tt, w1) ->
  exists n cs,
    fs w1 !! out_parquet p = Some (ParquetFile n cs)
    /\ Convert.main (Files.NHANES_OUTPUT_DIR e) w1
       = (Normal tt,
          mkWorld (<[out +:+ ".csv" := CsvFile n cs]> (fs w1))
                  (stdout w1 ++ ["Reading: " +:+ (out +:+ ".parquet") +:+ "...";
                                 String "010" "Saving to CSV: " +:+ (out +:+ ".csv")
                                   +:+ "...";
                                 "Done!"]))
    /\ (<[out +:+ ".csv" := CsvFile n cs]> (fs w1)) !! out_parquet p
       = Some (ParquetFile n cs).
Proof.
  intros Hout Hpath Hcsv Hrep Htmp Hmain.
  apply Files_main_completed in Hmain as (l & store & acc & _ & _ & Hfs).
  exists (Pd.len acc), (cols acc).
  assert (Hpq : fs w1 !! out_parquet p = Some (ParquetFile (Pd.len acc) (cols acc))).
  { rewrite Hfs. rewrite lookup_delete_ne by congruence.
    rewrite lookup_insert_ne by congruence.
    destruct (String.eqb _ "1"); unfold id;
      rewrite ?(lookup_insert_ne _ (out_csv p)) by congruence;
      apply lookup_insert_eq. }
  split; [exact Hpq|]. split.
  - unfold Convert.main. rewrite Hout. rewrite Hpath in Hpq.
    unfold bind, print, IO.read_parquet, IO.to_csv. cbn [fs stdout].
    rewrite Hpq. cbn [fs stdout cols].
    change (Pd.len {| index := Pd.range_index (Pd.len acc); cols := cols acc |})
      with (Pd.len (reloaded acc)).
    rewrite reloaded_len, <- !app_assoc. reflexivity.
  - rewrite lookup_insert_ne; [exact Hpq|]. rewrite Hpath. intros Heq.
    apply append_cancel_l in Heq. discriminate Heq.
Qed.

Lemma parquet_to_csv_after_merge_witness :
  let files := [Example.demographics; Example.weights] in
  let merged_world := snd (Files.main Example.environment Example.out_paths true files
                             Example.empty_world) in
  Files.main Example.environment Example.out_paths true files Example.empty_world
  = (Normal tt, merged_world)
  /\ exists n cs,
      fs merged_world !! "out.parquet" = Some (ParquetFile n cs)
      /\ fs (snd (Convert.main (Some "out") merged_world)) !! "out.csv"
         = Some (CsvFile n cs)
      /\ n = 3%nat.
Proof.
  cbv zeta.
  set (merged_world := snd (Files.main Example.environment Example.out_paths true
                              [Example.demographics; Example.weights]
                              Example.empty_world)).
  assert (Hmain : Files.main Example.environment Example.out_paths true
                    [Example.demographics; Example.weights] Example.empty_world
                  = (Normal tt, merged_world)) by (vm_compute; reflexivity).
  split; [exact Hmain|].
  destruct (parquet_to_csv_after_merge Example.environment Example.out_paths true
              [Example.demographics; Example.weights] Example.empty_world
              merged_world "out" eq_refl eq_refl
              ltac:(discriminate) ltac:(discriminate) ltac:(discriminate) Hmain)
    as (n & cs & Hpq & Hrun & _).
  exists n, cs. split; [exact Hpq|].
  change (Files.NHANES_OUTPUT_DIR Example.environment) with (Some "out") in Hrun.
  rewrite Hrun. cbn [snd fs]. split; [apply lookup_insert_eq|].
  change (out_parquet Example.out_paths) with "out.parquet" in Hpq.
  assert (Heq : n = match fs merged_world !! "out.parquet" with
                    | Some (ParquetFile n0 _) => n0
                    | _ => 0%nat
                    end) by (rewrite Hpq; reflexivity).
  rewrite Heq. vm_compute. reflexivity.
Defined.

(** X22: the conversion script without the merged table.  When the path it
    derives from the variable holds no file, the script ends in
    [FileNotFoundError] after its first line and writes nothing; with the
    variable unset the path it looks for is [None.parquet]. *)
Theorem parquet_to_csv_needs_the_table (output_dir : option string) (w : world) :
  fs w !! (default "None" output_dir +:+ ".parquet") = None ->
  Convert.main output_dir w
  = (Exn (FileNotFoundError (default "None" output_dir +:+ ".parquet")),
     mkWorld (fs w)
       (stdout w ++ ["Reading: " +:+ (default "None" output_dir +:+ ".parquet")
                       +:+ "..."])).
Proof.
  intros Hnone. unfold Convert.main.
  change (match output_dir with Some s => s | None => "None" end)
    with (default "None" output_dir).
  unfold bind, print, IO.read_parquet. cbn [fs stdout]. rewrite Hnone. reflexivity.
Qed.

Lemma parquet_to_csv_needs_the_table_witness :
  fs Example.empty_world !! (default "None" None +:+ ".parquet") = None
  /\ fst (Convert.main None Example.empty_world)
     = Exn (FileNotFoundError "None.parquet").
Proof.
  split; [reflexivity|].
  rewrite (parquet_to_csv_needs_the_table None Example.empty_world eq_refl).
  reflexivity.
Defined.

(** ** What a run does not depend on *)

Lemma sort_key_le_antisym k1 k2 :
  sort_key_le k1 k2 = true -> sort_key_le k2 k1 = true -> k1 = k2.
Proof.
  unfold sort_key_le. destruct k1 as [r1 n1], k2 as [r2 n2]. cbn [fst snd].
  intros H12 H21.
  apply orb_true_iff in H12 as [H12|H12], H21 as [H21|H21];
    rewrite ?andb_true_iff, ?Z.ltb_lt, ?Z.eqb_eq in *; try lia.
  destruct H12 as [-> H12], H21 as [_ H21]. f_equal.
  exact (String.leb_antisym _ _ H12 H21).
Qed.

Lemma same_key_same_file (l : list file) f g :
  List.NoDup (map sort_key l) -> In f l -> In g l -> sort_key f = sort_key g -> f = g.
Proof.
  induction l as [|h l IH]; intros Hnd Hf Hg Hk; [destruct Hf|].
  cbn [map] in Hnd. inversion Hnd as [|? ? Hh Hnd']; subst.
  destruct Hf as [->|Hf], Hg as [->|Hg].
  - reflexivity.
  - exfalso. apply Hh. rewrite Hk. apply in_map. exact Hg.
  - exfalso. apply Hh. rewrite <- Hk. apply in_map. exact Hf.
  - exact (IH Hnd' Hf Hg Hk).
Qed.

(** Two sorted lists of files with distinct keys that hold the same files
    are the same list. *)
Lemma sorted_unique (l1 l2 : list file) :
  StronglySorted file_le l1 -> StronglySorted file_le l2 ->
  Permutation l1 l2 -> List.NoDup (map sort_key l1) -> l1 = l2.
Proof.
  revert l2. induction l1 as [|x1 l1 IH]; intros l2 Hs1 Hs2 Hperm Hnd.
  - apply Permutation_nil in Hperm. subst l2. reflexivity.
  - destruct l2 as [|x2 l2];
      [apply Permutation_sym, Permutation_nil in Hperm; discriminate Hperm|].
    apply StronglySorted_inv in Hs1 as [Hs1 Hx1], Hs2 as [Hs2 Hx2].
    rewrite List.Forall_forall in Hx1, Hx2.
    assert (Heq : x1 = x2).
    { assert (H12 : file_le x1 x2).
      { assert (Hin : In x2 (x1 :: l1))
          by (apply (Permutation_in _ (Permutation_sym Hperm)); left; reflexivity).
        destruct Hin as [->|Hin]; [apply sort_key_le_refl | exact (Hx1 x2 Hin)]. }
      assert (H21 : file_le x2 x1).
      { assert (Hin : In x1 (x2 :: l2))
          by (apply (Permutation_in _ Hperm); left; reflexivity).
        destruct Hin as [->|Hin]; [apply sort_key_le_refl | exact (Hx2 x1 Hin)]. }
      apply (same_key_same_file (x1 :: l1)); [exact Hnd | left; reflexivity | |].
      - apply (Permutation_in _ (Permutation_sym Hperm)). left. reflexivity.
      - exact (sort_key_le_antisym _ _ H12 H21). }
    subst x2. f_equal. apply IH; [exact Hs1 | exact Hs2 | |].
    + exact (Permutation_cons_inv Hperm).
    + cbn [map] in Hnd. inversion Hnd. assumption.
Qed.

Lemma filter_Permutation {A} (P : A -> bool) (l1 l2 : list A) :
  Permutation l1 l2 -> Permutation (List.filter P l1) (List.filter P l2).
Proof.
  induction 1 as [|x l1 l2 Hp IH|x y l|l1 l2 l3 H12 IH12 H23 IH23]; cbn [List.filter].
  - constructor.
  - destruct (P x); [constructor|]; exact IH.
  - destruct (P x), (P y); try reflexivity. apply perm_swap.
  - exact (Permutation_trans IH12 IH23).
Qed.

(** X23: the run does not depend on the order in which the directory lists
    the files.  When the files left to process have distinct lower-cased
    names, two listings of the same files are processed in the same order,
    so [main] of either script does the same on both. *)
Theorem listing_order_does_not_matter `{Sorter}
        (globbed1 globbed2 : list file) :
  Permutation globbed1 globbed2 ->
  List.NoDup (map (fun f => Py.lower (fname f))
                (List.filter (fun f => negb (is_excluded (fname f))) globbed1)) ->
  processing_order globbed1 = processing_order globbed2
  /\ (forall a p dir_exists w,
        Batched.main a p dir_exists globbed1 w = Batched.main a p dir_exists globbed2 w)
  /\ (forall e p dir_exists w,
        Files.main e p dir_exists globbed1 w = Files.main e p dir_exists globbed2 w).
Proof.
  intros Hperm Hnd.
  set (kept1 := List.filter (fun f => negb (is_excluded (fname f))) globbed1) in *.
  set (kept2 := List.filter (fun f => negb (is_excluded (fname f))) globbed2).
  assert (Hkept : Permutation kept1 kept2) by (apply filter_Permutation; exact Hperm).
  assert (Hsorted : sorted_files kept1 = sorted_files kept2).
  { apply sorted_unique.
    - apply sorted_files_sorted.
    - apply sorted_files_sorted.
    - rewrite (sorted_files_perm kept1), (sorted_files_perm kept2). exact Hkept.
    - apply (Permutation_NoDup (l := map sort_key kept1)).
      + apply Permutation_map, Permutation_sym, sorted_files_perm.
      + apply (NoDup_map_inv snd). rewrite map_map. exact Hnd. }
  assert (Hnil : kept1 = [] <-> kept2 = []).
  { split; intros Hn.
    - rewrite Hn in Hkept. apply Permutation_nil in Hkept. exact Hkept.
    - rewrite Hn in Hkept. apply Permutation_sym, Permutation_nil in Hkept. exact Hkept. }
  split; [exact Hsorted|]. split.
  - intros a p dir_exists w. unfold Batched.main. fold kept1 kept2.
    destruct (negb dir_exists); [reflexivity|].
    destruct kept1 as [|f1 r1] eqn:E1, kept2 as [|f2 r2] eqn:E2.
    + reflexivity.
    + destruct Hnil as [Hn _]. discriminate (Hn eq_refl).
    + destruct Hnil as [_ Hn]. discriminate (Hn eq_refl).
    + rewrite Hsorted. reflexivity.
  - intros e p dir_exists w. unfold Files.main. fold kept1 kept2.
    destruct (negb (Files.truthy (Files.NHANES_INPUT_DIR e))
              || negb (Files.truthy (Files.NHANES_OUTPUT_DIR e))); [reflexivity|].
    destruct (negb dir_exists); [reflexivity|].
    destruct kept1 as [|f1 r1] eqn:E1, kept2 as [|f2 r2] eqn:E2.
    + reflexivity.
    + destruct Hnil as [Hn _]. discriminate (Hn eq_refl).
    + destruct Hnil as [_ Hn]. discriminate (Hn eq_refl).
    + rewrite Hsorted. reflexivity.
Qed.

Lemma listing_order_does_not_matter_witness :
  let listing1 := [Example.weights; Example.labs; Example.demographics] in
  let listing2 := [Example.labs; Example.demographics; Example.weights] in
  Permutation listing1 listing2
  /\ processing_order listing1 = [Example.demographics; Example.labs; Example.weights]
  /\ processing_order listing2 = [Example.demographics; Example.labs; Example.weights].
Proof.
  cbv zeta.
  assert (Hperm : Permutation [Example.weights; Example.labs; Example.demographics]
                              [Example.labs; Example.demographics; Example.weights]).
  { apply (perm_trans (l' := [Example.labs; Example.weights; Example.demographics]));
      [apply perm_swap | apply perm_skip, perm_swap]. }
  split; [exact Hperm|].
  destruct (listing_order_does_not_matter _ _ Hperm) as [Horder _].
  - vm_compute. repeat constructor; cbn; intuition discriminate.
  - rewrite <- Horder. split; vm_compute; reflexivity.
Defined.

Section store_irrelevant.
Context `{Numeric}.
Variable (load : file -> result DataFrame).

Lemma step_of_fst p f r l (store1 store2 : gmap string artifact) :
  fst (step_of p f r l store1) = fst (step_of p f r l store2).
Proof.
  unfold step_of. destruct r as [df|e]; [|reflexivity].
  destruct (merged_with l _) as [m|e]; [|reflexivity].
  destruct (IO.has_dups _); [reflexivity|].
  destruct (parquet_ok m); reflexivity.
Qed.

Lemma run_of_fst p files l (store1 store2 : gmap string artifact) :
  fst (run_of load p files l store1) = fst (run_of load p files l store2).
Proof.
  revert l store1 store2. induction files as [|f rest IH]; intros l store1 store2;
    [reflexivity|].
  cbn [run_of]. pose proof (step_of_fst p f (load f) l store1 store2) as Hstep.
  destruct (step_of p f (load f) l store1) as [[l1|e1|x1] s1];
    destruct (step_of p f (load f) l store2) as [[l2|e2|x2] s2];
    cbn [fst] in Hstep; try discriminate Hstep.
  - injection Hstep as <-. apply IH.
  - exact Hstep.
  - exact Hstep.
Qed.

End store_irrelevant.

Lemma Batched_end_fst `{Numeric} a p (r1 r2 : outcome locals * gmap string artifact) path :
  fst r1 = fst r2 -> path = out_parquet p ->
  out_parquet p <> out_csv p -> out_parquet p <> out_report p ->
  fst (Batched_end a p r1) = fst (Batched_end a p r2)
  /\ (fst (Batched_end a p r1) = Normal tt ->
      snd (Batched_end a p r1) !! path = snd (Batched_end a p r2) !! path).
Proof.
  destruct r1 as [o1 s1], r2 as [o2 s2]. cbn [fst]. intros <- -> Hcsv Hrep.
  destruct o1 as [l|e|x]; cbn [Batched_end fst snd]; [|split; [reflexivity|discriminate]..].
  destruct (accumulator l) as [acc|]; [|split; [reflexivity|discriminate]].
  destruct (IO.has_dups _); [split; [reflexivity|discriminate]|].
  destruct (parquet_ok acc); cbn [negb fst snd]; [|split; [reflexivity|discriminate]].
  split; [reflexivity|]. intros _.
  rewrite !(lookup_insert_ne _ (out_report p)) by congruence.
  destruct (Batched.csv a =? 1)%Z;
    rewrite ?(lookup_insert_ne _ (out_csv p)) by congruence;
    rewrite !lookup_insert_eq; reflexivity.
Qed.

Lemma Files_end_fst `{Numeric} e p (r1 r2 : outcome locals * gmap string artifact) path :
  fst r1 = fst r2 -> path = out_parquet p ->
  out_parquet p <> out_csv p -> out_parquet p <> out_report p ->
  out_parquet p <> tmp_parquet p ->
  fst (Files_end e p r1) = fst (Files_end e p r2)
  /\ (fst (Files_end e p r1) = Normal tt ->
      snd (Files_end e p r1) !! path = snd (Files_end e p r2) !! path).
Proof.
  destruct r1 as [o1 s1], r2 as [o2 s2]. cbn [fst]. intros <- -> Hcsv Hrep Htmp.
  destruct o1 as [l|ex|x]; cbn [Files_end fst snd]; [|split; [reflexivity|discriminate]..].
  destruct (accumulator l) as [acc|]; [|split; [reflexivity|discriminate]].
  destruct (IO.has_dups _); [split; [reflexivity|discriminate]|].
  destruct (parquet_ok acc); cbn [negb fst snd]; [|split; [reflexivity|discriminate]].
  split; [reflexivity|]. intros _.
  rewrite !lookup_delete_ne by congruence.
  rewrite !(lookup_insert_ne _ (out_report p)) by congruence.
  destruct (String.eqb (default "0" (Files.NHANES_MAKE_CSV e)) "1");
    rewrite ?(lookup_insert_ne _ (out_csv p)) by congruence;
    rewrite !lookup_insert_eq; reflexivity.
Qed.

(** X24: a run does not depend on the files an earlier run left behind.
    Started on two file systems, [main] of either script ends in the same
    way, and when it completes it leaves the same table at the output
    path; in particular a checkpoint that is already there is overwritten
    before it is read. *)
Theorem old_files_do_not_matter `{Sorter}
        (a : Batched.args) (e : Files.env) (p : paths) (dir_exists : bool)
        (globbed : list file) (w1 w2 : world) :
  out_parquet p <> out_csv p -> out_parquet p <> out_report p ->
  out_parquet p <> tmp_parquet p ->
  (fst (Batched.main a p dir_exists globbed w1)
   = fst (Batched.main a p dir_exists globbed w2)
   /\ (fst (Batched.main a p dir_exists globbed w1) = Normal tt ->
       fs (snd (Batched.main a p dir_exists globbed w1)) !! out_parquet p
       = fs (snd (Batched.main a p dir_exists globbed w2)) !! out_parquet p))
  /\ (fst (Files.main e p dir_exists globbed w1)
      = fst (Files.main e p dir_exists globbed w2)
      /\ (fst (Files.main e p dir_exists globbed w1) = Normal tt ->
          fs (snd (Files.main e p dir_exists globbed w1)) !! out_parquet p
          = fs (snd (Files.main e p dir_exists globbed w2)) !! out_parquet p)).
Proof.
  intros Hcsv Hrep Htmp. split.
  - destruct dir_exists; [|split; [reflexivity|discriminate]].
    destruct (decide (processing_order globbed = [])) as [Hnil|Hfiles].
    + rewrite !(Batched_main_no_files a p globbed _ Hnil).
      split; [reflexivity|discriminate].
    + destruct (Batched_main_run a p globbed w1 Hfiles) as [out1 ->].
      destruct (Batched_main_run a p globbed w2 Hfiles) as [out2 ->].
      cbn [fst snd fs].
      apply Batched_end_fst; [apply run_of_fst | reflexivity | exact Hcsv | exact Hrep].
  - destruct (Files.truthy (Files.NHANES_INPUT_DIR e)) eqn:Hin;
      [|unfold Files.main; rewrite Hin; split; [reflexivity|discriminate]].
    destruct (Files.truthy (Files.NHANES_OUTPUT_DIR e)) eqn:Hout;
      [|unfold Files.main; rewrite Hin, Hout; split; [reflexivity|discriminate]].
    destruct dir_exists;
      [|unfold Files.main; rewrite Hin, Hout; split; [reflexivity|discriminate]].
    destruct (decide (processing_order globbed = [])) as [Hnil|Hfiles].
    + rewrite !(Files_main_no_files e p globbed _ Hin Hout Hnil).
      split; [reflexivity|discriminate].
    + destruct (Files_main_run e p globbed w1 Hin Hout Hfiles) as [out1 ->].
      destruct (Files_main_run e p globbed w2 Hin Hout Hfiles) as [out2 ->].
      cbn [fst snd fs].
      apply Files_end_fst;
        [apply run_of_fst | reflexivity | exact Hcsv | exact Hrep | exact Htmp].
Qed.

Lemma old_files_do_not_matter_witness :
  let files := [Example.demographics; Example.weights] in
  let stale := mkWorld {[ "out_tmp.parquet" := CsvFile 0 [];
                          "out.parquet" := ReportFile [] ]} [] in
  fst (Files.main Example.environment Example.out_paths true files stale) = Normal tt
  /\ fs (snd (Files.main Example.environment Example.out_paths true files stale))
       !! "out.parquet"
     = fs (snd (Files.main Example.environment Example.out_paths true files
                  Example.empty_world)) !! "out.parquet".
Proof.
  cbv zeta.
  destruct (old_files_do_not_matter Example.arguments Example.environment
              Example.out_paths true [Example.demographics; Example.weights]
              (mkWorld {[ "out_tmp.parquet" := CsvFile 0 [];
                          "out.parquet" := ReportFile [] ]} [])
              Example.empty_world
              ltac:(discriminate) ltac:(discriminate) ltac:(discriminate))
    as [_ [Hend Hout]].
  assert (Hdone : fst (Files.main Example.environment Example.out_paths true
                         [Example.demographics; Example.weights]
                         (mkWorld {[ "out_tmp.parquet" := CsvFile 0 [];
                                     "out.parquet" := ReportFile [] ]} []))
                  = Normal tt) by (rewrite Hend; vm_compute; reflexivity).
  split; [exact Hdone | exact (Hout Hdone)].
Defined.

(** ** A loop that fails *)

Lemma step_of_Exn `{Numeric} p f r l (store : gmap string artifact) e store' :
  step_of p f r l store = (Exn e, store') -> store' = store.
Proof.
  unfold step_of. destruct r as [df|e0]; [|discriminate].
  destruct (merged_with l _) as [m|e0]; [|intros Heq; injection Heq as _ <-; reflexivity].
  destruct (IO.has_dups _); [intros Heq; injection Heq as _ <-; reflexivity|].
  destruct (parquet_ok m); cbn [negb]; [discriminate|].
  intros Heq; injection Heq as _ <-; reflexivity.
Qed.

Section failing_loop.
Context `{Sorter}.
Variables (read : file -> M DataFrame) (load : file -> result DataFrame).
Hypothesis Hreads : reads read load.

Lemma body_with_Exn p total i f l w e w' :
  body_with read p total i f l w = (Exn e, w') -> fs w' = fs w.
Proof.
  destruct (body_with_spec read load Hreads p total i f l w) as [out ->].
  destruct (step_of p f (load f) l (fs w)) as [o store'] eqn:Hstep. cbn [fst snd].
  intros Heq. injection Heq as -> <-. cbn [fs].
  exact (step_of_Exn _ _ _ _ _ _ _ Hstep).
Qed.

Lemma loop_with_Exn p total files :
  forall i l w e w',
    loop_with read p total i files l w = (Exn e, w') ->
    exists pre f post l1 w1,
      files = pre ++ f :: post
      /\ loop_with read p total i pre l w = (Normal l1, w1)
      /\ body_with read p total (i + length pre) f l1 w1 = (Exn e, w')
      /\ fs w' = fs w1.
Proof.
  induction files as [|f rest IH]; intros i l w e w' Hloop; [discriminate Hloop|].
  cbn [loop_with] in Hloop. unfold bind at 1 in Hloop.
  destruct (body_with read p total i f l w) as [[l1|e1|x1] w1] eqn:Hbody.
  - destruct (IH _ _ _ _ _ Hloop) as (pre & g & post & l2 & w2 & -> & Hpre & Hg & Hfs).
    exists (f :: pre), g, post, l2, w2. split; [reflexivity|]. split.
    + cbn [loop_with]. unfold bind at 1. rewrite Hbody. exact Hpre.
    + cbn [length]. rewrite Nat.add_succ_r. split; [exact Hg | exact Hfs].
  - injection Hloop as -> ->. exists [], f, rest, l, w. split; [reflexivity|].
    split; [reflexivity|]. cbn [length]. rewrite Nat.add_0_r.
    split; [exact Hbody | exact (body_with_Exn _ _ _ _ _ _ _ _ Hbody)].
  - discriminate Hloop.
Qed.

End failing_loop.

(** X25: a loop that fails stops at the failing file and keeps the last
    checkpoint.  When the loop of either script ends in an exception, the
    files before some file were processed to the end, the step for that
    file raised the exception, the files after it were not looked at, and
    the failing step wrote nothing: the files on disk are those the steps
    before it left. *)
Theorem failed_step_keeps_the_checkpoint `{Sorter}
        (p : paths) (total i : nat) (files : list file) (l : locals) (w : world)
        (e : exn) (w' : world) :
  (Batched.loop p total i files l w = (Exn e, w') ->
   exists pre f post l1 w1,
     files = pre ++ f :: post
     /\ Batched.loop p total i pre l w = (Normal l1, w1)
     /\ Batched.loop_body p total (i + length pre) f l1 w1 = (Exn e, w')
     /\ fs w' = fs w1)
  /\ (Files.loop p total i files l w = (Exn e, w') ->
      exists pre f post l1 w1,
        files = pre ++ f :: post
        /\ Files.loop p total i pre l w = (Normal l1, w1)
        /\ Files.loop_body p total (i + length pre) f l1 w1 = (Exn e, w')
        /\ fs w' = fs w1).
Proof.
  split; intros Hloop.
  - rewrite Batched_loop_eq in Hloop.
    destruct (loop_with_Exn _ _ Batched_reads _ _ _ _ _ _ _ _ Hloop)
      as (pre & f & post & l1 & w1 & Hfiles & Hpre & Hf & Hfs).
    exists pre, f, post, l1, w1.
    rewrite Batched_loop_eq, Batched_loop_body_eq. auto.
  - rewrite Files_loop_eq in Hloop.
    destruct (loop_with_Exn _ _ Files_reads _ _ _ _ _ _ _ _ Hloop)
      as (pre & f & post & l1 & w1 & Hfiles & Hpre & Hf & Hfs).
    exists pre, f, post, l1, w1.
    rewrite Files_loop_eq, Files_loop_body_eq. auto.
Qed.

Lemma failed_step_keeps_the_checkpoint_witness :
  let files := [Example.demographics; Example.visits; Example.weights] in
  let ended := Batched.loop Example.out_paths 3 1 files (mkLocals None [])
                 Example.empty_world in
  (exists e, fst ended = Exn e)
  /\ exists pre f post l1 w1,
       files = pre ++ f :: post
       /\ Batched.loop Example.out_paths 3 1 pre (mkLocals None []) Example.empty_world
          = (Normal l1, w1)
       /\ fs (snd ended) = fs w1.
Proof.
  cbv zeta.
  set (ended := Batched.loop Example.out_paths 3 1
                  [Example.demographics; Example.visits; Example.weights]
                  (mkLocals None []) Example.empty_world).
  set (e := match fst ended with Exn e => e | _ => ValueError "" end).
  assert (Hended : ended = (Exn e, snd ended)) by (vm_compute; reflexivity).
  split; [exists e; rewrite Hended; reflexivity|].
  destruct (failed_step_keeps_the_checkpoint Example.out_paths 3 1
              [Example.demographics; Example.visits; Example.weights]
              (mkLocals None []) Example.empty_world e (snd ended)) as [Hbatched _].
  destruct (Hbatched Hended) as (pre & f & post & l1 & w1 & Hfiles & Hpre & _ & Hfs).
  exists pre, f, post, l1, w1. auto.
Defined.
